(** * ledSignController: the ESPHome BetaBrite component and the feed utility

  A shallow embedding of
    - [esphome-betabrite/components/betabrite/__init__.py]: the
      configuration schemas, [validate_address], [to_code] and the
      [betabrite.priority] action;
    - [updateFeed.py]: [getNews], [getFacts], [getTrivia], [getJokes],
      [sendToMqtt] and [main].

  Python values are modelled by inductive types, exceptions by a
  [result] monad, generated C++ by the list of statements that [cg.add]
  collects, and the network by an explicit world state.

  Text is modelled by [string] restricted to ASCII: [len] is
  [String.length] and [str.lower] changes the letters A-Z only.
  YAML floating-point scalars are not represented. *)

From Stdlib Require Import ZArith List String Ascii Bool Lia DecimalString.
Import ListNotations.
Open Scope string_scope.
Open Scope Z_scope.
Set Warnings "-register-all".

(* ================================================================== *)
(** * Python values and exceptions *)

Module Py.

(** The exceptions the modelled code can raise. *)
Inductive exn : Type :=
| Invalid (msg : string)          (* cv.Invalid *)
| KeyError (key : string)
| IndexError
| TypeError
| AttributeError                  (* attribute access on None *)
| JSONDecodeError
| ParseError                      (* xml.etree.ElementTree.ParseError *)
| ConnectionRefusedError.

Inductive result (A : Type) : Type :=
| Ok (a : A)
| Raise (e : exn).
Arguments Ok {A} a.
Arguments Raise {A} e.

Definition bind {A B} (m : result A) (k : A -> result B) : result B :=
  match m with
  | Ok a => k a
  | Raise e => Raise e
  end.

Definition accepted {A} (m : result A) : Prop := exists a, m = Ok a.

Definition is_ok {A} (m : result A) : bool :=
  match m with Ok _ => true | Raise _ => false end.

(** [mapM f l]: apply [f] to the elements from left to right and stop at
    the first exception. *)
Fixpoint mapM {A B} (f : A -> result B) (l : list A) : result (list B) :=
  match l with
  | [] => Ok []
  | x :: xs =>
      bind (f x) (fun y => bind (mapM f xs) (fun ys => Ok (y :: ys)))
  end.

(** A configuration value as the YAML loader hands it to the schema. *)
Inductive yaml : Type :=
| YNone
| YBool (b : bool)
| YInt (n : Z)
| YStr (s : string)
| YList (l : list yaml)
| YDict (d : list (string * yaml))
| YLambda (src : string).          (* a [!lambda] template *)

(** The classes of [TimePeriod] the validators return; the class decides
    the unit in which code generation prints the period. *)
Inductive time_class : Type := TimePeriodMilliseconds | TimePeriodSeconds.

(** A validated configuration value. *)
Inductive value : Type :=
| Bool (b : bool)
| Int (n : Z)
| Str (s : string)
| TimePeriod (c : time_class) (microseconds : Z)
| ID (name : option string)
| Lambda (src : string)
| List (l : list value)
| Dict (d : list (string * value)).

(** Dictionaries are association lists read at the first binding. *)
Fixpoint lookup {A} (k : string) (d : list (string * A)) : option A :=
  match d with
  | [] => None
  | (k', v) :: d' => if String.eqb k k' then Some v else lookup k d'
  end.

(** [d[k]] *)
Definition getitem {A} (d : list (string * A)) (k : string) : result A :=
  match lookup k d with
  | Some v => Ok v
  | None => Raise (KeyError k)
  end.

(** [k in d] *)
Definition contains {A} (k : string) (d : list (string * A)) : bool :=
  match lookup k d with Some _ => true | None => false end.

(** [str.lower] on ASCII text. *)
Definition lower_ascii (c : ascii) : ascii :=
  let n := N_of_ascii c in
  if ((65 <=? n) && (n <=? 90))%N then ascii_of_N (n + 32) else c.

Fixpoint lower (s : string) : string :=
  match s with
  | EmptyString => EmptyString
  | String c s' => String (lower_ascii c) (lower s')
  end.

(** [str(n)] for an [int]. *)
Definition str_int (n : Z) : string := NilZero.string_of_int (Z.to_int n).

(** [x in values] for a list of strings. *)
Definition member (x : string) (values : list string) : bool :=
  existsb (String.eqb x) values.

(** [s.startswith(p)] *)
Definition startswith (p s : string) : bool := String.prefix p s.

(** Code with effects on a state [S] that may raise: the state is lost
    when an exception escapes. *)
Definition stateful (S A : Type) : Type := S -> result (A * S).

Definition ret {S A} (a : A) : stateful S A := fun s => Ok (a, s).

Definition sbind {S A B} (m : stateful S A) (k : A -> stateful S B)
  : stateful S B :=
  fun s =>
    match m s with
    | Ok (a, s') => k a s'
    | Raise e => Raise e
    end.

(** A computation that leaves the state alone. *)
Definition lift {S A} (r : result A) : stateful S A :=
  fun s =>
    match r with
    | Ok a => Ok (a, s)
    | Raise e => Raise e
    end.

(** [for x in l: body(x)] *)
Fixpoint for_each {S A} (l : list A) (body : A -> stateful S unit)
  : stateful S unit :=
  match l with
  | [] => ret tt
  | x :: xs => sbind (body x) (fun _ => for_each xs body)
  end.

End Py.

Export Py.

Notation "x <- m ;; k" := (Py.bind m (fun x => k))
(at level 61, m at next level, right associativity).
Notation "x <~ m ;; k" := (Py.sbind m (fun x => k))
(at level 61, m at next level, right associativity).
Notation "m ;;; k" := (Py.sbind m (fun _ => k))
(at level 61, right associativity).

(* ================================================================== *)
(** * The validators of [esphome.config_validation] that the component uses

    These are library functions of ESPHome, outside this repository; each
    definition follows the library's behaviour on the values of [yaml].
    Not modelled: the nanosecond unit of time periods, fractional and
    colon-separated time periods, time periods written as dictionaries,
    the rounding of a time period of more than fifteen digits (the
    library reads the number as a float), and ESPHome's list of reserved
    identifiers. *)

Module cv.

(** [check_not_templatable] *)
Definition check_not_templatable (v : yaml) : result yaml :=
  match v with
  | YLambda _ => Raise (Invalid "This option is not templatable!")
  | _ => Ok v
  end.

(** [type(value)] as Python prints it. *)
Definition type_name (v : yaml) : string :=
  match v with
  | YNone => "<class 'NoneType'>"
  | YBool _ => "<class 'bool'>"
  | YInt _ => "<class 'int'>"
  | YStr _ => "<class 'str'>"
  | YList _ => "<class 'list'>"
  | YDict _ => "<class 'dict'>"
  | YLambda _ => "<class 'esphome.core.Lambda'>"
  end.

(** [cv.string_strict]: only strings, no conversion. *)
Definition string_strict (v : yaml) : result string :=
  v <- check_not_templatable v ;;
  match v with
  | YStr s => Ok s
  | _ => Raise (Invalid
      ("Must be string, got " ++ type_name v
       ++ ". did you forget putting quotes around the value?"))
  end.

(** [cv.string]: strings, and scalars converted with [str]. *)
Definition string_ (v : yaml) : result string :=
  v <- check_not_templatable v ;;
  match v with
  | YDict _ | YList _ =>
      Raise (Invalid "string value cannot be dictionary or list.")
  | YBool _ =>
      Raise (Invalid
        "Auto-converted this value to boolean, please wrap the value in quotes.")
  | YStr s => Ok s
  | YInt n => Ok (str_int n)
  | YNone => Raise (Invalid "string value is None")
  | YLambda _ => Raise (Invalid "This option is not templatable!")
  end.

(** [cv.string] as a validator of a schema. *)
Definition string_value (v : yaml) : result value :=
  s <- string_ v ;; Ok (Str s).

(** [cv.one_of] over [values] with its [lower] flag. With [lower] the value is first
    converted by [cv.string], blanks are replaced by the blank (the default
    of [space]) and the text is lower-cased; the result must be one of
    [values]. *)
Definition one_of (values : list string) (lower_ : bool) (v : yaml)
  : result value :=
  if lower_ then
    s <- string_ v ;;
    let s := lower s in
    if member s values then Ok (Str s)
    else Raise (Invalid ("Unknown value '" ++ s ++ "'"))
  else
    match v with
    | YStr s => if member s values then Ok (Str s)
                else Raise (Invalid ("Unknown value '" ++ s ++ "'"))
    | _ => Raise (Invalid "Unknown value")
    end.

(** The value of one digit in [base] 10 or 16 (lower-case text). *)
Definition digit_of (base : Z) (c : ascii) : option Z :=
  let n := Z.of_N (N_of_ascii c) in
  if (48 <=? n) && (n <=? 57) then Some (n - 48)
  else if (base =? 16) && (97 <=? n) && (n <=? 102) then Some (n - 87)
  else None.

Fixpoint digits_value (base : Z) (s : string) (acc : Z) : option Z :=
  match s with
  | EmptyString => Some acc
  | String c s' =>
      match digit_of base c with
      | Some d => digits_value base s' (acc * base + d)
      | None => None
      end
  end.

(** The blanks that Python's [int] skips around a numeral: tab, line
    feed, vertical tab, form feed, carriage return and space. *)
Definition is_space (c : ascii) : bool :=
  let n := Z.of_N (N_of_ascii c) in
  ((9 <=? n) && (n <=? 13)) || (n =? 32).

Fixpoint lstrip (l : list ascii) : list ascii :=
  match l with
  | c :: r => if is_space c then lstrip r else l
  | [] => []
  end.

Definition rstrip (l : list ascii) : list ascii := rev (lstrip (rev l)).

Definition strip (l : list ascii) : list ascii := rstrip (lstrip l).

(** One turn of the loop of [int] over the digits: the value so far and
    whether the last character was a digit. An underscore may only follow
    a digit. *)
Definition digit_step (base : Z) (state : option (Z * bool)) (c : ascii)
  : option (Z * bool) :=
  match state with
  | None => None
  | Some (acc, after_digit) =>
      if Ascii.eqb c "_"
      then (if after_digit then Some (acc, false) else None)
      else match digit_of base c with
           | Some d => Some (acc * base + d, true)
           | None => None
           end
  end.

(** One underscore may follow the prefix of the base. *)
Definition skip_underscore (l : list ascii) : list ascii :=
  match l with
  | c :: r => if Ascii.eqb c "_" then r else l
  | [] => []
  end.

(** The sign of a numeral, and what follows it. *)
Definition split_sign (l : list ascii) : Z * list ascii :=
  match l with
  | c :: r => if Ascii.eqb c "-" then (-1, r)
              else if Ascii.eqb c "+" then (1, r)
              else (1, l)
  | [] => (1, l)
  end.

(** When the base is 16, [0x] or [0X] is skipped, and one underscore
    after it. *)
Definition skip_prefix (base : Z) (l : list ascii) : list ascii :=
  match l with
  | c :: x :: r =>
      if (base =? 16) && Ascii.eqb c "0"
         && (Ascii.eqb x "x" || Ascii.eqb x "X")
      then skip_underscore r
      else l
  | _ => l
  end.

(** The loop over the digits: they must go to the end of the text, and
    the text must end on a digit. *)
Definition scan_digits (base : Z) (l : list ascii) : option Z :=
  match fold_left (digit_step base) l (Some (0, false)) with
  | Some (n, true) => Some n
  | _ => None
  end.

(** Python's [int(s, base)] for the bases 10 and 16: blanks around are
    skipped; then come an optional sign, [0x] when the base is 16, and
    digits, where single underscores may stand between digits. *)
Definition py_int (s : string) (base : Z) : option Z :=
  let '(sign, body) := split_sign (strip (list_ascii_of_string s)) in
  option_map (Z.mul sign) (scan_digits base (skip_prefix base body)).

(** [cv.int_]: an [int] is returned as it is, and so is a [bool], which is
    a subclass of [int]; a string is parsed, in base 16 when its
    lower-cased text starts with [0x]. The library's branch for a float
    (one without fractional part is converted to its integer) has no
    counterpart here, a float not being a value of [yaml]. *)
Definition int_ (v : yaml) : result value :=
  v <- check_not_templatable v ;;
  match v with
  | YInt n => Ok (Int n)
  | YBool b => Ok (Bool b)
  | _ =>
      s <- string_strict v ;;
      let s := lower s in
      let base := if startswith "0x" s then 16 else 10 in
      match py_int s base with
      | Some n => Ok (Int n)
      | None => Raise (Invalid "Expected integer, but cannot parse the value as an integer")
      end
  end.

(** The number that Python compares a value as: [True] is 1 and [False]
    is 0. *)
Definition as_number (x : value) : option Z :=
  match x with
  | Int n => Some n
  | Bool b => Some (Z.b2z b)
  | _ => None
  end.

(** [cv.Range(min=lo, max=hi)], both bounds included; the value is
    returned as it came. *)
Definition Range (lo hi : Z) (x : value) : result value :=
  match as_number x with
  | Some n =>
      if n <? lo then Raise (Invalid ("value must be at least " ++ str_int lo))
      else if hi <? n
           then Raise (Invalid ("value must be at most " ++ str_int hi))
           else Ok x
  | None =>
      Raise (Invalid "invalid value or type (must have a partial ordering)")
  end.

(** [cv.int_range(min=lo, max=hi)] is [All(int_, Range(min=lo, max=hi))]. *)
Definition int_range (lo hi : Z) (v : yaml) : result value :=
  x <- int_ v ;;
  Range lo hi x.

(** [cv.float_] is [Coerce(float)], here on the whole numbers only. *)
Definition float_ (v : yaml) : result value :=
  match v with
  | YInt n => Ok (Int n)
  | YBool b => Ok (Int (Z.b2z b))
  | YStr s =>
      match py_int s 10 with
      | Some n => Ok (Int n)
      | None => Raise (Invalid "expected float")
      end
  | _ => Raise (Invalid "expected float")
  end.

(** [cv.boolean] *)
Definition boolean (v : yaml) : result value :=
  match v with
  | YBool b => Ok (Bool b)
  | YStr s =>
      let s := lower s in
      if member s ["true"; "yes"; "on"; "enable"] then Ok (Bool true)
      else if member s ["false"; "no"; "off"; "disable"] then Ok (Bool false)
      else Raise (Invalid "Expected boolean value")
  | _ => Raise (Invalid "Expected boolean value")
  end.

(** The keyword arguments of [TimePeriod] that a unit can select. *)
Inductive time_unit : Type :=
| Microseconds | Milliseconds | Seconds | Minutes | Hours | Days.

(** The units of [time_period_str_unit]. *)
Definition unit_to_kwarg : list (string * time_unit) :=
  [ ("us", Microseconds); ("microseconds", Microseconds);
    ("ms", Milliseconds); ("milliseconds", Milliseconds);
    ("s", Seconds); ("sec", Seconds); ("seconds", Seconds);
    ("min", Minutes); ("minutes", Minutes);
    ("h", Hours); ("hours", Hours);
    ("d", Days); ("days", Days) ].

(** The [TimePeriod] built from one keyword and a whole amount: the one
    field that is set, the others are [None]. *)
Record period : Type := Period { kwarg : time_unit; amount : Z }.

Definition microseconds_in (u : time_unit) : Z :=
  match u with
  | Microseconds => 1
  | Milliseconds => 1000
  | Seconds => 1000000
  | Minutes => 60000000
  | Hours => 3600000000
  | Days => 86400000000
  end.

(** [p.total_microseconds] *)
Definition total_microseconds (p : period) : Z :=
  amount p * microseconds_in (kwarg p).

(** [p.microseconds] and [p.milliseconds] *)
Definition microseconds_of (p : period) : option Z :=
  match kwarg p with
  | Microseconds => Some (amount p)
  | _ => None
  end.

Definition milliseconds_of (p : period) : option Z :=
  match kwarg p with
  | Milliseconds => Some (amount p)
  | _ => None
  end.

(** [field is not None and field != 0] *)
Definition given_and_not_zero (field : option Z) : bool :=
  match field with
  | Some n => negb (n =? 0)
  | None => false
  end.

Definition is_digit (c : ascii) : bool :=
  let n := Z.of_N (N_of_ascii c) in (48 <=? n) && (n <=? 57).

(** The longest prefix of digits, and the rest. *)
Fixpoint span_digits (s : string) : string * string :=
  match s with
  | EmptyString => (EmptyString, EmptyString)
  | String c s' =>
      if is_digit c
      then let '(d, r) := span_digits s' in (String c d, r)
      else (EmptyString, s)
  end.

(** The blanks that [\s] matches in a regular expression: those of
    [is_space] and the four separators 28 to 31. *)
Definition is_regex_space (c : ascii) : bool :=
  let n := Z.of_N (N_of_ascii c) in
  is_space c || ((28 <=? n) && (n <=? 31)).

Fixpoint skip_blanks (s : string) : string :=
  match s with
  | String c s' => if is_regex_space c then skip_blanks s' else s
  | EmptyString => EmptyString
  end.

(** [$] also matches before a line feed that ends the text. *)
Fixpoint without_final_newline (s : string) : string :=
  match s with
  | EmptyString => EmptyString
  | String c r =>
      match r with
      | EmptyString =>
          if Ascii.eqb c (ascii_of_nat 10) then EmptyString else s
      | String _ _ => String c (without_final_newline r)
      end
  end.

(** [cv.time_period_str_unit]: a signed whole number, blanks, a unit. *)
Definition time_period_str_unit (v : yaml) : result period :=
  v <- check_not_templatable v ;;
  match v with
  | YInt _ | YBool _ =>
      Raise (Invalid "Don't know what the value means as it has no time *unit*!")
  | YStr s =>
      let '(sign, body) :=
        match s with
        | String c r => if Ascii.eqb c "-" then (-1, r)
                        else if Ascii.eqb c "+" then (1, r)
                        else (1, s)
        | EmptyString => (1, s)
        end in
      let '(digits, rest) := span_digits body in
      match digits_value 10 digits 0, digits with
      | _, EmptyString => Raise (Invalid "Expected time period with unit")
      | None, _ => Raise (Invalid "Expected time period with unit")
      | Some n, _ =>
          match lookup (without_final_newline (skip_blanks rest))
                  unit_to_kwarg with
          | Some unit_ => Ok (Period unit_ (sign * n))
          | None => Raise (Invalid "Unknown value for the time unit")
          end
      end
  | _ => Raise (Invalid "Expected string for time period with unit.")
  end.

(** [cv.positive_time_period] is
    [All(time_period, Range(min=TimePeriod()))]. *)
Definition positive_time_period (v : yaml) : result period :=
  p <- time_period_str_unit v ;;
  if total_microseconds p <? 0
  then Raise (Invalid "Time period must be positive!")
  else Ok p.

(** [cv.time_period_in_milliseconds_] looks at the field that was
    written, not at the length of the period. *)
Definition time_period_in_milliseconds_ (p : period) : result value :=
  if given_and_not_zero (microseconds_of p)
  then Raise (Invalid "Maximum precision is milliseconds")
  else Ok (TimePeriod TimePeriodMilliseconds (total_microseconds p)).

(** [cv.time_period_in_seconds_] *)
Definition time_period_in_seconds_ (p : period) : result value :=
  if given_and_not_zero (microseconds_of p)
  then Raise (Invalid "Maximum precision is seconds")
  else if given_and_not_zero (milliseconds_of p)
       then Raise (Invalid "Maximum precision is seconds")
       else Ok (TimePeriod TimePeriodSeconds (total_microseconds p)).

(** [cv.positive_time_period_milliseconds] *)
Definition positive_time_period_milliseconds (v : yaml) : result value :=
  p <- positive_time_period v ;;
  time_period_in_milliseconds_ p.

(** [cv.positive_time_period_seconds] *)
Definition positive_time_period_seconds (v : yaml) : result value :=
  p <- positive_time_period v ;;
  time_period_in_seconds_ p.

(** [cv.templatable(validator)]: a lambda is kept, anything else is
    validated. *)
Definition templatable (validator : yaml -> result value) (v : yaml)
  : result value :=
  match v with
  | YLambda src => Ok (Lambda src)
  | _ => validator v
  end.

(** The characters of an identifier. *)
Definition is_id_char (c : ascii) : bool :=
  let n := Z.of_N (N_of_ascii c) in
  ((48 <=? n) && (n <=? 57)) || ((65 <=? n) && (n <=? 90))
  || ((97 <=? n) && (n <=? 122)) || (n =? 95).

Fixpoint all_chars (p : ascii -> bool) (s : string) : bool :=
  match s with
  | EmptyString => true
  | String c s' => p c && all_chars p s'
  end.

(** [cv.declare_id] and [cv.use_id]: no value stands for an identifier
    that ESPHome generates, a string must be a C++ identifier. *)
Definition validate_id (v : yaml) : result value :=
  match v with
  | YNone => Ok (ID None)
  | YStr (String c _ as s) =>
      if all_chars is_id_char s && negb (is_digit c) then Ok (ID (Some s))
      else Raise (Invalid "Invalid ID")
  | _ => Raise (Invalid "ID must be a string")
  end.

Definition declare_id := validate_id.
Definition use_id := validate_id.

(** [cv.ensure_list(validator)] *)
Definition ensure_list (validator : yaml -> result value) (v : yaml)
  : result value :=
  v <- check_not_templatable v ;;
  match v with
  | YNone | YDict [] => Ok (List [])
  | YList l => l' <- mapM validator l ;; Ok (List l')
  | _ => x <- validator v ;; Ok (List [x])
  end.

(** ** Schemas

    [cv.Required(key)] and [cv.Optional(key, default=...)];
    [cv.GenerateID(key)] is [Optional] with the default [None]. *)
Inductive marker : Type :=
| Required
| Optional (default : option yaml).

Definition GenerateID : marker := Optional (Some YNone).

Record entry : Type := Entry {
  key : string;
  mark : marker;
  validator : yaml -> result value
}.

(** The validated value of one key of a schema in the dictionary [d]:
    [None] when an optional key without default is missing. *)
Definition validate_entry (e : entry) (d : list (string * yaml))
  : result (option value) :=
  match lookup (key e) d, mark e with
  | Some v, _ => x <- validator e v ;; Ok (Some x)
  | None, Required => Raise (Invalid "required key not provided")
  | None, Optional (Some v) => x <- validator e v ;; Ok (Some x)
  | None, Optional None => Ok None
  end.

Fixpoint validate_entries (es : list entry) (d : list (string * yaml))
  : result (list (string * value)) :=
  match es with
  | [] => Ok []
  | e :: es' =>
      ov <- validate_entry e d ;;
      out <- validate_entries es' d ;;
      Ok (match ov with
          | Some x => (key e, x) :: out
          | None => out
          end)
  end.

Definition known_key (es : list entry) (k : string) : bool :=
  existsb (fun e => String.eqb k (key e)) es.

(** [cv.Schema({...})] applied to a value: a dictionary whose keys are all
    keys of the schema. *)
Definition Schema (es : list entry) (v : yaml) : result value :=
  match v with
  | YDict d =>
      if forallb (fun kv => known_key es (fst kv)) d
      then out <- validate_entries es d ;; Ok (Dict out)
      else Raise (Invalid "extra keys not allowed")
  | _ => Raise (Invalid "expected a dictionary")
  end.

(** [schema.extend(other)] *)
Definition extend (es other : list entry) : list entry := es ++ other.

(** [cv.COMPONENT_SCHEMA] *)
Definition COMPONENT_SCHEMA : list entry :=
  [ Entry "setup_priority" (Optional None) float_ ].

End cv.

(* ================================================================== *)
(** * Code generation: [esphome.codegen]

    [cg.add] appends a statement to the generated C++ program. A function
    that generates code is a computation over the statements added so far
    that may raise. *)

Module cg.

Inductive expression : Type :=
| IntLiteral (n : Z)
| BoolLiteral (b : bool)
| StringLiteral (s : string)
| RawExpression (text : string)
| MemberOf (namespace name : string)       (* [getattr(ns, name)] *)
| LambdaExpression (src return_type : string)
| VariableOf (id : option string).

(** One generated statement. The method calls of a function all go to the
    variable that the function creates with [new_Pvariable]. *)
Inductive statement : Type :=
| NewPvariable (id : value)
| RegisterComponent
| RegisterUartDevice (uart_id : value)
| Call (method : string) (args : list expression).

Definition gen (A : Type) : Type := stateful (list statement) A.

(** [cg.add(statement)] *)
Definition add (s : statement) : gen unit :=
  fun code => Ok (tt, (code ++ [s])%list).

(** The statements a computation generates, starting from none. *)
Definition generated {A} (m : gen A) : result (list statement) :=
  match m [] with
  | Ok (_, code) => Ok code
  | Raise e => Raise e
  end.

(** [safe_exp]: the C++ expression of a configuration value. A period is
    printed as a whole number in the unit of its class. *)
Definition safe_exp (v : value) : result expression :=
  match v with
  | Bool b => Ok (BoolLiteral b)
  | Int n => Ok (IntLiteral n)
  | Str s => Ok (StringLiteral s)
  | TimePeriod TimePeriodMilliseconds us => Ok (IntLiteral (us / 1000))
  | TimePeriod TimePeriodSeconds us => Ok (IntLiteral (us / 1000000))
  | ID name => Ok (VariableOf name)
  | Lambda _ | List _ | Dict _ => Raise TypeError
  end.

(** [cg.templatable(value, args, output_type)] *)
Definition templatable (v : value) (output_type : string)
  : result expression :=
  match v with
  | Lambda src => Ok (LambdaExpression src output_type)
  | _ => safe_exp v
  end.

End cg.

(* ================================================================== *)
(** * [esphome-betabrite/components/betabrite/__init__.py] *)

Module betabrite.
Import cv cg.

(** Configuration keys *)
Definition CONF_ID := "id".
Definition CONF_UART_ID := "uart_id".
Definition CONF_SIGN_TYPE := "sign_type".
Definition CONF_ADDRESS := "address".
Definition CONF_MAX_FILES := "max_files".
Definition CONF_DEFAULTS := "defaults".
Definition CONF_OFFLINE_MESSAGES := "offline_messages".
Definition CONF_CLOCK := "clock".
Definition CONF_PRIORITY := "priority".
Definition CONF_COLOR := "color".
Definition CONF_MODE := "mode".
Definition CONF_CHARSET := "charset".
Definition CONF_POSITION := "position".
Definition CONF_SPEED := "speed".
Definition CONF_EFFECT := "effect".
Definition CONF_TEXT := "text".
Definition CONF_DURATION := "duration".
Definition CONF_ENABLED := "enabled".
Definition CONF_INTERVAL := "interval".
Definition CONF_FORMAT := "format".
Definition CONF_WARNING_DURATION := "warning_duration".
Definition CONF_DEFAULT_DURATION := "default_duration".

(** Sign type options: the option and the C++ enumerator it selects. *)
Definition SIGN_TYPES : list (string * string) :=
  [ ("all", "ST_ALL");
    ("betabrite", "ST_BETABRITE");
    ("1line", "ST_1LINE");
    ("2line", "ST_2LINE");
    ("alphavision", "ST_ALPHA_VISION");
    ("alphaeclipse", "ST_ALPHA_ECLIPSE_3600");
    ("alphapremiere", "ST_ALPHA_PREMIERE") ].

(** Iterating a dictionary yields its keys. *)
Definition SIGN_TYPE_KEYS : list string := map fst SIGN_TYPES.

Definition COLORS : list string :=
  [ "red"; "green"; "amber"; "dimred"; "dimgreen"; "brown";
    "orange"; "yellow"; "rainbow1"; "rainbow2"; "colormix"; "autocolor" ].

Definition MODES : list string :=
  [ "rotate"; "hold"; "flash"; "rollup"; "rolldown"; "rollleft";
    "rollright"; "wipeup"; "wipedown"; "wipeleft"; "wiperight";
    "scroll"; "special"; "automode"; "rollin"; "rollout";
    "wipein"; "wipeout"; "comprotate"; "explode"; "clock" ].

Definition EFFECTS : list string :=
  [ "twinkle"; "sparkle"; "snow"; "interlock"; "switch"; "slide";
    "spray"; "starburst"; "welcome"; "slots"; "newsflash"; "trumpet";
    "cyclecolors"; "thankyou"; "nosmoking"; "dontdrinkanddrive";
    "fishimal"; "fireworks"; "turballoon"; "bomb" ].

Definition CHARSETS : list string :=
  [ "5high"; "5stroke"; "7high"; "7stroke"; "7highfancy";
    "10high"; "7shadow"; "fhighfancy"; "fhigh"; "7shadowfancy";
    "5wide"; "7wide"; "7widefancy"; "5widestroke" ].

Definition POSITIONS : list string :=
  [ "midline"; "topline"; "botline"; "fill"; "left"; "right" ].

Definition CLOCK_FORMATS : list string := [ "12h"; "24h" ].

(** Validate sign address (2 characters). *)
Definition validate_address (v : yaml) : result value :=
  s <- string_strict v ;;
  if negb (Nat.eqb (String.length s) 2)
  then Raise (Invalid "Address must be exactly 2 characters")
  else Ok (Str s).

Definition OFFLINE_MESSAGE_SCHEMA : list entry :=
  [ Entry CONF_TEXT Required string_value;
    Entry CONF_COLOR (Optional (Some (YStr "green"))) (one_of COLORS true);
    Entry CONF_MODE (Optional (Some (YStr "rotate"))) (one_of MODES true);
    Entry CONF_DURATION (Optional (Some (YStr "10s")))
      positive_time_period_milliseconds;
    Entry CONF_EFFECT (Optional None) (one_of EFFECTS true);
    Entry CONF_CHARSET (Optional (Some (YStr "7high"))) (one_of CHARSETS true);
    Entry CONF_POSITION (Optional (Some (YStr "topline")))
      (one_of POSITIONS true);
    Entry CONF_SPEED (Optional (Some (YInt 3))) (int_range 1 5) ].

Definition DEFAULTS_SCHEMA : list entry :=
  [ Entry CONF_COLOR (Optional (Some (YStr "green"))) (one_of COLORS true);
    Entry CONF_MODE (Optional (Some (YStr "rotate"))) (one_of MODES true);
    Entry CONF_CHARSET (Optional (Some (YStr "7high"))) (one_of CHARSETS true);
    Entry CONF_POSITION (Optional (Some (YStr "topline")))
      (one_of POSITIONS true);
    Entry CONF_SPEED (Optional (Some (YInt 3))) (int_range 1 5);
    Entry CONF_EFFECT (Optional (Some (YStr "twinkle")))
      (one_of EFFECTS true) ].

Definition CLOCK_SCHEMA : list entry :=
  [ Entry CONF_ENABLED (Optional (Some (YBool true))) boolean;
    Entry CONF_INTERVAL (Optional (Some (YStr "60s")))
      positive_time_period_milliseconds;
    Entry CONF_DURATION (Optional (Some (YStr "4s")))
      positive_time_period_milliseconds;
    Entry CONF_FORMAT (Optional (Some (YStr "12h")))
      (one_of CLOCK_FORMATS true);
    Entry CONF_COLOR (Optional (Some (YStr "amber"))) (one_of COLORS true) ].

Definition PRIORITY_SCHEMA : list entry :=
  [ Entry CONF_WARNING_DURATION (Optional (Some (YStr "2500ms")))
      positive_time_period_milliseconds;
    Entry CONF_DEFAULT_DURATION (Optional (Some (YStr "25s")))
      positive_time_period_milliseconds ].

(** [uart.UART_DEVICE_SCHEMA] *)
Definition UART_DEVICE_SCHEMA : list entry :=
  [ Entry CONF_UART_ID GenerateID use_id ].

(** Main component schema *)
Definition CONFIG_SCHEMA : list entry :=
  extend
    (extend
       [ Entry CONF_ID GenerateID declare_id;
         Entry CONF_SIGN_TYPE (Optional (Some (YStr "all")))
           (one_of SIGN_TYPE_KEYS true);
         Entry CONF_ADDRESS (Optional (Some (YStr "00"))) validate_address;
         Entry CONF_MAX_FILES (Optional (Some (YInt 5))) (int_range 1 26);
         Entry CONF_DEFAULTS (Optional None) (Schema DEFAULTS_SCHEMA);
         Entry CONF_OFFLINE_MESSAGES (Optional None)
           (ensure_list (Schema OFFLINE_MESSAGE_SCHEMA));
         Entry CONF_CLOCK (Optional None) (Schema CLOCK_SCHEMA);
         Entry CONF_PRIORITY (Optional None) (Schema PRIORITY_SCHEMA) ]
       COMPONENT_SCHEMA)
    UART_DEVICE_SCHEMA.

(** ** Helpers for the Python expressions of [to_code] *)

Definition dquote : string := String (ascii_of_nat 34) EmptyString.

(** [d[k]] on a value that must be a dictionary. *)
Definition item (v : value) (k : string) : result value :=
  match v with
  | Dict d => getitem d k
  | _ => Raise TypeError
  end.

(** The text an f-string inserts for a value ([str] of lists,
    dictionaries, periods, identifiers and lambdas is not modelled). *)
Definition format_value (v : value) : result string :=
  match v with
  | Str s => Ok s
  | Int n => Ok (str_int n)
  | Bool true => Ok "True"
  | Bool false => Ok "False"
  | _ => Raise TypeError
  end.

(** [cg.RawExpression(f"esphome::betabrite::<fn>(\"{v}\")")] *)
Definition from_string (fn : string) (v : value) : result expression :=
  s <- format_value v ;;
  Ok (RawExpression
        ("esphome::betabrite::" ++ fn ++ "(" ++ dquote ++ s ++ dquote ++ ")")).

(** [v == s] for a string [s]. *)
Definition eq_str (v : value) (s : string) : bool :=
  match v with
  | Str t => String.eqb t s
  | _ => false
  end.

(** Truth value of a configuration value. *)
Definition truthy (v : value) : bool :=
  match v with
  | Bool b => b
  | Int n => negb (n =? 0)
  | Str EmptyString => false
  | List [] => false
  | Dict [] => false
  | _ => true
  end.

(** [cg.add(var.method(value))] *)
Definition add_call1 (method : string) (v : result value) : gen unit :=
  e <~ lift (x <- v ;; safe_exp x) ;;
  add (Call method [e]).

(** [cg.add(var.method(cg.RawExpression(f"...")))] *)
Definition add_raw (method fn : string) (v : result value) : gen unit :=
  e <~ lift (x <- v ;; from_string fn x) ;;
  add (Call method [e]).

(** One turn of the loop over the offline messages. *)
Definition add_offline_message (msg : value) : gen unit :=
  effect <~ lift (match msg with
                  | Dict d => Ok (match lookup CONF_EFFECT d with
                                  | Some v => v
                                  | None => Str EmptyString
                                  end)
                  | _ => Raise AttributeError
                  end) ;;
  args <~ lift (
    text <- item msg CONF_TEXT ;;
    color <- item msg CONF_COLOR ;;
    mode <- item msg CONF_MODE ;;
    duration <- item msg CONF_DURATION ;;
    charset <- item msg CONF_CHARSET ;;
    position <- item msg CONF_POSITION ;;
    speed <- item msg CONF_SPEED ;;
    mapM safe_exp
      [ text; color; mode; duration;
        if truthy effect then effect else Str EmptyString;
        charset; position; speed ]) ;;
  add (Call "add_offline_message" args).

(** The block under [# Default settings] *)
Definition default_settings (config : list (string * value)) : gen unit :=
  if contains CONF_DEFAULTS config then
    defaults <~ lift (getitem config CONF_DEFAULTS) ;;
    add_raw "set_default_color" "color_from_string"
      (item defaults CONF_COLOR) ;;;
    add_raw "set_default_mode" "mode_from_string"
      (item defaults CONF_MODE) ;;;
    add_raw "set_default_charset" "charset_from_string"
      (item defaults CONF_CHARSET) ;;;
    add_raw "set_default_position" "position_from_string"
      (item defaults CONF_POSITION) ;;;
    add_call1 "set_default_speed" (item defaults CONF_SPEED) ;;;
    add_raw "set_default_effect" "effect_from_string"
      (item defaults CONF_EFFECT)
  else ret tt.

(** The block under [# Clock settings] *)
Definition clock_settings (config : list (string * value)) : gen unit :=
  if contains CONF_CLOCK config then
    clock <~ lift (getitem config CONF_CLOCK) ;;
    add_call1 "set_clock_enabled" (item clock CONF_ENABLED) ;;;
    add_call1 "set_clock_interval" (item clock CONF_INTERVAL) ;;;
    add_call1 "set_clock_duration" (item clock CONF_DURATION) ;;;
    add_call1 "set_clock_24h"
      (f <- item clock CONF_FORMAT ;; Ok (Bool (eq_str f "24h"))) ;;;
    add_raw "set_clock_color" "color_from_string" (item clock CONF_COLOR)
  else ret tt.

(** The block under [# Priority settings] *)
Definition priority_settings (config : list (string * value)) : gen unit :=
  if contains CONF_PRIORITY config then
    priority <~ lift (getitem config CONF_PRIORITY) ;;
    add_call1 "set_priority_warning_duration"
      (item priority CONF_WARNING_DURATION) ;;;
    add_call1 "set_priority_default_duration"
      (item priority CONF_DEFAULT_DURATION)
  else ret tt.

(** The block under [# Offline messages] *)
Definition offline_messages (config : list (string * value)) : gen unit :=
  if contains CONF_OFFLINE_MESSAGES config then
    msgs <~ lift (m <- getitem config CONF_OFFLINE_MESSAGES ;;
                  match m with
                  | List l => Ok l
                  | _ => Raise TypeError
                  end) ;;
    for_each msgs add_offline_message
  else ret tt.

(** Generate C++ code from YAML configuration. *)
Definition to_code (config : list (string * value)) : gen unit :=
  id <~ lift (getitem config CONF_ID) ;;
  add (NewPvariable id) ;;;
  add RegisterComponent ;;;
  uart_id <~ lift (getitem config CONF_UART_ID) ;;
  add (RegisterUartDevice uart_id) ;;;
  (* Sign type *)
  sign_type <~ lift (k <- getitem config CONF_SIGN_TYPE ;;
                     match k with
                     | Str k => getitem SIGN_TYPES k
                     | _ => Raise (KeyError EmptyString)
                     end) ;;
  add (Call "set_sign_type" [MemberOf "betabrite" sign_type]) ;;;
  (* Address *)
  add_call1 "set_address" (getitem config CONF_ADDRESS) ;;;
  (* Max files *)
  add_call1 "set_max_files" (getitem config CONF_MAX_FILES) ;;;
  default_settings config ;;;
  clock_settings config ;;;
  priority_settings config ;;;
  offline_messages config.

(** Validation, then code generation: what ESPHome does with the
    [betabrite:] block of a configuration. *)
Definition compile (raw : yaml) : result (list statement) :=
  config <- Schema CONFIG_SCHEMA raw ;;
  match config with
  | Dict config => generated (to_code config)
  | _ => Raise TypeError
  end.

(** ** Action: betabrite.priority *)

Definition PRIORITY_MESSAGE_ACTION_SCHEMA : list entry :=
  [ Entry CONF_ID GenerateID use_id;
    Entry CONF_TEXT Required (cv.templatable string_value);
    Entry CONF_DURATION (Optional (Some (YStr "25s")))
      (cv.templatable positive_time_period_seconds) ].

Definition betabrite_priority_action_to_code
  (config : list (string * value)) (action_id : value) : gen unit :=
  parent <~ lift (getitem config CONF_ID) ;;
  add (NewPvariable action_id) ;;;
  text_template <~ lift (x <- getitem config CONF_TEXT ;;
                         cg.templatable x "std::string") ;;
  add (Call "set_message" [text_template]) ;;;
  duration_template <~ lift (x <- getitem config CONF_DURATION ;;
                             cg.templatable x "uint32_t") ;;
  add (Call "set_duration" [duration_template]).

(** Validation, then code generation, of one [betabrite.priority] action. *)
Definition compile_priority_action (raw : yaml) (action_id : value)
  : result (list statement) :=
  config <- Schema PRIORITY_MESSAGE_ACTION_SCHEMA raw ;;
  match config with
  | Dict config =>
      generated (betabrite_priority_action_to_code config action_id)
  | _ => Raise TypeError
  end.

(** ** Action: betabrite.display *)

Definition DISPLAY_MESSAGE_ACTION_SCHEMA : list entry :=
  [ Entry CONF_ID GenerateID use_id;
    Entry CONF_TEXT Required (cv.templatable string_value);
    Entry CONF_COLOR (Optional None) (cv.templatable (one_of COLORS true));
    Entry CONF_MODE (Optional None) (cv.templatable (one_of MODES true));
    Entry CONF_EFFECT (Optional None)
      (cv.templatable (one_of EFFECTS true)) ].

Definition betabrite_display_action_to_code
  (config : list (string * value)) (action_id : value) : gen unit :=
  parent <~ lift (getitem config CONF_ID) ;;
  add (NewPvariable action_id) ;;;
  text_template <~ lift (x <- getitem config CONF_TEXT ;;
                         cg.templatable x "std::string") ;;
  add (Call "set_message" [text_template]) ;;;
  (if contains CONF_COLOR config then
     color_template <~ lift (x <- getitem config CONF_COLOR ;;
                             cg.templatable x "std::string") ;;
     add (Call "set_color" [color_template])
   else ret tt) ;;;
  (if contains CONF_MODE config then
     mode_template <~ lift (x <- getitem config CONF_MODE ;;
                            cg.templatable x "std::string") ;;
     add (Call "set_mode" [mode_template])
   else ret tt) ;;;
  (if contains CONF_EFFECT config then
     effect_template <~ lift (x <- getitem config CONF_EFFECT ;;
                              cg.templatable x "std::string") ;;
     add (Call "set_effect" [effect_template])
   else ret tt).

(** ** Actions: betabrite.clear, betabrite.demo,
    betabrite.cancel_priority, betabrite.clock *)

Definition CLEAR_ACTION_SCHEMA : list entry :=
  [ Entry CONF_ID GenerateID use_id ].

Definition betabrite_clear_action_to_code
  (config : list (string * value)) (action_id : value) : gen unit :=
  parent <~ lift (getitem config CONF_ID) ;;
  add (NewPvariable action_id).

Definition DEMO_ACTION_SCHEMA : list entry :=
  [ Entry CONF_ID GenerateID use_id ].

Definition betabrite_demo_action_to_code
  (config : list (string * value)) (action_id : value) : gen unit :=
  parent <~ lift (getitem config CONF_ID) ;;
  add (NewPvariable action_id).

Definition CANCEL_PRIORITY_ACTION_SCHEMA : list entry :=
  [ Entry CONF_ID GenerateID use_id ].

Definition betabrite_cancel_priority_action_to_code
  (config : list (string * value)) (action_id : value) : gen unit :=
  parent <~ lift (getitem config CONF_ID) ;;
  add (NewPvariable action_id).

Definition DISPLAY_CLOCK_ACTION_SCHEMA : list entry :=
  [ Entry CONF_ID GenerateID use_id ].

Definition betabrite_clock_action_to_code
  (config : list (string * value)) (action_id : value) : gen unit :=
  parent <~ lift (getitem config CONF_ID) ;;
  add (NewPvariable action_id).

(** [automation.register_action(name, class, schema)]: the action is
    validated by its schema, then its function generates the code. *)
Definition compile_action (schema : list entry)
  (action_to_code : list (string * value) -> value -> gen unit)
  (raw : yaml) (action_id : value) : result (list statement) :=
  config <- Schema schema raw ;;
  match config with
  | Dict config => generated (action_to_code config action_id)
  | _ => Raise TypeError
  end.

End betabrite.


(* ================================================================== *)
(** * [updateFeed.py]

    The servers and the broker are an explicit [world]: the responses that
    the coming [requests.get] calls will receive (a request beyond them
    fails with a connection error), the numbers [random] will draw, how
    the broker answers, and what the utility has done so far.
    [time.sleep] has no effect in the model. *)

Module updateFeed.

(** An element of an XML document ([xml.etree.ElementTree.Element]). *)
Inductive element : Type :=
| Element (tag : string) (text : option string) (children : list element).

(** A JSON value as [response.json()] returns it. *)
Inductive json : Type :=
| JNull
| JBool (b : bool)
| JNum (n : Z)
| JStr (s : string)
| JArr (l : list json)
| JObj (d : list (string * json)).

(** What a response carries: a JSON text, an XML document, or a text that
    is neither. *)
Inductive body : Type :=
| JsonBody (j : json)
| XmlBody (root : element)
| OtherBody (text : string).

Record response : Type := Response {
  status_code : Z;
  content : body
}.

(** The values handed to [publish]: [None], a string, or the string that
    [json.dumps] returns for a JSON value. *)
Inductive message : Type :=
| MNone
| MStr (s : string)
| json_dumps (j : json).

(** The calls made on the MQTT client. *)
Inductive mqtt_call : Type :=
| Connect (host : string) (port keepalive : Z)
| Publish (topic : string) (payload : message) (retain : bool).

(** How the broker answers [connect]: not at all (the call raises), by
    accepting the connection without the client having seen the
    acknowledgement, or with the client reporting it is connected. *)
Inductive broker_behaviour : Type := Unreachable | Silent | Acknowledging.

Record world : Type := World {
  responses : list response;
  requested : list string;
  entropy : list nat;
  broker : broker_behaviour;
  connected : bool;
  calls : list mqtt_call;
  printed : list (message * string)
}.

Definition io (A : Type) : Type := stateful world A.

Definition API_KEY := "/O4RGGCoHOIjK4vspbWNhA==wYHBrZMyPRkwrw6x".
Definition RSS_FEED := "https://ctvnews.ca/rss/TopStories".
Definition MQTT_BASE_TOPIC := "ledSign/feed".
Definition NUM_STORIES : nat := 5.
Definition MQTT_BROKER := "192.168.1.40".
Definition MQTT_PORT : Z := 1883.
Definition JOKE_API :=
  "https://v2.jokeapi.dev/joke/Any?type=single&amount="
  ++ str_int (Z.of_nat NUM_STORIES).

Definition triviaCategories : list string :=
  [ "sciencenature"; "general"; "fooddrink"; "geography";
    "entertainment"; "toysgames"; "music"; "mathematics" ].

(** [requests.codes.ok] *)
Definition codes_ok : Z := 200.

(** ** The libraries *)

(** [requests.get(url, ...)] *)
Definition requests_get (url : string) : io response :=
  fun w =>
    match responses w with
    | [] => Raise ConnectionRefusedError
    | r :: rs =>
        Ok (r, World rs (requested w ++ [url])%list (entropy w) (broker w)
                 (connected w) (calls w) (printed w))
    end.

(** [response.json()] *)
Definition json_of (r : response) : result json :=
  match content r with
  | JsonBody j => Ok j
  | _ => Raise JSONDecodeError
  end.

(** [ET.fromstring(response.text)] *)
Definition fromstring (r : response) : result element :=
  match content r with
  | XmlBody root => Ok root
  | _ => Raise ParseError
  end.

(** [random.choice(l)] *)
Definition random_choice (l : list string) : io string :=
  fun w =>
    match l with
    | [] => Raise IndexError
    | x :: _ =>
        let i := (hd 0 (entropy w) mod List.length l)%nat in
        Ok (nth i l x,
            World (responses w) (requested w) (tl (entropy w)) (broker w)
              (connected w) (calls w) (printed w))
    end.

(** [j[0]] *)
Definition first (j : json) : result json :=
  match j with
  | JArr (x :: _) => Ok x
  | JArr [] => Raise IndexError
  | JObj _ => Raise (KeyError "0")
  | JStr (String c _) => Ok (JStr (String c EmptyString))
  | JStr EmptyString => Raise IndexError
  | _ => Raise TypeError
  end.

(** [j[k]] for a string [k] *)
Definition field (j : json) (k : string) : result json :=
  match j with
  | JObj d => getitem d k
  | _ => Raise TypeError
  end.

(** [s.replace('\n', ' ')] *)
Fixpoint replace_newlines (s : string) : string :=
  match s with
  | EmptyString => EmptyString
  | String c s' =>
      String (if Ascii.eqb c (ascii_of_nat 10) then " "%char else c)
        (replace_newlines s')
  end.

(** The tag, text and children of an element. *)
Definition tag_of (e : element) : string :=
  match e with Element t _ _ => t end.
Definition text_of (e : element) : option string :=
  match e with Element _ t _ => t end.
Definition children_of (e : element) : list element :=
  match e with Element _ _ cs => cs end.

(** An element and its descendants in document order. *)
Fixpoint iter (e : element) : list element :=
  match e with
  | Element _ _ cs => e :: flat_map iter cs
  end.

(** [e.findall('.//tag')]: the elements with that tag at all levels
    beneath [e], in document order. *)
Definition findall_descendants (tag : string) (e : element) : list element :=
  filter (fun x => String.eqb (tag_of x) tag)
    (flat_map iter (children_of e)).

(** [e.find(tag)]: the first child with that tag, or [None]. *)
Definition find (tag : string) (e : element) : option element :=
  List.find (fun x => String.eqb (tag_of x) tag) (children_of e).

(** The MQTT client, [paho.mqtt.client.Client]. *)
Definition is_connected : io bool :=
  fun w => Ok (connected w, w).

Definition connect (host : string) (port keepalive : Z) : io unit :=
  fun w =>
    match broker w with
    | Unreachable => Raise ConnectionRefusedError
    | b =>
        Ok (tt, World (responses w) (requested w) (entropy w) b
                  (match b with Acknowledging => true | _ => false end)
                  (calls w ++ [Connect host port keepalive])%list
                  (printed w))
    end.

Definition publish (topic : string) (payload : message) (retain : bool)
  : io unit :=
  fun w =>
    Ok (tt, World (responses w) (requested w) (entropy w) (broker w)
              (connected w) (calls w ++ [Publish topic payload retain])%list
              (printed w)).

(** [print(f"Published {message} to {topic}")] *)
Definition print_published (payload : message) (topic : string) : io unit :=
  fun w =>
    Ok (tt, World (responses w) (requested w) (entropy w) (broker w)
              (connected w) (calls w)
              (printed w ++ [(payload, topic)])%list).

(** ** The utility *)

(** The loop of [getNews] over the elements that [findall] returned. *)
Fixpoint getNews_loop (found : list element) (c : nat)
  (items : list (option string)) : result (list (option string)) :=
  match found with
  | [] => Ok items
  | item :: rest =>
      let c := (c + 1)%nat in
      match find "title" item with
      | None => Raise AttributeError
      | Some t =>
          let items := (items ++ [text_of t])%list in
          if (NUM_STORIES <=? c)%nat then Ok items
          else getNews_loop rest c items
      end
  end.

Definition getNews : io (list (option string)) :=
  response <~ requests_get RSS_FEED ;;
  root <~ lift (fromstring response) ;;
  lift (getNews_loop (findall_descendants "item" root) 0 []).

Definition getJokes : io (list string) :=
  response <~ requests_get JOKE_API ;;
  lift (jokes <- json_of response ;;
        l <- field jokes "jokes" ;;
        match l with
        | JArr l =>
            mapM (fun joke =>
                    j <- field joke "joke" ;;
                    match j with
                    | JStr s => Ok (replace_newlines s)
                    | _ => Raise AttributeError
                    end) l
        | JObj d =>
            (* iterating a dictionary yields its keys, which are strings *)
            match d with
            | [] => Ok []
            | _ => Raise TypeError
            end
        | JStr EmptyString => Ok []
        | _ => Raise TypeError
        end).

(** The loop of [getFacts]: one request per turn until [NUM_STORIES]
    facts are there. *)
Fixpoint getFacts_loop (pending : list response) (c : nat)
  (facts : list json) (asked : list string)
  : result (list json * list response * list string) :=
  if (c <? NUM_STORIES)%nat then
    match pending with
    | [] => Raise ConnectionRefusedError
    | response :: rest =>
        let asked := (asked ++ ["https://api.api-ninjas.com/v1/facts"])%list in
        if status_code response =? codes_ok then
          fact <- (j <- json_of response ;; x <- first j ;; field x "fact") ;;
          getFacts_loop rest (c + 1)%nat (facts ++ [fact])%list asked
        else getFacts_loop rest c facts asked
    end
  else Ok (facts, pending, asked).

Definition getFacts : io message :=
  fun w =>
    match getFacts_loop (responses w) 0 [] (requested w) with
    | Ok (facts, rest, asked) =>
        Ok (json_dumps (JArr facts),
            World rest asked (entropy w) (broker w) (connected w)
              (calls w) (printed w))
    | Raise e => Raise e
    end.

Definition getTrivia : io message :=
  (* get random trivia category *)
  random_category <~ random_choice triviaCategories ;;
  let api_url :=
    "https://api.api-ninjas.com/v1/trivia?category=" ++ random_category in
  response <~ requests_get api_url ;;
  if status_code response =? codes_ok then
    lift (trivia <- json_of response ;;
          trivia <- first trivia ;;
          Ok (json_dumps trivia))
  else ret MNone.

Definition sendToMqtt (title : string) (msg : message) : io unit :=
  (* check the connection *)
  up <~ is_connected ;;
  (if negb up then connect MQTT_BROKER MQTT_PORT 60 else ret tt) ;;;
  publish (MQTT_BASE_TOPIC ++ "/" ++ title) msg true ;;;
  print_published msg (MQTT_BASE_TOPIC ++ "/" ++ title).

(** [json.dumps] of the lists that [main] publishes. *)
Definition json_of_titles (l : list (option string)) : json :=
  JArr (map (fun t => match t with Some s => JStr s | None => JNull end) l).

Definition json_of_strings (l : list string) : json := JArr (map JStr l).

Definition main : io unit :=
  facts <~ getFacts ;;
  trivia <~ getTrivia ;;
  jokes <~ getJokes ;;
  news <~ getNews ;;
  connect MQTT_BROKER MQTT_PORT 60 ;;;
  sendToMqtt "news/list" (json_dumps (json_of_titles news)) ;;;
  sendToMqtt "jokes/list" (json_dumps (json_of_strings jokes)) ;;;
  sendToMqtt "facts/list" facts ;;;
  sendToMqtt "trivia/question" trivia.

End updateFeed.

(* ================================================================== *)
(** * Words of the specification *)

(** Two texts are equal when letter case is ignored. *)
Definition ci_eq (s t : string) : Prop := lower s = lower t.

(** A configuration value is one of the options of a closed list, letter
    case ignored. *)
Definition ci_member (v : yaml) (options : list string) : Prop :=
  exists s e, v = YStr s /\ In e options /\ ci_eq s e.

(** A string of exactly two characters. *)
Definition two_character_string (v : yaml) : Prop :=
  exists s, v = YStr s /\ String.length s = 2%nat.

(** The arguments of the one-argument calls of [method] in generated code. *)
Definition delivered (method : string) (code : list cg.statement)
  : list cg.expression :=
  flat_map (fun s => match s with
                     | cg.Call m [e] => if String.eqb m method then [e] else []
                     | _ => []
                     end) code.

(** The validator that a schema has for a key. *)
Definition field_validator (es : list cv.entry) (k : string)
  : option (yaml -> result value) :=
  option_map cv.validator
    (List.find (fun e => String.eqb (cv.key e) k) es).

(** The length in microseconds of the period that a value is read as. *)
Definition period_microseconds (v : yaml) : result Z :=
  p <- cv.positive_time_period v ;; Ok (cv.total_microseconds p).

(** ** Words about whole numbers *)

(** A digit and its value: the place of the digit in 0123456789abcdef. *)
Definition digit_value (base : Z) (c : ascii) (d : Z) : Prop :=
  0 <= d < base /\
  nth_error (list_ascii_of_string "0123456789abcdef") (Z.to_nat d) = Some c.

(** A row of digits and its value; one underscore may stand between two
    digits. *)
Inductive digits (base : Z) : list ascii -> Z -> Prop :=
| digits_one (c : ascii) (d : Z) :
    digit_value base c d -> digits base [c] d
| digits_more (l : list ascii) (n : Z) (c : ascii) (d : Z) :
    digits base l n -> digit_value base c d ->
    digits base (l ++ [c]) (n * base + d)
| digits_group (l : list ascii) (n : Z) (c : ascii) (d : Z) :
    digits base l n -> digit_value base c d ->
    digits base (l ++ ["_"%char; c]) (n * base + d).

(** Blank text: tabs, line feeds, vertical tabs, form feeds, carriage
    returns and spaces. *)
Definition blank (l : list ascii) : Prop :=
  Forall (fun c => In c (map ascii_of_nat [9; 10; 11; 12; 13; 32]%nat)) l.

(** The signs of a decimal numeral: none, plus and minus. *)
Definition signs : list (list ascii * Z) :=
  [ ([], 1); (["+"%char], 1); (["-"%char], -1) ].

(** A decimal numeral: blanks, a sign, digits, blanks. *)
Definition decimal_numeral (t : list ascii) (n : Z) : Prop :=
  exists before sign body after m,
    blank before /\ In sign signs /\ digits 10 body m /\ blank after /\
    t = (before ++ fst sign ++ body ++ after)%list /\
    n = snd sign * m.

(** A hexadecimal numeral: 0x, after which one underscore may stand,
    digits, blanks. *)
Definition hexadecimal_numeral (t : list ascii) (n : Z) : Prop :=
  exists prefix body after,
    In prefix [ ["0"; "x"]; ["0"; "x"; "_"] ]%char /\
    digits 16 body n /\ blank after /\
    t = (prefix ++ body ++ after)%list.

(** A text that is the numeral of [n], letter case ignored. *)
Definition numeral (s : string) (n : Z) : Prop :=
  decimal_numeral (list_ascii_of_string (lower s)) n \/
  hexadecimal_numeral (list_ascii_of_string (lower s)) n.

(** The whole number that a configuration value stands for: an integer
    stands for itself, [true] for 1 and [false] for 0, a text for the
    number it is the numeral of. *)
Definition whole_number (v : yaml) (n : Z) : Prop :=
  match v with
  | YInt m => n = m
  | YBool b => n = Z.b2z b
  | YStr s => numeral s n
  | _ => False
  end.

(** What validation keeps of a value that stands for [n]: a boolean stays
    a boolean, an integer and a numeral become the integer. *)
Definition kept (v : yaml) (n : Z) : value :=
  match v with
  | YBool b => Bool b
  | _ => Int n
  end.

(** The expression that code generation writes for a kept whole number:
    the number, or the boolean. *)
Definition number_expression (x : value) (e : cg.expression) : Prop :=
  match x with
  | Int n => e = cg.IntLiteral n
  | Bool b => e = cg.BoolLiteral b
  | _ => False
  end.

(** The literal of a whole number between [lo] and [hi]: the number, or
    the boolean that was written for it. *)
Definition literal_between (lo hi : Z) (e : cg.expression) : Prop :=
  (exists n, e = cg.IntLiteral n /\ lo <= n <= hi) \/
  (exists b, e = cg.BoolLiteral b /\ lo <= Z.b2z b <= hi).

(** A validated whole number between [lo] and [hi]. *)
Definition number_between (lo hi : Z) (x : value) : Prop :=
  exists n, cv.as_number x = Some n /\ lo <= n <= hi.

(** ** Words about the component *)

Section ComponentVocabulary.
Import cv cg betabrite.

(** [str] of an integer is made of digits and the minus sign. *)
Definition numeral_char (c : ascii) : bool :=
  cv.is_digit c || Ascii.eqb c "-"%char.

(** A closed list whose options are all lower-case and none of which is a
    numeral. *)
Definition closed_options (options : list string) : bool :=
  forallb (fun e => String.eqb (lower e) e
                    && negb (all_chars numeral_char e)) options.

(** [ensure_list] returns the validated elements in the order in which
    they were configured; one value that is not a list counts as a list of
    one. *)
Definition as_list (v : yaml) : list yaml :=
  match v with
  | YNone | YDict [] => []
  | YList l => l
  | _ => [v]
  end.

(** A computation that succeeds on every program so far and appends [out]
    to it. *)
Definition emits (m : gen unit) (out : list statement) : Prop :=
  forall code, m code = Ok (tt, (code ++ out)%list).

(** A statement that is a call of [add_offline_message]. *)
Definition is_offline_call (s : statement) : bool :=
  match s with
  | Call m _ => String.eqb m "add_offline_message"
  | _ => false
  end.

(** The call that code generation makes for one validated offline message:
    its text, color, mode, duration (in milliseconds), effect, charset,
    position and speed (the number, or the boolean that was written for
    it), the empty string standing for an omitted effect. *)
Definition offline_call (msg : value) (s : statement) : Prop :=
  exists m text color mode us effect charset position speed speed_exp,
    msg = Dict m /\
    lookup CONF_TEXT m = Some (Str text) /\
    lookup CONF_COLOR m = Some (Str color) /\
    lookup CONF_MODE m = Some (Str mode) /\
    lookup CONF_DURATION m = Some (TimePeriod TimePeriodMilliseconds us) /\
    (lookup CONF_EFFECT m = Some (Str effect) \/
     lookup CONF_EFFECT m = None /\ effect = EmptyString) /\
    lookup CONF_CHARSET m = Some (Str charset) /\
    lookup CONF_POSITION m = Some (Str position) /\
    lookup CONF_SPEED m = Some speed /\
    number_expression speed speed_exp /\
    s = Call "add_offline_message"
          [ StringLiteral text; StringLiteral color; StringLiteral mode;
            IntLiteral (us / 1000); StringLiteral effect;
            StringLiteral charset; StringLiteral position;
            speed_exp ].

(** What validation leaves under an optional key that holds a block. *)
Definition block_of (es : list entry) (ov : option value) : Prop :=
  ov = None \/ exists v x, ov = Some x /\ Schema es v = Ok x.

Definition no_offline_call (out : list statement) : Prop :=
  Forall (fun s => is_offline_call s = false) out.

(** The priority block delivers both durations in milliseconds. *)
Definition priority_code (ov : option value) (out : list statement) : Prop :=
  (ov = None /\ out = []) \/
  (exists p warning default,
     ov = Some (Dict p) /\
     lookup CONF_WARNING_DURATION p
       = Some (TimePeriod TimePeriodMilliseconds warning) /\
     lookup CONF_DEFAULT_DURATION p
       = Some (TimePeriod TimePeriodMilliseconds default) /\
     out = [ Call "set_priority_warning_duration"
               [IntLiteral (warning / 1000)];
             Call "set_priority_default_duration"
               [IntLiteral (default / 1000)] ]).

(** The validated offline messages and the calls generated for them. *)
Definition offline_code (ov : option value) (msgs : list value)
  (out : list statement) : Prop :=
  (ov = None /\ msgs = [] \/ ov = Some (List msgs)) /\
  Forall2 offline_call msgs out.

(** The offline messages of a configuration, in the order in which they
    are configured. *)
Definition configured_messages (d : list (string * yaml)) : list yaml :=
  match lookup CONF_OFFLINE_MESSAGES d with
  | Some v => as_list v
  | None => []
  end.

(** The generated code of a validated configuration: six statements for
    the component, its sign type, address and number of files, then the
    default, clock and priority settings, then one call for each offline
    message [msgs]. *)
Definition component_code (config : list (string * value))
  (msgs : list value) (code : list statement) : Prop :=
  exists id uart sign_key sign_type address max_files files_exp
         dcode ccode pcode calls,
    lookup CONF_ID config = Some id /\
    lookup CONF_UART_ID config = Some uart /\
    lookup CONF_SIGN_TYPE config = Some (Str sign_key) /\
    lookup sign_key SIGN_TYPES = Some sign_type /\
    lookup CONF_ADDRESS config = Some (Str address) /\
    lookup CONF_MAX_FILES config = Some max_files /\
    number_between 1 26 max_files /\
    number_expression max_files files_exp /\
    no_offline_call dcode /\ no_offline_call ccode /\
    priority_code (lookup CONF_PRIORITY config) pcode /\
    offline_code (lookup CONF_OFFLINE_MESSAGES config) msgs calls /\
    code = ([ NewPvariable id; RegisterComponent; RegisterUartDevice uart;
              Call "set_sign_type" [MemberOf "betabrite" sign_type];
              Call "set_address" [StringLiteral address];
              Call "set_max_files" [files_exp] ]
            ++ dcode ++ ccode ++ pcode ++ calls)%list.

(** A result that, when it is an exception, is a [cv.Invalid]. *)
Definition invalid_only {A} (r : result A) : Prop :=
  forall e, r = Raise e -> exists msg, e = Invalid msg.

(** The keys of a block whose values are options of a closed list. *)
Definition message_fields : list (string * list string) :=
  [ (CONF_COLOR, COLORS); (CONF_MODE, MODES); (CONF_EFFECT, EFFECTS);
    (CONF_CHARSET, CHARSETS); (CONF_POSITION, POSITIONS) ].

Definition clock_fields : list (string * list string) :=
  [ (CONF_FORMAT, CLOCK_FORMATS); (CONF_COLOR, COLORS) ].

(** Every place of the configuration that takes an option of a closed
    list: the schema, the key and the list. *)
Definition enumerated_fields
  : list (list entry * string * list string) :=
  (CONFIG_SCHEMA, CONF_SIGN_TYPE, SIGN_TYPE_KEYS)
  :: map (fun f => (OFFLINE_MESSAGE_SCHEMA, fst f, snd f)) message_fields
  ++ map (fun f => (DEFAULTS_SCHEMA, fst f, snd f)) message_fields
  ++ map (fun f => (CLOCK_SCHEMA, fst f, snd f)) clock_fields.

(** The value supplied for a key, with the list it must come from. *)
Definition supplied (d : list (string * yaml)) (f : string * list string)
  : list (yaml * list string) :=
  match lookup (fst f) d with
  | Some v => [(v, snd f)]
  | None => []
  end.

Definition supplied_in (fields : list (string * list string)) (v : yaml)
  : list (yaml * list string) :=
  match v with
  | YDict d => flat_map (supplied d) fields
  | _ => []
  end.

Definition block (k : string) (d : list (string * yaml)) : list yaml :=
  match lookup k d with
  | Some v => [v]
  | None => []
  end.

(** All the values a configuration supplies for color, mode, effect,
    charset, position, sign type and clock format. *)
Definition supplied_options (raw : yaml) : list (yaml * list string) :=
  match raw with
  | YDict d =>
      supplied d (CONF_SIGN_TYPE, SIGN_TYPE_KEYS)
      ++ flat_map (supplied_in message_fields) (block CONF_DEFAULTS d)
      ++ flat_map (supplied_in message_fields) (configured_messages d)
      ++ flat_map (supplied_in clock_fields) (block CONF_CLOCK d)
  | _ => []
  end.

Definition option_of_list (p : yaml * list string) : Prop :=
  ci_member (fst p) (snd p).

(** The configuration and the action of the counterexample to C2. *)
Definition priority_config : yaml :=
  YDict [ (CONF_PRIORITY, YDict [ (CONF_DEFAULT_DURATION, YStr "10s") ]) ].

Definition priority_action : list (string * yaml) :=
  [ (CONF_TEXT, YStr "Fire") ].

(** The configuration of the counterexample to C3: one file, one offline
    message. *)
Definition small_config : yaml :=
  YDict [ (CONF_MAX_FILES, YInt 1);
          (CONF_OFFLINE_MESSAGES, YList [ YDict [ (CONF_TEXT, YStr "Hello") ] ]) ].

(** A configuration whose default color is not in the palette. *)
Definition purple_config : yaml :=
  YDict [ (CONF_DEFAULTS, YDict [ (CONF_COLOR, YStr "purple") ]) ].

(** Configurations whose number of files is written as a hexadecimal
    numeral and as a boolean. *)
Definition hexadecimal_files_config : yaml :=
  YDict [ (CONF_MAX_FILES, YStr "0x1A") ].

Definition true_files_config : yaml :=
  YDict [ (CONF_MAX_FILES, YBool true) ].

(** Configurations whose speed is written as a text, in an offline
    message, and as a boolean, in the defaults. *)
Definition text_speed_config : yaml :=
  YDict [ (CONF_OFFLINE_MESSAGES,
           YList [ YDict [ (CONF_TEXT, YStr "Hello");
                           (CONF_SPEED, YStr "3") ] ]) ].

Definition true_speed_config : yaml :=
  YDict [ (CONF_DEFAULTS, YDict [ (CONF_SPEED, YBool true) ]) ].

(** The validated form of [small_config]. *)
Definition small_validated : list (string * value) :=
  Eval vm_compute in
    match Schema CONFIG_SCHEMA small_config with
    | Ok (Dict config) => config
    | _ => []
    end.

End ComponentVocabulary.

(** ** Words about the feed utility *)

Section FeedVocabulary.
Import updateFeed.

(** The [item] elements of a document, in document order. *)
Definition items (root : element) : list element :=
  findall_descendants "item" root.

(** The stories [getNews] looks at: the first [NUM_STORIES] items. *)
Definition first_stories (root : element) : list element :=
  firstn NUM_STORIES (items root).

(** The title of an item: the text of its first [title] child. *)
Definition title_of (item : element) : option string :=
  match find "title" item with
  | Some t => text_of t
  | None => None
  end.

(** [item.find('title').text] *)
Definition title_text (item : element) : result (option string) :=
  match find "title" item with
  | Some t => Ok (text_of t)
  | None => Raise AttributeError
  end.

(** A feed whose only item has a description and no title. *)
Definition untitled_feed : element :=
  Element "rss" None
    [ Element "channel" None
        [ Element "item" None
            [ Element "description" (Some "No headline today") [] ] ] ].

Definition untitled_world : world :=
  World [ Response 200 (XmlBody untitled_feed) ] [] [] Acknowledging false
    [] [].

(** The topic [sendToMqtt] publishes a title to. *)
Definition feed_topic (title : string) : string := "ledSign/feed/" ++ title.

(** A feed with two stories. *)
Definition two_stories : element :=
  Element "rss" None
    [ Element "channel" None
        [ Element "title" (Some "Top Stories") [];
          Element "item" None [ Element "title" (Some "First") [] ];
          Element "item" None
            [ Element "link" (Some "https://example.org/2") [];
              Element "title" (Some "Second") [] ] ] ].

Definition two_stories_world : world :=
  World [ Response 200 (XmlBody two_stories) ] [] [] Acknowledging false
    [] [].

(** A world in which the trivia service answers OK with an empty list. *)
Definition empty_trivia_world : world :=
  World [ Response 200 (JsonBody (JArr [])) ] [] [] Silent false [] [].

(** A client that never connected, with a broker that can be reached. *)
Definition fresh_world : world := World [] [] [] Silent false [] [].

(** A run of [main] in which the fact, joke and news services answer and
    the trivia service answers with an error. *)
Definition fact_response : response :=
  Response 200 (JsonBody (JArr [ JObj [ ("fact", JStr "Honey never spoils") ] ])).

Definition failing_trivia_world : world :=
  World
    [ fact_response; Response 429 (OtherBody "Too Many Requests");
      fact_response; fact_response; fact_response; fact_response;
      Response 500 (OtherBody "Internal Server Error");
      Response 200
        (JsonBody (JObj [ ("error", JBool false); ("amount", JNum 1);
                          ("jokes",
                           JArr [ JObj [ ("joke", JStr "Knock knock") ] ]) ]));
      Response 200 (XmlBody two_stories) ]
    [] [ 3%nat ] Silent false [] [].

End FeedVocabulary.

(** ** Words about the rest of the component *)

Section SettingsVocabulary.
Import cv cg betabrite.

(** The expression [esphome::betabrite::fn("s")]. *)
Definition raw_call (fn s : string) : expression :=
  RawExpression
    ("esphome::betabrite::" ++ fn ++ "(" ++ dquote ++ s ++ dquote ++ ")").

(** The six calls of the default settings, for a validated block. *)
Definition defaults_code (ov : option value) (out : list statement) : Prop :=
  (ov = None /\ out = []) \/
  (exists dd color mode charset position speed speed_exp effect,
     ov = Some (Dict dd) /\
     lookup CONF_COLOR dd = Some (Str color) /\ In color COLORS /\
     lookup CONF_MODE dd = Some (Str mode) /\ In mode MODES /\
     lookup CONF_CHARSET dd = Some (Str charset) /\ In charset CHARSETS /\
     lookup CONF_POSITION dd = Some (Str position) /\
     In position POSITIONS /\
     lookup CONF_SPEED dd = Some speed /\ number_between 1 5 speed /\
     number_expression speed speed_exp /\
     lookup CONF_EFFECT dd = Some (Str effect) /\ In effect EFFECTS /\
     out = [ Call "set_default_color" [raw_call "color_from_string" color];
             Call "set_default_mode" [raw_call "mode_from_string" mode];
             Call "set_default_charset"
               [raw_call "charset_from_string" charset];
             Call "set_default_position"
               [raw_call "position_from_string" position];
             Call "set_default_speed" [speed_exp];
             Call "set_default_effect"
               [raw_call "effect_from_string" effect] ]).

(** The five calls of the clock settings, for a validated block. *)
Definition clock_code (ov : option value) (out : list statement) : Prop :=
  (ov = None /\ out = []) \/
  (exists c enabled interval duration format color,
     ov = Some (Dict c) /\
     lookup CONF_ENABLED c = Some (Bool enabled) /\
     lookup CONF_INTERVAL c
       = Some (TimePeriod TimePeriodMilliseconds interval) /\
     0 <= interval /\ interval mod 1000 = 0 /\
     lookup CONF_DURATION c
       = Some (TimePeriod TimePeriodMilliseconds duration) /\
     0 <= duration /\ duration mod 1000 = 0 /\
     lookup CONF_FORMAT c = Some (Str format) /\ In format CLOCK_FORMATS /\
     lookup CONF_COLOR c = Some (Str color) /\ In color COLORS /\
     out = [ Call "set_clock_enabled" [BoolLiteral enabled];
             Call "set_clock_interval" [IntLiteral (interval / 1000)];
             Call "set_clock_duration" [IntLiteral (duration / 1000)];
             Call "set_clock_24h" [BoolLiteral (String.eqb format "24h")];
             Call "set_clock_color" [raw_call "color_from_string" color] ]).

(** The generated code of a validated configuration, block by block. *)
Definition settings_code (d : list (string * yaml))
  (config : list (string * value)) (code : list statement) : Prop :=
  exists id uart sign_key sign_type address max_files files_exp msgs
         dcode ccode pcode calls,
    lookup CONF_ID config = Some id /\
    lookup CONF_UART_ID config = Some uart /\
    lookup CONF_SIGN_TYPE config = Some (Str sign_key) /\
    lookup sign_key SIGN_TYPES = Some sign_type /\
    lookup CONF_ADDRESS config = Some (Str address) /\
    lookup CONF_MAX_FILES config = Some max_files /\
    number_between 1 26 max_files /\
    number_expression max_files files_exp /\
    defaults_code (lookup CONF_DEFAULTS config) dcode /\
    clock_code (lookup CONF_CLOCK config) ccode /\
    priority_code (lookup CONF_PRIORITY config) pcode /\
    offline_code (lookup CONF_OFFLINE_MESSAGES config) msgs calls /\
    Forall2 (fun r m => Schema OFFLINE_MESSAGE_SCHEMA r = Ok m)
      (configured_messages d) msgs /\
    (lookup CONF_DEFAULTS config = None <-> lookup CONF_DEFAULTS d = None) /\
    (lookup CONF_CLOCK config = None <-> lookup CONF_CLOCK d = None) /\
    (lookup CONF_PRIORITY config = None <-> lookup CONF_PRIORITY d = None) /\
    code = ([ NewPvariable id; RegisterComponent; RegisterUartDevice uart;
              Call "set_sign_type" [MemberOf "betabrite" sign_type];
              Call "set_address" [StringLiteral address];
              Call "set_max_files" [files_exp] ]
            ++ dcode ++ ccode ++ pcode ++ calls)%list.


(** Whether the configured clock format is the 24-hour one. *)
Definition is_24h (d : list (string * yaml)) : bool :=
  match lookup CONF_CLOCK d with
  | Some (YDict c) =>
      match lookup CONF_FORMAT c with
      | Some (YStr s) => String.eqb (lower s) "24h"
      | _ => false
      end
  | _ => false
  end.

(** The expression an action hands over for a templatable option: the
    lambda, or the lower-cased text, which is one of the options. *)
Definition template_of (options : list string) (v : yaml) (e : expression)
  : Prop :=
  (exists src, v = YLambda src /\ e = LambdaExpression src "std::string") \/
  (exists s, v = YStr s /\ In (lower s) options
             /\ e = StringLiteral (lower s)).

(** The expression an action hands over for its text: the lambda, or the
    text as [cv.string] reads it. *)
Definition text_template (v : yaml) (e : expression) : Prop :=
  (exists src, v = YLambda src /\ e = LambdaExpression src "std::string") \/
  (exists s, string_ v = Ok s /\ e = StringLiteral s).

(** The call an action makes for an optional key: none when the key is
    left out. *)
Definition optional_call (method : string) (options : list string)
  (ov : option yaml) (out : list statement) : Prop :=
  match ov with
  | None => out = []
  | Some v => exists e, template_of options v e /\ out = [Call method [e]]
  end.

(** The four actions without parameters. *)
Definition parameterless_actions
  : list (list entry * (list (string * value) -> value -> gen unit)) :=
  [ (CLEAR_ACTION_SCHEMA, betabrite_clear_action_to_code);
    (DEMO_ACTION_SCHEMA, betabrite_demo_action_to_code);
    (CANCEL_PRIORITY_ACTION_SCHEMA, betabrite_cancel_priority_action_to_code);
    (DISPLAY_CLOCK_ACTION_SCHEMA, betabrite_clock_action_to_code) ].

(** The schemas in which a text is required. *)
Definition text_schemas : list (list entry) :=
  [ OFFLINE_MESSAGE_SCHEMA; DISPLAY_MESSAGE_ACTION_SCHEMA;
    PRIORITY_MESSAGE_ACTION_SCHEMA ].

(** The setters of the default and of the clock settings. *)
Definition default_setters : list string :=
  [ "set_default_color"; "set_default_mode"; "set_default_charset";
    "set_default_position"; "set_default_speed"; "set_default_effect" ].

Definition clock_setters : list string :=
  [ "set_clock_enabled"; "set_clock_interval"; "set_clock_duration";
    "set_clock_24h"; "set_clock_color" ].

(** The duration configured for an offline message, in microseconds:
    ten seconds when none is written. *)
Definition message_duration (raw : yaml) : result Z :=
  match raw with
  | YDict m =>
      match lookup CONF_DURATION m with
      | Some v => period_microseconds v
      | None => Ok 10000000
      end
  | _ => Raise TypeError
  end.

(** The call made for an offline message passes its duration, a whole
    number of milliseconds that is not negative. *)
Definition passes_duration (raw : yaml) (s : statement) : Prop :=
  exists us args,
    message_duration raw = Ok us /\ 0 <= us /\ us mod 1000 = 0 /\
    s = Call "add_offline_message" args /\
    nth_error args 3 = Some (IntLiteral (us / 1000)).

(** The call made for an offline message passes its speed: 3 when none
    is written, and else the number that the written value stands for, or
    the boolean as it was written. *)
Definition passes_speed (raw : yaml) (s : statement) : Prop :=
  exists m args e,
    raw = YDict m /\ s = Call "add_offline_message" args /\
    nth_error args 7 = Some e /\
    match lookup CONF_SPEED m with
    | Some v => exists n, whole_number v n /\ 1 <= n <= 5 /\
                          number_expression (kept v n) e
    | None => e = IntLiteral 3
    end.

(** Offline messages whose speed is written as a boolean, as a
    hexadecimal numeral, and not at all. *)
Definition spoken_speeds_config : list (string * yaml) :=
  [ (CONF_OFFLINE_MESSAGES,
     YList [ YDict [ (CONF_TEXT, YStr "One"); (CONF_SPEED, YBool true) ];
             YDict [ (CONF_TEXT, YStr "Two"); (CONF_SPEED, YStr "0x2") ];
             YDict [ (CONF_TEXT, YStr "Three") ] ]) ].

Definition spoken_speeds_code : list statement :=
  Eval vm_compute in
    match compile (YDict spoken_speeds_config) with
    | Ok code => code
    | Raise _ => []
    end.

(** A configuration that uses every block. *)
Definition sample_config : list (string * yaml) :=
  [ (CONF_SIGN_TYPE, YStr "BetaBrite"); (CONF_ADDRESS, YStr "0A");
    (CONF_MAX_FILES, YInt 8);
    (CONF_DEFAULTS, YDict [ (CONF_COLOR, YStr "Amber") ]);
    (CONF_CLOCK, YDict [ (CONF_FORMAT, YStr "24H") ]);
    (CONF_PRIORITY, YDict []);
    (CONF_OFFLINE_MESSAGES,
     YList [ YDict [ (CONF_TEXT, YStr "Welcome");
                     (CONF_DURATION, YStr "1500ms") ];
             YDict [ (CONF_TEXT, YInt 42); (CONF_EFFECT, YStr "Snow") ] ]) ].

Definition sample_code : list statement :=
  Eval vm_compute in
    match compile (YDict sample_config) with
    | Ok code => code
    | Raise _ => []
    end.

(** The setters of the priority settings. *)
Definition priority_setters : list string :=
  [ "set_priority_warning_duration"; "set_priority_default_duration" ].

(** The period, in microseconds, that the [priority] block gives for a
    key: the one written, or else the default of the key. *)
Definition priority_period (d : list (string * yaml)) (k : string)
  (default : yaml) : result Z :=
  match lookup CONF_PRIORITY d with
  | Some (YDict p) =>
      period_microseconds
        (match lookup k p with Some v => v | None => default end)
  | _ => Raise (KeyError CONF_PRIORITY)
  end.

(** A configuration with a key of another component. *)
Definition unknown_key_config : list (string * yaml) :=
  [ (CONF_ADDRESS, YStr "01"); ("brightness", YInt 3) ].

(** A [betabrite.display] action with a color and a computed effect. *)
Definition display_action : list (string * yaml) :=
  [ (CONF_TEXT, YStr "Hello"); (CONF_COLOR, YStr "RED");
    (CONF_EFFECT, YLambda "return id(fx);") ].

Definition display_action_statements : list statement :=
  [ NewPvariable (ID (Some "show"));
    Call "set_message" [StringLiteral "Hello"];
    Call "set_color" [StringLiteral "red"];
    Call "set_effect" [LambdaExpression "return id(fx);" "std::string"] ].

(** A [betabrite.priority] action that lasts ninety seconds. *)
Definition timed_priority_action : list (string * yaml) :=
  [ (CONF_TEXT, YStr "Fire"); (CONF_DURATION, YStr "90s") ].

Definition timed_priority_statements : list statement :=
  [ NewPvariable (ID (Some "alarm"));
    Call "set_message" [StringLiteral "Fire"];
    Call "set_duration" [IntLiteral 90] ].

(** A configuration whose only offline message has a color and no text. *)
Definition textless_config : list (string * yaml) :=
  [ (CONF_OFFLINE_MESSAGES,
     YList [ YDict [ (CONF_COLOR, YStr "red") ] ]) ].

(** A [betabrite.clear] action written with a text. *)
Definition clear_with_text : list (string * yaml) :=
  [ (CONF_ID, YStr "sign"); (CONF_TEXT, YStr "Hello") ].

End SettingsVocabulary.

(** ** Words about the runs of the feed utility *)

Section FeedRunVocabulary.
Import updateFeed.

Definition facts_url : string := "https://api.api-ninjas.com/v1/facts".

Definition trivia_url (category : string) : string :=
  "https://api.api-ninjas.com/v1/trivia?category=" ++ category.

(** A response whose status is [requests.codes.ok]. *)
Definition response_ok (r : response) : bool :=
  status_code r =? codes_ok.

(** [response.json()[0]['fact']] *)
Definition fact_of (r : response) : result json :=
  j <- json_of r ;; x <- first j ;; field x "fact".

(** A text with a line break in it. *)
Fixpoint has_newline (s : string) : bool :=
  match s with
  | EmptyString => false
  | String c s' => Ascii.eqb c (ascii_of_nat 10) || has_newline s'
  end.

Definition is_publish (c : mqtt_call) : bool :=
  match c with
  | Publish _ _ _ => true
  | Connect _ _ _ => false
  end.

(** The client is as it was: a fetch touches neither the connection nor
    what was sent and printed. *)
Definition same_client (w w' : world) : Prop :=
  broker w' = broker w /\ connected w' = connected w /\
  calls w' = calls w /\ printed w' = printed w.

(** A joke service that answers with two jokes, one on two lines. *)
Definition jokes_world : world :=
  World
    [ Response 200
        (JsonBody
           (JObj [ ("error", JBool false); ("amount", JNum 2);
                   ("jokes",
                    JArr [ JObj [ ("joke",
                                   JStr (String "A" (String (ascii_of_nat 10)
                                                       "B"))) ];
                           JObj [ ("joke", JStr "One line") ] ]) ])) ]
    [] [] Silent false [] [].

(** The answer of the joke service when it has an error. *)
Definition joke_error_world : world :=
  World
    [ Response 200
        (JsonBody (JObj [ ("error", JBool true);
                          ("message", JStr "No matching joke found") ])) ]
    [] [] Silent false [] [].

(** A fact service that first answers with an error, then with facts. *)
Definition facts_world : world :=
  World
    [ Response 429 (OtherBody "Too Many Requests");
      fact_response; fact_response; fact_response; fact_response;
      fact_response; Response 200 (OtherBody "left over") ]
    [] [] Silent false [] [].

(** A fact service that answers OK without a fact. *)
Definition broken_facts_world : world :=
  World
    [ Response 503 (OtherBody "Service Unavailable");
      Response 200 (JsonBody (JArr [])) ]
    [] [] Silent false [] [].

(** A trivia service that answers with one question; the random choice
    falls on the seventh category. *)
Definition trivia_world : world :=
  World
    [ Response 200
        (JsonBody
           (JArr [ JObj [ ("category", JStr "music");
                          ("question", JStr "Which instrument has 88 keys");
                          ("answer", JStr "Piano") ] ])) ]
    [] [ 6%nat ] Silent false [] [].

End FeedRunVocabulary.

(* ================================================================== *)
(** * Properties of the library model *)

(** Membership of an entry in a schema that is written out. *)
Ltac in_schema := simpl; repeat (first [left; reflexivity | right]).

Section PyFacts.

Lemma member_In (x : string) (l : list string) :
  member x l = true <-> In x l.
Proof.
  unfold member. rewrite existsb_exists. split.
  - intros (y & Hy & E). apply String.eqb_eq in E. now subst.
  - intros H. exists x. split; [assumption | apply String.eqb_refl].
Qed.

Lemma accepted_Ok {A} (a : A) : accepted (Ok a).
Proof. now exists a. Qed.

Lemma not_accepted_Raise {A} (e : exn) : ~ accepted (@Raise A e).
Proof. intros (a & H). discriminate. Qed.

Lemma bind_Ok {A B} (m : result A) (k : A -> result B) (b : B) :
  Py.bind m k = Ok b -> exists a, m = Ok a /\ k a = Ok b.
Proof. destruct m as [a|e]; simpl; [eauto | discriminate]. Qed.

Lemma lookup_not_In {A} (k : string) (d : list (string * A)) :
  ~ In k (map fst d) -> lookup k d = None.
Proof.
  induction d as [|[k' v'] d IH]; simpl; [reflexivity|].
  intros H. destruct (String.eqb k k') eqn:E.
  - apply String.eqb_eq in E. subst. exfalso. apply H. now left.
  - apply IH. intros Hin. apply H. now right.
Qed.

Lemma string_of_uint_numeral (d : Decimal.uint) :
  cv.all_chars numeral_char (NilEmpty.string_of_uint d) = true.
Proof. induction d; simpl; auto. Qed.

Lemma str_int_numeral (n : Z) :
  cv.all_chars numeral_char (str_int n) = true.
Proof.
  unfold str_int, NilZero.string_of_int, NilZero.string_of_uint.
  destruct (Z.to_int n) as [d|d]; destruct d; simpl;
    auto using string_of_uint_numeral.
Qed.

Lemma lower_ascii_numeral (c : ascii) :
  numeral_char c = true -> lower_ascii c = c.
Proof.
  destruct c as [[|] [|] [|] [|] [|] [|] [|] [|]];
    vm_compute; intros; congruence.
Qed.

Lemma lower_numeral (s : string) :
  cv.all_chars numeral_char s = true -> lower s = s.
Proof.
  induction s as [|c s IH]; simpl; [reflexivity|].
  intros H. apply andb_true_iff in H. destruct H as [Hc Hs].
  now rewrite lower_ascii_numeral, IH.
Qed.

End PyFacts.

(* ================================================================== *)
(** * Numerals: what [int] reads *)

Section Numerals.
Import cv.

Lemma is_space_blank (c : ascii) :
  is_space c = true <-> In c (map ascii_of_nat [9; 10; 11; 12; 13; 32]%nat).
Proof.
  assert (E : is_space c
              = existsb (Ascii.eqb c)
                  (map ascii_of_nat [9; 10; 11; 12; 13; 32]%nat))
    by (destruct c as [[] [] [] [] [] [] [] []]; reflexivity).
  rewrite E, existsb_exists. split.
  - intros (x & Hx & Hc). apply Ascii.eqb_eq in Hc. now subst.
  - intros H. exists c. split; [exact H | apply Ascii.eqb_refl].
Qed.

Lemma blank_is_space (l : list ascii) :
  blank l <-> Forall (fun c => is_space c = true) l.
Proof.
  unfold blank. rewrite !Forall_forall.
  split; intros H c Hc; apply is_space_blank; auto.
Qed.

Lemma blank_app (a b : list ascii) : blank a -> blank b -> blank (a ++ b).
Proof. unfold blank. intros. apply Forall_app. auto. Qed.

Lemma blank_rev (l : list ascii) : blank l -> blank (rev l).
Proof. unfold blank. apply Forall_rev. Qed.

Lemma lstrip_blank_app (b l : list ascii) :
  blank b -> lstrip (b ++ l) = lstrip l.
Proof.
  intros H. apply blank_is_space in H.
  induction H as [|c b Hc _ IH]; [reflexivity|].
  simpl. now rewrite Hc.
Qed.

Lemma lstrip_cons (c : ascii) (r : list ascii) :
  is_space c = false -> lstrip (c :: r) = c :: r.
Proof. intros H. simpl. now rewrite H. Qed.

Lemma lstrip_spec (l : list ascii) :
  exists b, blank b /\ l = (b ++ lstrip l)%list.
Proof.
  induction l as [|c l (b & Hb & IH)].
  - exists []. split; [constructor | reflexivity].
  - simpl. destruct (is_space c) eqn:E.
    + exists (c :: b). split.
      * constructor; [now apply is_space_blank | exact Hb].
      * simpl. now rewrite <- IH.
    + exists []. split; [constructor | reflexivity].
Qed.

Lemma lstrip_snoc (l : list ascii) (c : ascii) :
  is_space c = false -> lstrip (l ++ [c]) = (lstrip l ++ [c])%list.
Proof.
  intros H. induction l as [|x l IH]; simpl.
  - now rewrite H.
  - destruct (is_space x); [exact IH | reflexivity].
Qed.

Lemma rstrip_app_blank (l a : list ascii) :
  blank a -> rstrip (l ++ a) = rstrip l.
Proof.
  intros H. unfold rstrip. rewrite rev_app_distr.
  rewrite lstrip_blank_app; [reflexivity | now apply blank_rev].
Qed.

Lemma rstrip_snoc (l : list ascii) (c : ascii) :
  is_space c = false -> rstrip (l ++ [c]) = (l ++ [c])%list.
Proof.
  intros H. unfold rstrip. rewrite rev_app_distr. simpl.
  rewrite H. simpl. now rewrite rev_involutive.
Qed.

Lemma rstrip_cons (c : ascii) (r : list ascii) :
  is_space c = false -> rstrip (c :: r) = c :: rstrip r.
Proof.
  intros H. unfold rstrip. simpl. rewrite (lstrip_snoc _ _ H).
  rewrite rev_app_distr. reflexivity.
Qed.

Lemma rstrip_spec (l : list ascii) :
  exists a, blank a /\ l = (rstrip l ++ a)%list.
Proof.
  destruct (lstrip_spec (rev l)) as (b & Hb & E).
  exists (rev b). split; [now apply blank_rev|].
  unfold rstrip. rewrite <- rev_app_distr, <- E. now rewrite rev_involutive.
Qed.

Lemma strip_spec (l : list ascii) :
  exists b a, blank b /\ blank a /\ l = (b ++ strip l ++ a)%list.
Proof.
  destruct (lstrip_spec l) as (b & Hb & E).
  destruct (rstrip_spec (lstrip l)) as (a & Ha & F).
  exists b, a. unfold strip. split; [exact Hb|]. split; [exact Ha|].
  now rewrite <- F.
Qed.

(** The digits of the bases 10 and 16. *)
Lemma digit_of_value (base : Z) (c : ascii) (d : Z) :
  base = 10 \/ base = 16 ->
  digit_of base c = Some d <-> digit_value base c d.
Proof.
  intros Hb. unfold digit_value. split.
  - intros H.
    destruct Hb as [-> | ->];
      destruct c as [[] [] [] [] [] [] [] []];
      vm_compute in H; try discriminate H;
      injection H as <-; (split; [lia | reflexivity]).
  - intros (Hd & H).
    assert (C : d = 0 \/ d = 1 \/ d = 2 \/ d = 3 \/ d = 4 \/ d = 5 \/ d = 6
                \/ d = 7 \/ d = 8 \/ d = 9 \/ d = 10 \/ d = 11 \/ d = 12
                \/ d = 13 \/ d = 14 \/ d = 15)
      by (destruct Hb; subst; lia).
    repeat (destruct C as [-> | C]; [|]); try subst d;
      vm_compute in H; injection H as <-;
      destruct Hb as [-> | ->]; try lia; reflexivity.
Qed.

Lemma digit_char (base : Z) (c : ascii) (d : Z) :
  base = 10 \/ base = 16 ->
  digit_of base c = Some d ->
  is_space c = false /\ Ascii.eqb c "_" = false /\
  Ascii.eqb c "+" = false /\ Ascii.eqb c "-" = false /\
  Ascii.eqb c "x" = false /\ Ascii.eqb c "X" = false.
Proof.
  intros Hb H.
  destruct Hb as [-> | ->];
    destruct c as [[] [] [] [] [] [] [] []];
    vm_compute in H; try discriminate H;
    repeat split; reflexivity.
Qed.

Lemma fold_digit_step_None (base : Z) (l : list ascii) :
  fold_left (digit_step base) l None = None.
Proof. induction l; simpl; auto. Qed.

Lemma digit_step_digit (base : Z) (acc : Z) (p : bool) (c : ascii) (d : Z) :
  base = 10 \/ base = 16 -> digit_value base c d ->
  digit_step base (Some (acc, p)) c = Some (acc * base + d, true).
Proof.
  intros Hb H. apply (digit_of_value base c d Hb) in H.
  destruct (digit_char base c d Hb H) as (_ & U & _).
  unfold digit_step. now rewrite U, H.
Qed.

(** A row of digits is what the loop of [int] reads to the end. *)
Lemma digits_fold (base : Z) (l : list ascii) (n : Z) :
  base = 10 \/ base = 16 -> digits base l n ->
  fold_left (digit_step base) l (Some (0, false)) = Some (n, true).
Proof.
  intros Hb H. induction H as [c d Hd | l n c d _ IH Hd | l n c d _ IH Hd].
  - cbn [fold_left]. now rewrite (digit_step_digit base 0 false c d Hb Hd).
  - rewrite fold_left_app, IH. cbn [fold_left].
    apply (digit_step_digit base n true c d Hb Hd).
  - rewrite fold_left_app, IH. cbn [fold_left].
    apply (digit_step_digit base n false c d Hb Hd).
Qed.

Lemma fold_digits (base : Z) (l : list ascii) :
  base = 10 \/ base = 16 ->
  forall acc p,
    fold_left (digit_step base) l (Some (0, false)) = Some (acc, p) ->
    if p then digits base l acc
    else (l = [] /\ acc = 0) \/
         exists l', l = (l' ++ ["_"%char])%list /\ digits base l' acc.
Proof.
  intros Hb. induction l as [|c l IH] using rev_ind; intros acc p H.
  - simpl in H. injection H as <- <-. now left.
  - rewrite fold_left_app in H. simpl in H.
    destruct (fold_left (digit_step base) l (Some (0, false)))
      as [[acc' p']|] eqn:F; [|discriminate H].
    specialize (IH acc' p' eq_refl).
    unfold digit_step in H.
    destruct (Ascii.eqb c "_") eqn:U.
    + apply Ascii.eqb_eq in U. subst c.
      destruct p'; [|discriminate H]. injection H as <- <-.
      right. now exists l.
    + destruct (digit_of base c) as [d|] eqn:D; [|discriminate H].
      injection H as <- <-.
      apply (digit_of_value base c d Hb) in D.
      destruct p'.
      * now apply digits_more.
      * destruct IH as [(-> & ->) | (l' & -> & IH)].
        -- simpl. now apply digits_one.
        -- rewrite <- app_assoc. simpl. now apply digits_group.
Qed.

Lemma scan_digits_digits (base : Z) (l : list ascii) (n : Z) :
  base = 10 \/ base = 16 ->
  scan_digits base l = Some n <-> digits base l n.
Proof.
  intros Hb. unfold scan_digits. split.
  - destruct (fold_left (digit_step base) l (Some (0, false)))
      as [[acc p]|] eqn:F; [|discriminate].
    destruct p; [|discriminate]. intros [= <-].
    exact (fold_digits base l Hb acc true F).
  - intros H. now rewrite (digits_fold base l n Hb H).
Qed.

(** A row of digits begins and ends with a digit, and holds nothing but
    digits and underscores. *)
Lemma digits_first (base : Z) (l : list ascii) (n : Z) :
  digits base l n ->
  exists c r d, l = c :: r /\ digit_value base c d.
Proof.
  induction 1 as [c d Hd | l n c d _ (c0 & r & d0 & -> & H0) Hd
                         | l n c d _ (c0 & r & d0 & -> & H0) Hd].
  - now exists c, [], d.
  - now exists c0, (r ++ [c])%list, d0.
  - now exists c0, (r ++ ["_"%char; c])%list, d0.
Qed.

Lemma digits_last (base : Z) (l : list ascii) (n : Z) :
  digits base l n ->
  exists r c d, l = (r ++ [c])%list /\ digit_value base c d.
Proof.
  destruct 1 as [c d Hd | l n c d _ Hd | l n c d _ Hd].
  - now exists [], c, d.
  - now exists l, c, d.
  - exists (l ++ ["_"%char])%list, c, d.
    now rewrite <- app_assoc.
Qed.

Lemma digits_chars (base : Z) (l : list ascii) (n : Z) :
  digits base l n ->
  Forall (fun c => c = "_"%char \/ exists d, digit_value base c d) l.
Proof.
  induction 1 as [c d Hd | l n c d _ IH Hd | l n c d _ IH Hd].
  - constructor; [right; eauto | constructor].
  - apply Forall_app. split; [exact IH|].
    constructor; [right; eauto | constructor].
  - apply Forall_app. split; [exact IH|].
    constructor; [now left|]. constructor; [right; eauto | constructor].
Qed.

Lemma split_sign_digits (base : Z) (sign : list ascii * Z)
  (body : list ascii) (m : Z) :
  base = 10 \/ base = 16 -> In sign signs -> digits base body m ->
  split_sign (fst sign ++ body) = (snd sign, body).
Proof.
  intros Hb Hs Hd.
  destruct (digits_first _ _ _ Hd) as (c & r & d & -> & Hc).
  apply (digit_of_value base c d Hb) in Hc.
  destruct (digit_char base c d Hb Hc) as (_ & _ & P & M & _).
  simpl in Hs. destruct Hs as [<- | [<- | [<- | []]]]; simpl.
  - now rewrite M, P.
  - reflexivity.
  - reflexivity.
Qed.

Lemma strip_numeral (base : Z) (before sign body after : list ascii)
  (m : Z) (c : ascii) (r : list ascii) :
  base = 10 \/ base = 16 ->
  blank before -> blank after -> digits base body m ->
  (sign ++ body)%list = c :: r -> is_space c = false ->
  strip (before ++ sign ++ body ++ after) = (sign ++ body)%list.
Proof.
  intros Hb Bb Ba Hd E Hc. unfold strip.
  rewrite (lstrip_blank_app _ _ Bb).
  rewrite app_assoc, E. rewrite <- app_comm_cons.
  rewrite (lstrip_cons _ _ Hc). rewrite app_comm_cons, <- E.
  rewrite (rstrip_app_blank _ _ Ba).
  destruct (digits_last _ _ _ Hd) as (r' & c' & d' & -> & Hc').
  apply (digit_of_value base c' d' Hb) in Hc'.
  destruct (digit_char base c' d' Hb Hc') as (S & _).
  rewrite app_assoc. now apply rstrip_snoc.
Qed.

Lemma skip_prefix_decimal (l : list ascii) : skip_prefix 10 l = l.
Proof. destruct l as [|c [|x r]]; reflexivity. Qed.

(** In base 10, [int] reads exactly the decimal numerals. *)
Lemma py_int_decimal (s : string) (n : Z) :
  py_int s 10 = Some n <-> decimal_numeral (list_ascii_of_string s) n.
Proof.
  assert (Hb : 10 = 10 \/ 10 = 16) by now left.
  unfold py_int. split.
  - intros H.
    destruct (strip_spec (list_ascii_of_string s)) as (b & a & Bb & Ba & E).
    destruct (split_sign (strip (list_ascii_of_string s)))
      as [sign body] eqn:S.
    rewrite skip_prefix_decimal in H.
    destruct (scan_digits 10 body) as [m|] eqn:D; [|discriminate H].
    injection H as <-. apply (scan_digits_digits 10 body m Hb) in D.
    assert (X : exists sg, In sg signs /\ snd sg = sign /\
                  strip (list_ascii_of_string s) = (fst sg ++ body)%list).
    { unfold split_sign in S.
      destruct (strip (list_ascii_of_string s)) as [|c r].
      - injection S as <- <-. exists ([], 1). simpl. auto.
      - destruct (Ascii.eqb c "-") eqn:M.
        + apply Ascii.eqb_eq in M. subst c. injection S as <- <-.
          exists (["-"%char], -1). simpl. auto.
        + destruct (Ascii.eqb c "+") eqn:P.
          * apply Ascii.eqb_eq in P. subst c. injection S as <- <-.
            exists (["+"%char], 1). simpl. auto.
          * injection S as <- <-. exists ([], 1). simpl. auto. }
    destruct X as (sg & Hs & <- & X).
    exists b, sg, body, a, m. rewrite X in E. rewrite <- app_assoc in E.
    auto 10.
  - intros (b & sg & body & a & m & Bb & Hs & Hd & Ba & E & ->).
    rewrite E.
    assert (F : exists c r, (fst sg ++ body)%list = c :: r
                            /\ is_space c = false).
    { destruct (digits_first _ _ _ Hd) as (c & r & d & -> & Hc).
      apply (digit_of_value 10 c d Hb) in Hc.
      destruct (digit_char 10 c d Hb Hc) as (Sc & _).
      simpl in Hs. destruct Hs as [<- | [<- | [<- | []]]]; simpl; eauto. }
    destruct F as (c & r & F & Hc).
    rewrite (strip_numeral 10 b (fst sg) body a m c r Hb Bb Ba Hd F Hc).
    rewrite (split_sign_digits 10 sg body m Hb Hs Hd).
    rewrite skip_prefix_decimal.
    apply (scan_digits_digits 10 body m Hb) in Hd. now rewrite Hd.
Qed.

(** In base 16, on a text that starts with [0x], [int] reads exactly the
    hexadecimal numerals. *)
Lemma py_int_hexadecimal (s : string) (r : list ascii) (n : Z) :
  list_ascii_of_string s = "0"%char :: "x"%char :: r ->
  py_int s 16 = Some n <-> hexadecimal_numeral (list_ascii_of_string s) n.
Proof.
  assert (Hb : 16 = 10 \/ 16 = 16) by now right.
  intros E. unfold py_int. rewrite E. unfold strip.
  rewrite (lstrip_cons "0" _ eq_refl).
  rewrite (rstrip_cons "0" _ eq_refl), (rstrip_cons "x" _ eq_refl).
  destruct (rstrip_spec r) as (a & Ba & Er).
  change (split_sign ("0"%char :: "x"%char :: rstrip r))
    with (1, "0"%char :: "x"%char :: rstrip r).
  cbv beta iota.
  change (skip_prefix 16 ("0"%char :: "x"%char :: rstrip r))
    with (skip_underscore (rstrip r)).
  split.
  - intros H.
    destruct (scan_digits 16 (skip_underscore (rstrip r))) as [m|] eqn:D;
      [|discriminate H].
    cbn [option_map] in H. rewrite Z.mul_1_l in H. injection H as <-.
    apply (scan_digits_digits 16 _ m Hb) in D.
    unfold skip_underscore in D.
    destruct (rstrip r) as [|c r'] eqn:R.
    + destruct (digits_first _ _ _ D) as (? & ? & ? & [=] & _).
    + destruct (Ascii.eqb c "_") eqn:U.
      * apply Ascii.eqb_eq in U. subst c.
        exists ["0"; "x"; "_"]%char, r', a.
        split; [right; left; reflexivity|]. split; [exact D|].
        split; [exact Ba|]. rewrite Er. reflexivity.
      * exists ["0"; "x"]%char, (c :: r'), a.
        split; [left; reflexivity|]. split; [exact D|].
        split; [exact Ba|]. rewrite Er. reflexivity.
  - intros (prefix & body & a' & Hp & Hd & Ba' & E').
    assert (R : skip_underscore (rstrip r) = body).
    { destruct (digits_first _ _ _ Hd) as (c & t & d & Eb & Hc).
      apply (digit_of_value 16 c d Hb) in Hc.
      destruct (digit_char 16 c d Hb Hc) as (Sc & U & _).
      destruct (digits_last _ _ _ Hd) as (t' & c' & d' & Et & Hc').
      apply (digit_of_value 16 c' d' Hb) in Hc'.
      destruct (digit_char 16 c' d' Hb Hc') as (Sc' & _).
      assert (B : rstrip (body ++ a') = body).
      { rewrite (rstrip_app_blank _ _ Ba'), Et. now apply rstrip_snoc. }
      simpl in Hp. destruct Hp as [<- | [<- | []]];
        simpl in E'; injection E' as ->.
      - rewrite B, Eb. simpl. now rewrite U.
      - rewrite (rstrip_cons "_" _ eq_refl), B. reflexivity. }
    rewrite R. apply (scan_digits_digits 16 body n Hb) in Hd.
    rewrite Hd. cbn [option_map]. now rewrite Z.mul_1_l.
Qed.

Lemma startswith_0x (s : string) :
  startswith "0x" s = true <->
  exists r, list_ascii_of_string s = "0"%char :: "x"%char :: r.
Proof.
  unfold startswith.
  destruct s as [|c [|x r]]; cbn [String.prefix list_ascii_of_string].
  - split; [discriminate | intros (r & [=])].
  - destruct (ascii_dec "0" c);
      (split; [discriminate | intros (r & [=])]).
  - destruct (ascii_dec "0" c) as [<- | N].
    + destruct (ascii_dec "x" x) as [<- | N].
      * split; [eauto | now destruct r].
      * split; [discriminate | intros (r' & [= E _]); now destruct N].
    + split; [discriminate | intros (r' & [= E _ _]); now destruct N].
Qed.

Lemma decimal_numeral_not_0x (t r : list ascii) (n : Z) :
  decimal_numeral t n -> t <> "0"%char :: "x"%char :: r.
Proof.
  assert (Hb : 10 = 10 \/ 10 = 16) by now left.
  intros (b & sg & body & a & m & Bb & Hs & Hd & Ba & -> & _) E.
  apply blank_is_space in Bb, Ba.
  destruct b as [|c0 b].
  2:{ injection E as -> _. inversion Bb as [|? ? S0 _]. discriminate S0. }
  simpl in E.
  pose proof (digits_chars _ _ _ Hd) as Hc.
  destruct (digits_first _ _ _ Hd) as (c & t & d & -> & _).
  simpl in Hs. destruct Hs as [<- | [<- | [<- | []]]]; simpl in E;
    try discriminate E.
  injection E as -> E.
  inversion Hc as [|? ? _ Ht]; subst.
  destruct t as [|c1 t]; simpl in E.
  - subst a. inversion Ba as [|? ? S0 _]. discriminate S0.
  - injection E as -> _. inversion Ht as [|? ? [U | (d1 & D1)] _].
    + discriminate U.
    + apply (digit_of_value 10 _ d1 Hb) in D1. discriminate D1.
Qed.

(** [cv.int_] reads a text, in the base that its beginning selects,
    exactly when the text is a numeral. *)
Lemma py_int_numeral (s : string) (n : Z) :
  py_int (lower s) (if startswith "0x" (lower s) then 16 else 10) = Some n
  <-> numeral s n.
Proof.
  unfold numeral.
  destruct (startswith "0x" (lower s)) eqn:P.
  - apply startswith_0x in P. destruct P as (r & E).
    rewrite (py_int_hexadecimal (lower s) r n E). split; [now right|].
    intros [D | H]; [|exact H].
    exfalso. exact (decimal_numeral_not_0x _ r n D E).
  - rewrite py_int_decimal. split; [now left|].
    intros [D | (prefix & body & a & Hp & _ & _ & E)]; [exact D|].
    exfalso.
    assert (T : startswith "0x" (lower s) = true).
    { apply startswith_0x.
      simpl in Hp. destruct Hp as [<- | [<- | []]]; rewrite E; simpl; eauto. }
    congruence.
Qed.

(** [cv.int_] accepts exactly the values that stand for a whole number,
    and keeps a boolean as it is. *)
Lemma int_whole_number (v : yaml) (x : value) :
  int_ v = Ok x <-> exists n, whole_number v n /\ x = kept v n.
Proof.
  unfold int_. destruct v as [|b|m|s|l|d|src]; simpl;
    try (split; [discriminate | intros (n & [] & _)]).
  - split; [intros [= <-]; now exists (Z.b2z b) | now intros (n & _ & ->)].
  - split; [intros [= <-]; now exists m | now intros (n & -> & ->)].
  - pose proof (py_int_numeral s) as N.
    destruct (py_int (lower s) (if startswith "0x" (lower s) then 16 else 10))
      as [n|].
    + split.
      * intros [= <-]. exists n. split; [now apply N | reflexivity].
      * intros (n' & Hn & ->). apply N in Hn. now injection Hn as <-.
    + split; [discriminate|].
      intros (n' & Hn & _). apply N in Hn. discriminate Hn.
Qed.

Lemma whole_number_unique (v : yaml) (n m : Z) :
  whole_number v n -> whole_number v m -> n = m.
Proof.
  destruct v as [|b|k|s|l|d|src]; simpl; try contradiction; try congruence.
  intros Hn Hm.
  apply py_int_numeral in Hn, Hm. rewrite Hn in Hm. now injection Hm.
Qed.

Lemma as_number_kept (v : yaml) (n : Z) :
  whole_number v n -> as_number (kept v n) = Some n.
Proof.
  destruct v; simpl; try contradiction; try reflexivity.
  now intros ->.
Qed.

End Numerals.


Section Validators.
Import cv betabrite.

Lemma closed_options_lower (options : list string) (e : string) :
  closed_options options = true -> In e options -> lower e = e.
Proof.
  unfold closed_options. rewrite forallb_forall. intros H Hin.
  apply H in Hin. apply andb_true_iff in Hin. destruct Hin as [E _].
  now apply String.eqb_eq in E.
Qed.

Lemma closed_options_numeral (options : list string) (e : string) :
  closed_options options = true -> In e options ->
  all_chars numeral_char e = false.
Proof.
  unfold closed_options. rewrite forallb_forall. intros H Hin.
  apply H in Hin. apply andb_true_iff in Hin. destruct Hin as [_ N].
  now apply negb_true_iff in N.
Qed.

Lemma one_of_lower_result (options : list string) (v : yaml) (r : value) :
  one_of options true v = Ok r ->
  exists s, string_ v = Ok s /\ In (lower s) options /\ r = Str (lower s).
Proof.
  unfold one_of. intros H. apply bind_Ok in H. destruct H as (s & Hs & H).
  exists s. destruct (member (lower s) options) eqn:M; [|discriminate].
  apply member_In in M. injection H as <-. auto.
Qed.

(** On a closed list, [one_of] with [lower] accepts a value exactly when it
    is a string that is one of the options, letter case ignored. *)
Lemma one_of_lower_iff (options : list string) (v : yaml) :
  closed_options options = true ->
  accepted (one_of options true v) <-> ci_member v options.
Proof.
  intros Hc. split.
  - intros (r & H). apply one_of_lower_result in H.
    destruct H as (s & Hs & Hin & _).
    destruct v; simpl in Hs; try discriminate; injection Hs as <-.
    + exfalso.
      pose proof (str_int_numeral n) as Hn.
      rewrite (lower_numeral _ Hn) in Hin.
      rewrite (closed_options_numeral _ _ Hc Hin) in Hn. discriminate.
    + exists s0, (lower s0). repeat split; [assumption|].
      unfold ci_eq. symmetry. now apply (closed_options_lower options).
  - intros (s & e & -> & Hin & E). unfold ci_eq in E.
    rewrite (closed_options_lower _ _ Hc Hin) in E.
    unfold one_of. simpl. rewrite E.
    apply member_In in Hin. rewrite Hin. apply accepted_Ok.
Qed.

Lemma Range_Ok (lo hi : Z) (x r : value) :
  Range lo hi x = Ok r <-> r = x /\ number_between lo hi x.
Proof.
  unfold Range, number_between.
  destruct (as_number x) as [n|].
  - destruct (n <? lo) eqn:L; [apply Z.ltb_lt in L | apply Z.ltb_ge in L].
    + split; [discriminate | intros (_ & m & [= <-] & ?); lia].
    + destruct (hi <? n) eqn:H; [apply Z.ltb_lt in H | apply Z.ltb_ge in H].
      * split; [discriminate | intros (_ & m & [= <-] & ?); lia].
      * split.
        -- intros [= <-]. split; [reflexivity|]. exists n. split; [reflexivity | lia].
        -- intros [-> _]. reflexivity.
  - split; [discriminate | intros (_ & m & [=] & _)].
Qed.

Lemma int_range_Ok (lo hi : Z) (v : yaml) (r : value) :
  int_range lo hi v = Ok r <-> int_ v = Ok r /\ number_between lo hi r.
Proof.
  unfold int_range. split.
  - intros H. apply bind_Ok in H. destruct H as (x & Hx & H).
    apply Range_Ok in H. destruct H as [-> Hr]. auto.
  - intros (Hx & Hr). rewrite Hx. simpl. apply Range_Ok. auto.
Qed.

(** What [cv.int_range] keeps: the integer between the bounds that the
    value stands for, or the boolean that was written for it. *)
Lemma int_range_kept (lo hi : Z) (v : yaml) (r : value) :
  int_range lo hi v = Ok r <->
  exists n, whole_number v n /\ lo <= n <= hi /\ r = kept v n.
Proof.
  rewrite int_range_Ok, int_whole_number. unfold number_between. split.
  - intros ((n & Hn & ->) & m & Hm & Hr).
    rewrite (as_number_kept v n Hn) in Hm. injection Hm as <-. eauto.
  - intros (n & Hn & Hr & ->). split; [eauto|].
    exists n. split; [now apply as_number_kept | exact Hr].
Qed.

Lemma int_range_accepted (lo hi : Z) (v : yaml) :
  accepted (int_range lo hi v) <->
  exists n, whole_number v n /\ lo <= n <= hi.
Proof.
  split.
  - intros (r & H). apply int_range_kept in H.
    destruct H as (n & ? & ? & _). eauto.
  - intros (n & Hn & Hr). exists (kept v n). apply int_range_kept. eauto.
Qed.

(** A kept whole number is an integer or a boolean, and code generation
    writes its literal. *)
Lemma number_literal_between (lo hi : Z) (x : value) (e : cg.expression) :
  number_between lo hi x -> number_expression x e -> literal_between lo hi e.
Proof.
  intros (n & Hn & Hr) He.
  destruct x; simpl in Hn; try discriminate Hn; simpl in He; subst e;
    injection Hn as <-; [right | left]; eauto.
Qed.

Lemma number_between_safe_exp (lo hi : Z) (x : value) :
  number_between lo hi x ->
  exists e, cg.safe_exp x = Ok e /\ number_expression x e.
Proof.
  intros (n & Hn & _).
  destruct x; simpl in Hn; try discriminate Hn; simpl; eauto.
Qed.

Lemma validate_address_Ok (v : yaml) (r : value) :
  validate_address v = Ok r <->
  exists s, v = YStr s /\ String.length s = 2%nat /\ r = Str s.
Proof.
  unfold validate_address. split.
  - intros H. apply bind_Ok in H. destruct H as (s & Hs & H).
    destruct v; simpl in Hs; try discriminate. injection Hs as ->.
    destruct (Nat.eqb (String.length s) 2) eqn:E; simpl in H;
      [|discriminate].
    apply Nat.eqb_eq in E. injection H as <-. eauto.
  - intros (s & -> & L & ->). simpl. now rewrite L.
Qed.

End Validators.

(** A value that [cv.int_range] returned: its bounds and its literal. *)
Ltac kept_number X e SE NE NB :=
  apply int_range_Ok in X; destruct X as (_ & NB);
  destruct (number_between_safe_exp _ _ _ NB) as (e & SE & NE).

(* ================================================================== *)
(** * Properties of schemas *)

Section Schemas.
Import cv.

Lemma validate_entry_Ok (e : entry) (d : list (string * yaml))
  (ov : option value) :
  validate_entry e d = Ok ov ->
  (ov = None /\ lookup (key e) d = None /\ mark e = Optional None) \/
  (exists v x, ov = Some x /\ validator e v = Ok x /\
     (lookup (key e) d = Some v \/
      (lookup (key e) d = None /\ mark e = Optional (Some v)))).
Proof.
  unfold validate_entry.
  destruct (lookup (key e) d) as [v|] eqn:L.
  - intros H. apply bind_Ok in H. destruct H as (x & Hx & [= <-]).
    right. exists v, x. auto.
  - destruct (mark e) as [|[v|]] eqn:M; [discriminate| |].
    + intros H. apply bind_Ok in H. destruct H as (x & Hx & [= <-]).
      right. exists v, x. auto.
    + intros [= <-]. now left.
Qed.

Lemma validate_entries_keys (es : list entry) (d : list (string * yaml))
  (out : list (string * value)) :
  validate_entries es d = Ok out ->
  forall k, In k (map fst out) -> In k (map key es).
Proof.
  revert out. induction es as [|e es IH]; simpl; intros out H k Hk.
  - injection H as <-. assumption.
  - apply bind_Ok in H. destruct H as (ov & Hov & H).
    apply bind_Ok in H. destruct H as (out' & Hout & [= <-]).
    destruct ov as [x|]; simpl in Hk.
    + destruct Hk as [<-|Hk]; [now left | right; eauto].
    + right; eauto.
Qed.

(** Each key of a schema without repeated keys holds, in the validated
    dictionary, what its entry validated. *)
Lemma validate_entries_lookup (es : list entry) (d : list (string * yaml))
  (out : list (string * value)) :
  NoDup (map key es) ->
  validate_entries es d = Ok out ->
  forall e, In e es ->
  exists ov, validate_entry e d = Ok ov /\ lookup (key e) out = ov.
Proof.
  revert out. induction es as [|e es IH]; simpl; intros out ND H e0 Hin;
    [contradiction|].
  apply bind_Ok in H. destruct H as (ov & Hov & H).
  apply bind_Ok in H. destruct H as (out' & Hout & [= <-]).
  inversion ND as [|? ? Hnotin ND']; subst.
  assert (Hfresh : lookup (key e) out' = None).
  { apply lookup_not_In. intros Hk. apply Hnotin.
    eapply validate_entries_keys; eauto. }
  destruct Hin as [<-|Hin].
  - exists ov. split; [assumption|].
    destruct ov as [x|]; simpl; [now rewrite String.eqb_refl | assumption].
  - destruct (IH out' ND' Hout e0 Hin) as (ov0 & H0 & L0).
    exists ov0. split; [assumption|].
    destruct ov as [x|]; simpl; [|assumption].
    destruct (String.eqb (key e0) (key e)) eqn:E; [|assumption].
    apply String.eqb_eq in E. exfalso. apply Hnotin. rewrite <- E.
    now apply in_map.
Qed.

(** A schema accepts a dictionary exactly when every entry does. *)
Lemma validate_entries_accepted (es : list entry) (d : list (string * yaml)) :
  accepted (validate_entries es d) <->
  forall e, In e es -> accepted (validate_entry e d).
Proof.
  induction es as [|e es IH]; simpl.
  - split; [intros _ e [] | intros _; apply accepted_Ok].
  - split.
    + intros (out & H) e0 [<-|Hin].
      * apply bind_Ok in H. destruct H as (ov & Hov & _). now exists ov.
      * apply bind_Ok in H. destruct H as (ov & _ & H).
        apply bind_Ok in H. destruct H as (out' & Hout & _).
        apply IH; [now exists out' | assumption].
    + intros H.
      destruct (H e (or_introl eq_refl)) as (ov & Hov).
      destruct (proj2 IH (fun e0 Hin => H e0 (or_intror Hin))) as (out & Ho).
      rewrite Hov, Ho. simpl. apply accepted_Ok.
Qed.

Lemma Schema_Ok (es : list entry) (v : yaml) (r : value) :
  Schema es v = Ok r ->
  exists d out, v = YDict d /\ r = Dict out /\
    forallb (fun kv => known_key es (fst kv)) d = true /\
    validate_entries es d = Ok out.
Proof.
  unfold Schema. destruct v; try discriminate.
  destruct (forallb _ d) eqn:K; [|discriminate].
  intros H. apply bind_Ok in H. destruct H as (out & Ho & [= <-]).
  exists d, out. auto.
Qed.

(** Every value supplied for a key of an accepted dictionary passed the
    validator of that key. *)
Lemma Schema_supplied (es : list entry) (d : list (string * yaml))
  (e : entry) (v : yaml) :
  accepted (Schema es (YDict d)) -> In e es -> lookup (key e) d = Some v ->
  accepted (validator e v).
Proof.
  intros (r & H) Hin L. apply Schema_Ok in H.
  destruct H as (d' & out & [= <-] & _ & _ & H).
  assert (A : accepted (validate_entry e d)).
  { apply (proj1 (validate_entries_accepted es d)); [now exists out | assumption]. }
  destruct A as (ov & Hov). unfold validate_entry in Hov. rewrite L in Hov.
  apply bind_Ok in Hov. destruct Hov as (x & Hx & _). now exists x.
Qed.

Lemma mapM_Forall2 {A B} (f : A -> result B) (l : list A) (l' : list B) :
  mapM f l = Ok l' <-> Forall2 (fun x y => f x = Ok y) l l'.
Proof.
  revert l'. induction l as [|x l IH]; simpl; intros l'.
  - split; [intros [= <-]; constructor | intros H; now inversion H].
  - split.
    + intros H. apply bind_Ok in H. destruct H as (y & Hy & H).
      apply bind_Ok in H. destruct H as (ys & Hys & [= <-]).
      constructor; [assumption | now apply IH].
    + intros H. inversion H as [|? y ? ys Hy Hys]; subst.
      rewrite Hy. simpl. apply IH in Hys. now rewrite Hys.
Qed.

Lemma ensure_list_Ok (f : yaml -> result value) (v : yaml) (r : value) :
  ensure_list f v = Ok r ->
  exists l, r = List l /\ Forall2 (fun x y => f x = Ok y) (as_list v) l.
Proof.
  unfold ensure_list. intros H. apply bind_Ok in H.
  destruct H as (v' & Hv & H).
  assert (v' = v) by (destruct v; simpl in Hv; congruence). subst v'.
  destruct v as [| | | |l|[|kv d]|]; simpl in *; try discriminate;
    try (injection H as <-; exists []; split; [reflexivity | constructor]);
    try (apply bind_Ok in H; destruct H as (x & Hx & [= <-]);
         exists [x]; split; [reflexivity | repeat constructor; assumption]).
  apply bind_Ok in H. destruct H as (l' & Hl & [= <-]).
  exists l'. split; [reflexivity | now apply mapM_Forall2].
Qed.

End Schemas.

(* ================================================================== *)
(** * Properties of code generation *)

Section CodeGeneration.
Import cv cg betabrite.

Lemma emits_add (s : statement) : emits (add s) [s].
Proof. intros code. reflexivity. Qed.

Lemma emits_ret : emits (ret tt) [].
Proof. intros code. unfold ret. now rewrite app_nil_r. Qed.

Lemma emits_seq (m1 m2 : gen unit) (o1 o2 : list statement) :
  emits m1 o1 -> emits m2 o2 -> emits (m1 ;;; m2) (o1 ++ o2)%list.
Proof.
  intros H1 H2 code. unfold sbind. rewrite H1, H2. now rewrite app_assoc.
Qed.

Lemma emits_lift {A} (r : result A) (a : A) (k : A -> gen unit)
  (o : list statement) :
  r = Ok a -> emits (k a) o -> emits (x <~ lift r ;; k x) o.
Proof. intros -> H code. unfold sbind, lift. apply H. Qed.

Lemma emits_for_each {A} (body : A -> gen unit) (l : list A)
  (out : list statement) :
  Forall2 (fun x s => emits (body x) [s]) l out ->
  emits (for_each l body) out.
Proof.
  induction 1 as [|x s l out Hx _ IH]; simpl.
  - apply emits_ret.
  - change (s :: out) with ([s] ++ out)%list. now apply emits_seq.
Qed.

Lemma generated_emits (m : gen unit) (out : list statement) :
  emits m out -> generated m = Ok out.
Proof. intros H. unfold generated. now rewrite H. Qed.

Lemma emits_add_call1 (method : string) (v : value) (e : expression) :
  safe_exp v = Ok e -> emits (add_call1 method (Ok v)) [Call method [e]].
Proof.
  intros H. unfold add_call1. eapply emits_lift.
  - simpl. exact H.
  - apply emits_add.
Qed.

Lemma emits_add_raw (method fn : string) (s : string) :
  emits (add_raw method fn (Ok (Str s)))
    [Call method
       [RawExpression ("esphome::betabrite::" ++ fn ++ "(" ++ dquote ++ s
                       ++ dquote ++ ")")]].
Proof.
  unfold add_raw. eapply emits_lift; [reflexivity | apply emits_add].
Qed.

End CodeGeneration.

Section ValidatedConfiguration.
Import cv cg betabrite.

Ltac nodup_keys :=
  repeat constructor; simpl; intuition discriminate.

Lemma OFFLINE_MESSAGE_SCHEMA_keys : NoDup (map key OFFLINE_MESSAGE_SCHEMA).
Proof. nodup_keys. Qed.

Lemma DEFAULTS_SCHEMA_keys : NoDup (map key DEFAULTS_SCHEMA).
Proof. nodup_keys. Qed.

Lemma CLOCK_SCHEMA_keys : NoDup (map key CLOCK_SCHEMA).
Proof. nodup_keys. Qed.

Lemma PRIORITY_SCHEMA_keys : NoDup (map key PRIORITY_SCHEMA).
Proof. nodup_keys. Qed.

Lemma CONFIG_SCHEMA_keys : NoDup (map key CONFIG_SCHEMA).
Proof. nodup_keys. Qed.

Lemma PRIORITY_MESSAGE_ACTION_SCHEMA_keys :
  NoDup (map key PRIORITY_MESSAGE_ACTION_SCHEMA).
Proof. nodup_keys. Qed.

(** The shapes of what the validators return. *)
Lemma one_of_lower_Str (options : list string) (v : yaml) (r : value) :
  one_of options true v = Ok r -> exists s, r = Str s /\ In s options.
Proof.
  intros H. apply one_of_lower_result in H.
  destruct H as (s & _ & Hin & ->). eauto.
Qed.

Lemma string_value_Str (v : yaml) (r : value) :
  string_value v = Ok r -> exists s, r = Str s /\ string_ v = Ok s.
Proof.
  unfold string_value. intros H. apply bind_Ok in H.
  destruct H as (s & Hs & [= <-]). eauto.
Qed.

(** A period without microseconds is a whole number of milliseconds, and
    one without microseconds and milliseconds a whole number of seconds. *)
Lemma whole_milliseconds (p : period) :
  given_and_not_zero (microseconds_of p) = false ->
  total_microseconds p mod 1000 = 0.
Proof.
  destruct p as [u a]. unfold total_microseconds, microseconds_of.
  destruct u; cbn [kwarg amount microseconds_in given_and_not_zero]; intros H.
  - apply negb_false_iff, Z.eqb_eq in H. now subst.
  - now apply Z.mod_mul.
  - replace (a * 1000000) with (a * 1000 * 1000) by ring. now apply Z.mod_mul.
  - replace (a * 60000000) with (a * 60000 * 1000) by ring.
    now apply Z.mod_mul.
  - replace (a * 3600000000) with (a * 3600000 * 1000) by ring.
    now apply Z.mod_mul.
  - replace (a * 86400000000) with (a * 86400000 * 1000) by ring.
    now apply Z.mod_mul.
Qed.

Lemma whole_seconds (p : period) :
  given_and_not_zero (microseconds_of p) = false ->
  given_and_not_zero (milliseconds_of p) = false ->
  total_microseconds p mod 1000000 = 0.
Proof.
  destruct p as [u a].
  unfold total_microseconds, microseconds_of, milliseconds_of.
  destruct u; cbn [kwarg amount microseconds_in given_and_not_zero];
    intros H1 H2.
  - apply negb_false_iff, Z.eqb_eq in H1. now subst.
  - apply negb_false_iff, Z.eqb_eq in H2. now subst.
  - now apply Z.mod_mul.
  - replace (a * 60000000) with (a * 60 * 1000000) by ring.
    now apply Z.mod_mul.
  - replace (a * 3600000000) with (a * 3600 * 1000000) by ring.
    now apply Z.mod_mul.
  - replace (a * 86400000000) with (a * 86400 * 1000000) by ring.
    now apply Z.mod_mul.
Qed.

Lemma milliseconds_TimePeriod (v : yaml) (r : value) :
  positive_time_period_milliseconds v = Ok r ->
  exists us, r = TimePeriod TimePeriodMilliseconds us /\
             period_microseconds v = Ok us /\ us mod 1000 = 0.
Proof.
  unfold positive_time_period_milliseconds, period_microseconds.
  intros H. apply bind_Ok in H. destruct H as (p & Hp & H).
  unfold time_period_in_milliseconds_ in H.
  destruct (given_and_not_zero (microseconds_of p)) eqn:E; [discriminate|].
  injection H as <-. exists (total_microseconds p). rewrite Hp.
  split; [reflexivity|]. split; [reflexivity|]. now apply whole_milliseconds.
Qed.

Lemma boolean_Bool (v : yaml) (r : value) :
  boolean v = Ok r -> exists b, r = Bool b.
Proof.
  unfold boolean. destruct v; try discriminate.
  - intros [= <-]. eauto.
  - repeat match goal with |- context [if ?c then _ else _] => destruct c end;
      try discriminate; intros [= <-]; eauto.
Qed.

(** The fact about one entry [e] of the schema whose validation is [Hv]. *)
Ltac entry_fact ND Hv e ov Hov L :=
  destruct (validate_entries_lookup _ _ _ ND Hv e ltac:(in_schema))
    as (ov & Hov & L);
  apply validate_entry_Ok in Hov; cbn [key mark validator] in Hov, L.

(** An entry that is required or has a default always yields a value. *)
Ltac entry_value Hov v x Hx :=
  destruct Hov as [(_ & _ & Hov) | (v & x & -> & Hx & _)];
  [discriminate Hov|].

Lemma In_EFFECTS_truthy (e : string) :
  In e EFFECTS -> truthy (Str e) = true.
Proof.
  unfold EFFECTS. simpl.
  intros H. repeat (destruct H as [<-|H]; [reflexivity|]). contradiction.
Qed.

Lemma add_offline_message_validated (raw : yaml) (msg : value) :
  Schema OFFLINE_MESSAGE_SCHEMA raw = Ok msg ->
  exists s, offline_call msg s /\ emits (add_offline_message msg) [s].
Proof.
  intros H. apply Schema_Ok in H.
  destruct H as (d & m & -> & -> & _ & Hv).
  pose proof OFFLINE_MESSAGE_SCHEMA_keys as ND.
  entry_fact ND Hv (Entry CONF_TEXT Required string_value) o1 H1 L1.
  entry_value H1 v1 x1 X1. apply string_value_Str in X1.
  destruct X1 as (text & -> & _).
  entry_fact ND Hv
    (Entry CONF_COLOR (Optional (Some (YStr "green"))) (one_of COLORS true))
    o2 H2 L2.
  entry_value H2 v2 x2 X2. apply one_of_lower_Str in X2.
  destruct X2 as (color & -> & _).
  entry_fact ND Hv
    (Entry CONF_MODE (Optional (Some (YStr "rotate"))) (one_of MODES true))
    o3 H3 L3.
  entry_value H3 v3 x3 X3. apply one_of_lower_Str in X3.
  destruct X3 as (mode & -> & _).
  entry_fact ND Hv
    (Entry CONF_DURATION (Optional (Some (YStr "10s")))
       positive_time_period_milliseconds) o4 H4 L4.
  entry_value H4 v4 x4 X4. apply milliseconds_TimePeriod in X4.
  destruct X4 as (us & -> & _).
  entry_fact ND Hv (Entry CONF_EFFECT (Optional None) (one_of EFFECTS true))
    o5 H5 L5.
  entry_fact ND Hv
    (Entry CONF_CHARSET (Optional (Some (YStr "7high")))
       (one_of CHARSETS true)) o6 H6 L6.
  entry_value H6 v6 x6 X6. apply one_of_lower_Str in X6.
  destruct X6 as (charset & -> & _).
  entry_fact ND Hv
    (Entry CONF_POSITION (Optional (Some (YStr "topline")))
       (one_of POSITIONS true)) o7 H7 L7.
  entry_value H7 v7 x7 X7. apply one_of_lower_Str in X7.
  destruct X7 as (position & -> & _).
  entry_fact ND Hv (Entry CONF_SPEED (Optional (Some (YInt 3))) (int_range 1 5))
    o8 H8 L8.
  entry_value H8 v8 x8 X8. kept_number X8 speed_exp SE NE NB.
  assert (E : exists effect,
             (lookup CONF_EFFECT m = Some (Str effect)
              /\ truthy (Str effect) = true)
             \/ (lookup CONF_EFFECT m = None /\ effect = EmptyString)).
  { destruct H5 as [(-> & _) | (v5 & x5 & -> & X5 & _)].
    - exists EmptyString. right. auto.
    - apply one_of_lower_Str in X5. destruct X5 as (e & -> & Hin).
      exists e. left. auto using In_EFFECTS_truthy. }
  destruct E as (effect & E).
  eexists. split.
  - exists m, text, color, mode, us, effect, charset, position, x8, speed_exp.
    repeat split; try eassumption.
    destruct E as [(E & _) | E]; [left | right]; exact E.
  - unfold add_offline_message. eapply emits_lift; [reflexivity|].
    eapply emits_lift; [|apply emits_add].
    simpl. unfold getitem.
    change (lookup "text" m) with (lookup CONF_TEXT m).
    change (lookup "color" m) with (lookup CONF_COLOR m).
    change (lookup "mode" m) with (lookup CONF_MODE m).
    change (lookup "duration" m) with (lookup CONF_DURATION m).
    change (lookup "charset" m) with (lookup CONF_CHARSET m).
    change (lookup "position" m) with (lookup CONF_POSITION m).
    change (lookup "speed" m) with (lookup CONF_SPEED m).
    change (lookup "effect" m) with (lookup CONF_EFFECT m).
    rewrite L1, L2, L3, L4, L6, L7, L8. simpl.
    destruct E as [(E & T) | (E & ->)]; rewrite E; [rewrite T|];
      simpl; rewrite SE; reflexivity.
Qed.

Lemma block_fact (k : string) (es : list entry) (d : list (string * yaml))
  (ov : option value) :
  (ov = None /\ lookup k d = None /\ Optional None = Optional None) \/
  (exists v x, ov = Some x /\ Schema es v = Ok x /\
     (lookup k d = Some v \/
      (lookup k d = None /\ Optional None = Optional (Some v)))) ->
  block_of es ov.
Proof.
  intros [(-> & _) | (v & x & -> & H & _)]; [now left | right; eauto].
Qed.

Ltac lookups L :=
  unfold item, getitem; rewrite L.

Lemma default_settings_emits (config : list (string * value))
  (ov : option value) :
  block_of DEFAULTS_SCHEMA ov -> lookup CONF_DEFAULTS config = ov ->
  exists out, emits (default_settings config) out /\ no_offline_call out.
Proof.
  intros [-> | (v & x & -> & H)] L; unfold default_settings, contains;
    rewrite L.
  { exists []. split; [apply emits_ret | constructor]. }
  apply Schema_Ok in H. destruct H as (d & m & -> & -> & _ & Hv).
  pose proof DEFAULTS_SCHEMA_keys as ND.
  entry_fact ND Hv
    (Entry CONF_COLOR (Optional (Some (YStr "green"))) (one_of COLORS true))
    o1 H1 L1.
  entry_value H1 v1 x1 X1. apply one_of_lower_Str in X1.
  destruct X1 as (color & -> & _).
  entry_fact ND Hv
    (Entry CONF_MODE (Optional (Some (YStr "rotate"))) (one_of MODES true))
    o2 H2 L2.
  entry_value H2 v2 x2 X2. apply one_of_lower_Str in X2.
  destruct X2 as (mode & -> & _).
  entry_fact ND Hv
    (Entry CONF_CHARSET (Optional (Some (YStr "7high")))
       (one_of CHARSETS true)) o3 H3 L3.
  entry_value H3 v3 x3 X3. apply one_of_lower_Str in X3.
  destruct X3 as (charset & -> & _).
  entry_fact ND Hv
    (Entry CONF_POSITION (Optional (Some (YStr "topline")))
       (one_of POSITIONS true)) o4 H4 L4.
  entry_value H4 v4 x4 X4. apply one_of_lower_Str in X4.
  destruct X4 as (position & -> & _).
  entry_fact ND Hv (Entry CONF_SPEED (Optional (Some (YInt 3))) (int_range 1 5))
    o5 H5 L5.
  entry_value H5 v5 x5 X5. kept_number X5 speed_exp S5 NE NB.
  entry_fact ND Hv
    (Entry CONF_EFFECT (Optional (Some (YStr "twinkle")))
       (one_of EFFECTS true)) o6 H6 L6.
  entry_value H6 v6 x6 X6. apply one_of_lower_Str in X6.
  destruct X6 as (effect & -> & _).
  eexists. split.
  - eapply emits_lift; [unfold getitem; rewrite L; reflexivity|].
    eapply emits_seq; [lookups L1; apply emits_add_raw|].
    eapply emits_seq; [lookups L2; apply emits_add_raw|].
    eapply emits_seq; [lookups L3; apply emits_add_raw|].
    eapply emits_seq; [lookups L4; apply emits_add_raw|].
    eapply emits_seq; [lookups L5; apply emits_add_call1; exact S5|].
    lookups L6; apply emits_add_raw.
  - repeat constructor.
Qed.

Lemma clock_settings_emits (config : list (string * value))
  (ov : option value) :
  block_of CLOCK_SCHEMA ov -> lookup CONF_CLOCK config = ov ->
  exists out, emits (clock_settings config) out /\ no_offline_call out.
Proof.
  intros [-> | (v & x & -> & H)] L; unfold clock_settings, contains;
    rewrite L.
  { exists []. split; [apply emits_ret | constructor]. }
  apply Schema_Ok in H. destruct H as (d & m & -> & -> & _ & Hv).
  pose proof CLOCK_SCHEMA_keys as ND.
  entry_fact ND Hv (Entry CONF_ENABLED (Optional (Some (YBool true))) boolean)
    o1 H1 L1.
  entry_value H1 v1 x1 X1. apply boolean_Bool in X1.
  destruct X1 as (enabled & ->).
  entry_fact ND Hv
    (Entry CONF_INTERVAL (Optional (Some (YStr "60s")))
       positive_time_period_milliseconds) o2 H2 L2.
  entry_value H2 v2 x2 X2. apply milliseconds_TimePeriod in X2.
  destruct X2 as (interval & -> & _).
  entry_fact ND Hv
    (Entry CONF_DURATION (Optional (Some (YStr "4s")))
       positive_time_period_milliseconds) o3 H3 L3.
  entry_value H3 v3 x3 X3. apply milliseconds_TimePeriod in X3.
  destruct X3 as (duration & -> & _).
  entry_fact ND Hv
    (Entry CONF_FORMAT (Optional (Some (YStr "12h")))
       (one_of CLOCK_FORMATS true)) o4 H4 L4.
  entry_value H4 v4 x4 X4. apply one_of_lower_Str in X4.
  destruct X4 as (format & -> & _).
  entry_fact ND Hv
    (Entry CONF_COLOR (Optional (Some (YStr "amber"))) (one_of COLORS true))
    o5 H5 L5.
  entry_value H5 v5 x5 X5. apply one_of_lower_Str in X5.
  destruct X5 as (color & -> & _).
  eexists. split.
  - eapply emits_lift; [unfold getitem; rewrite L; reflexivity|].
    eapply emits_seq; [lookups L1; apply emits_add_call1; reflexivity|].
    eapply emits_seq; [lookups L2; apply emits_add_call1; reflexivity|].
    eapply emits_seq; [lookups L3; apply emits_add_call1; reflexivity|].
    eapply emits_seq; [lookups L4; apply emits_add_call1; reflexivity|].
    lookups L5; apply emits_add_raw.
  - repeat constructor.
Qed.

Lemma priority_settings_emits (config : list (string * value))
  (ov : option value) :
  block_of PRIORITY_SCHEMA ov -> lookup CONF_PRIORITY config = ov ->
  exists out, emits (priority_settings config) out /\ priority_code ov out.
Proof.
  intros [-> | (v & x & -> & H)] L; unfold priority_settings, contains;
    rewrite L.
  { exists []. split; [apply emits_ret | left; auto]. }
  apply Schema_Ok in H. destruct H as (d & m & -> & -> & _ & Hv).
  pose proof PRIORITY_SCHEMA_keys as ND.
  entry_fact ND Hv
    (Entry CONF_WARNING_DURATION (Optional (Some (YStr "2500ms")))
       positive_time_period_milliseconds) o1 H1 L1.
  entry_value H1 v1 x1 X1. apply milliseconds_TimePeriod in X1.
  destruct X1 as (warning & -> & _).
  entry_fact ND Hv
    (Entry CONF_DEFAULT_DURATION (Optional (Some (YStr "25s")))
       positive_time_period_milliseconds) o2 H2 L2.
  entry_value H2 v2 x2 X2. apply milliseconds_TimePeriod in X2.
  destruct X2 as (default & -> & _).
  eexists. split.
  - eapply emits_lift; [unfold getitem; rewrite L; reflexivity|].
    eapply emits_seq; [lookups L1; apply emits_add_call1; reflexivity|].
    lookups L2; apply emits_add_call1; reflexivity.
  - right. exists m, warning, default. auto.
Qed.

Lemma offline_messages_emits (d : list (string * yaml))
  (config : list (string * value)) (ov : option value) :
  (ov = None /\ lookup CONF_OFFLINE_MESSAGES d = None
     /\ Optional None = Optional None) \/
  (exists v x, ov = Some x /\
     ensure_list (Schema OFFLINE_MESSAGE_SCHEMA) v = Ok x /\
     (lookup CONF_OFFLINE_MESSAGES d = Some v \/
      (lookup CONF_OFFLINE_MESSAGES d = None
       /\ Optional None = Optional (Some v)))) ->
  lookup CONF_OFFLINE_MESSAGES config = ov ->
  exists msgs out,
    emits (offline_messages config) out /\ offline_code ov msgs out /\
    Forall2 (fun r m => Schema OFFLINE_MESSAGE_SCHEMA r = Ok m)
      (configured_messages d) msgs.
Proof.
  intros [(-> & Ld & _) | (v & x & -> & H & [Ld | (_ & Ld)])] L;
    [| |discriminate Ld];
    unfold offline_messages, contains, configured_messages; rewrite L, Ld.
  { exists [], []. split; [apply emits_ret|].
    split; [split; [auto | constructor] | constructor]. }
  apply ensure_list_Ok in H. destruct H as (msgs & -> & F).
  assert (C : exists out,
             Forall2 offline_call msgs out /\
             Forall2 (fun x s => emits (add_offline_message x) [s]) msgs out).
  { clear L Ld. revert F. generalize (as_list v). intros raws F.
    induction F as [|r m raws msgs Hr _ (out & IH1 & IH2)].
    - exists []. split; constructor.
    - destruct (add_offline_message_validated r m Hr) as (s & Hs & He).
      exists (s :: out). split; constructor; assumption. }
  destruct C as (out & C1 & C2).
  exists msgs, out. split.
  - eapply emits_lift; [unfold getitem; rewrite L; reflexivity|].
    now apply emits_for_each.
  - split; [split; auto | assumption].
Qed.

Lemma SIGN_TYPES_lookup (k : string) :
  In k SIGN_TYPE_KEYS -> exists sign_type, lookup k SIGN_TYPES = Some sign_type.
Proof.
  unfold SIGN_TYPE_KEYS, SIGN_TYPES. simpl. intros H.
  repeat (destruct H as [<-|H]; [eexists; reflexivity|]). contradiction.
Qed.

(** Code generation succeeds on every validated configuration, with the
    code described by [component_code]. *)
Lemma to_code_validated (d : list (string * yaml))
  (config : list (string * value)) :
  validate_entries CONFIG_SCHEMA d = Ok config ->
  exists msgs code,
    generated (to_code config) = Ok code /\
    component_code config msgs code /\
    Forall2 (fun r m => Schema OFFLINE_MESSAGE_SCHEMA r = Ok m)
      (configured_messages d) msgs.
Proof.
  intros Hv. pose proof CONFIG_SCHEMA_keys as ND.
  entry_fact ND Hv (Entry CONF_ID GenerateID declare_id) o1 H1 L1.
  entry_value H1 v1 x1 X1. clear X1.
  entry_fact ND Hv (Entry CONF_UART_ID GenerateID use_id) o2 H2 L2.
  entry_value H2 v2 x2 X2. clear X2.
  entry_fact ND Hv
    (Entry CONF_SIGN_TYPE (Optional (Some (YStr "all")))
       (one_of SIGN_TYPE_KEYS true)) o3 H3 L3.
  entry_value H3 v3 x3 X3. apply one_of_lower_Str in X3.
  destruct X3 as (sign_key & -> & Hk).
  apply SIGN_TYPES_lookup in Hk. destruct Hk as (sign_type & Hk).
  entry_fact ND Hv
    (Entry CONF_ADDRESS (Optional (Some (YStr "00"))) validate_address)
    o4 H4 L4.
  entry_value H4 v4 x4 X4. apply validate_address_Ok in X4.
  destruct X4 as (address & _ & _ & ->).
  entry_fact ND Hv
    (Entry CONF_MAX_FILES (Optional (Some (YInt 5))) (int_range 1 26))
    o5 H5 L5.
  entry_value H5 v5 x5 X5. kept_number X5 files_exp S5 NE NB.
  entry_fact ND Hv
    (Entry CONF_DEFAULTS (Optional None) (Schema DEFAULTS_SCHEMA)) o6 H6 L6.
  apply block_fact in H6.
  destruct (default_settings_emits config o6 H6 L6) as (dcode & D1 & D2).
  entry_fact ND Hv
    (Entry CONF_CLOCK (Optional None) (Schema CLOCK_SCHEMA)) o7 H7 L7.
  apply block_fact in H7.
  destruct (clock_settings_emits config o7 H7 L7) as (ccode & C1 & C2).
  entry_fact ND Hv
    (Entry CONF_PRIORITY (Optional None) (Schema PRIORITY_SCHEMA)) o8 H8 L8.
  apply block_fact in H8.
  destruct (priority_settings_emits config o8 H8 L8) as (pcode & P1 & P2).
  entry_fact ND Hv
    (Entry CONF_OFFLINE_MESSAGES (Optional None)
       (ensure_list (Schema OFFLINE_MESSAGE_SCHEMA))) o9 H9 L9.
  destruct (offline_messages_emits d config o9 H9 L9)
    as (msgs & calls & O1 & O2 & O3).
  exists msgs. eexists. split; [|split; [|exact O3]].
  - apply generated_emits. unfold to_code.
    eapply emits_lift; [unfold getitem; rewrite L1; reflexivity|].
    eapply emits_seq; [apply emits_add|].
    eapply emits_seq; [apply emits_add|].
    eapply emits_lift; [unfold getitem; rewrite L2; reflexivity|].
    eapply emits_seq; [apply emits_add|].
    eapply emits_lift;
      [unfold getitem; rewrite L3; cbv beta iota delta [Py.bind];
       rewrite Hk; reflexivity|].
    eapply emits_seq; [apply emits_add|].
    eapply emits_seq;
      [unfold getitem; rewrite L4; apply emits_add_call1; reflexivity|].
    eapply emits_seq;
      [unfold getitem; rewrite L5; apply emits_add_call1; exact S5|].
    eapply emits_seq; [exact D1|].
    eapply emits_seq; [exact C1|].
    eapply emits_seq; [exact P1|].
    exact O1.
  - exists x1, x2, sign_key, sign_type, address, x5, files_exp,
      dcode, ccode, pcode, calls.
    rewrite L8, L9.
    split; [exact L1|]. split; [exact L2|]. split; [exact L3|].
    split; [exact Hk|]. split; [exact L4|]. split; [exact L5|].
    split; [exact NB|]. split; [exact NE|].
    split; [exact D2|]. split; [exact C2|]. split; [exact P2|].
    split; [exact O2 | reflexivity].
Qed.

End ValidatedConfiguration.

(* ================================================================== *)
(** * The component: addresses, ranges and defaults *)

Section ComponentClaims.
Import cv cg betabrite.

(** What validation stores under a key that was supplied, and under a key
    with a default that was left out. *)
Lemma validated_supplied (es : list entry) (d : list (string * yaml))
  (out : list (string * value)) (e : entry) (v : yaml) :
  NoDup (map key es) -> validate_entries es d = Ok out -> In e es ->
  lookup (key e) d = Some v ->
  exists x, validator e v = Ok x /\ lookup (key e) out = Some x.
Proof.
  intros ND Hv Hin L.
  destruct (validate_entries_lookup es d out ND Hv e Hin) as (ov & Hov & Lo).
  unfold validate_entry in Hov. rewrite L in Hov.
  apply bind_Ok in Hov. destruct Hov as (x & Hx & [= <-]). eauto.
Qed.

Lemma validated_default (es : list entry) (d : list (string * yaml))
  (out : list (string * value)) (e : entry) (dv : yaml) :
  NoDup (map key es) -> validate_entries es d = Ok out -> In e es ->
  mark e = Optional (Some dv) -> lookup (key e) d = None ->
  exists x, validator e dv = Ok x /\ lookup (key e) out = Some x.
Proof.
  intros ND Hv Hin M L.
  destruct (validate_entries_lookup es d out ND Hv e Hin) as (ov & Hov & Lo).
  unfold validate_entry in Hov. rewrite L, M in Hov.
  apply bind_Ok in Hov. destruct Hov as (x & Hx & [= <-]). eauto.
Qed.

(** C4, as the code has it. [validate_address] accepts a value if and
    only if it is a string of exactly 2 characters. A string of another
    length is refused with "Address must be exactly 2 characters"; a value
    that is not a string is refused by [cv.string_strict] with the error of
    that validator. An accepted address is returned unchanged, and code
    generation passes it verbatim to [set_address]. *)
Theorem validate_address_spec (v : yaml) :
  (accepted (validate_address v) <-> two_character_string v) /\
  (forall s, v = YStr s -> String.length s <> 2%nat ->
     validate_address v
     = Raise (Invalid "Address must be exactly 2 characters")) /\
  ((forall s, v <> YStr s) ->
     exists e, string_strict v = Raise e /\ validate_address v = Raise e) /\
  (forall r, validate_address v = Ok r -> exists s, v = YStr s /\ r = Str s) /\
  (forall d code,
     lookup CONF_ADDRESS d = Some v -> compile (YDict d) = Ok code ->
     exists s, v = YStr s /\ In (Call "set_address" [StringLiteral s]) code).
Proof.
  split; [|split; [|split; [|split]]].
  - split.
    + intros (r & H). apply validate_address_Ok in H.
      destruct H as (s & -> & L & _). now exists s.
    + intros (s & -> & L). exists (Str s). apply validate_address_Ok. eauto.
  - intros s -> L. unfold validate_address. simpl.
    apply Nat.eqb_neq in L. now rewrite L.
  - intros N. unfold validate_address.
    destruct v as [| | |s| | |]; try (now destruct (N s));
      (eexists; split; reflexivity).
  - intros r H. apply validate_address_Ok in H.
    destruct H as (s & -> & _ & ->). eauto.
  - intros d code L H. unfold compile in H.
    apply bind_Ok in H. destruct H as (cfg & Hs & H).
    apply Schema_Ok in Hs. destruct Hs as (d' & config & [= <-] & -> & _ & Hv).
    destruct (validated_supplied CONFIG_SCHEMA d config
                (Entry CONF_ADDRESS (Optional (Some (YStr "00")))
                   validate_address) v CONFIG_SCHEMA_keys Hv
                ltac:(in_schema) L) as (x & Hx & Lx).
    cbn [key validator] in Hx, Lx.
    apply validate_address_Ok in Hx. destruct Hx as (s & -> & _ & ->).
    exists s. split; [reflexivity|].
    destruct (to_code_validated d config Hv) as (msgs & code' & G & C & _).
    rewrite G in H. injection H as <-.
    destruct C as (id & uart & sk & st & a & n & fe & dc & cc & pc & calls
                   & _ & _ & _ & _ & La & _ & NBf & NEf & _ & _ & _ & _ & ->).
    rewrite Lx in La. injection La as <-. simpl. auto 10.
Qed.

(** C5, as the code has it. The validator of [max_files] accepts a value
    of [yaml] (floating-point scalars are not among them) if and only if
    the value stands for a whole number n with 1 <= n <= 26: an integer
    in that range, the boolean [true], or a text that is the numeral of
    such a number; nothing else is accepted. The validated configuration
    holds the number, or the boolean as it was written, and 5 when the
    key is omitted. *)
Theorem max_files_range :
  exists f, field_validator CONFIG_SCHEMA CONF_MAX_FILES = Some f /\
    (forall v, accepted (f v) <->
               exists n, whole_number v n /\ 1 <= n <= 26) /\
    (forall n, accepted (f (YInt n)) <-> 1 <= n <= 26) /\
    (forall b, accepted (f (YBool b)) <-> b = true) /\
    (forall s, accepted (f (YStr s)) <->
               exists n, numeral s n /\ 1 <= n <= 26) /\
    (forall d config v,
       Schema CONFIG_SCHEMA (YDict d) = Ok (Dict config) ->
       lookup CONF_MAX_FILES d = Some v ->
       exists n, whole_number v n /\ 1 <= n <= 26 /\
                 lookup CONF_MAX_FILES config = Some (kept v n)) /\
    (forall d config,
       Schema CONFIG_SCHEMA (YDict d) = Ok (Dict config) ->
       lookup CONF_MAX_FILES d = None ->
       lookup CONF_MAX_FILES config = Some (Int 5)).
Proof.
  exists (int_range 1 26). split; [reflexivity|].
  split; [apply int_range_accepted|].
  split.
  { intros n. rewrite int_range_accepted. simpl. split.
    - intros (m & -> & H). exact H.
    - intros H. exists n. split; [reflexivity | exact H]. }
  split.
  { intros b. rewrite int_range_accepted. simpl. split.
    - intros (m & -> & H). destruct b; [reflexivity | simpl in H; lia].
    - intros ->. exists 1. simpl. split; [reflexivity | lia]. }
  split; [intros s; apply int_range_accepted|].
  split.
  - intros d config v H L. apply Schema_Ok in H.
    destruct H as (d' & c' & [= <-] & [= <-] & _ & Hv).
    destruct (validated_supplied CONFIG_SCHEMA d config
                (Entry CONF_MAX_FILES (Optional (Some (YInt 5)))
                   (int_range 1 26)) v CONFIG_SCHEMA_keys Hv
                ltac:(in_schema) L) as (x & Hx & Lx).
    cbn [key validator] in Hx, Lx. apply int_range_kept in Hx.
    destruct Hx as (n & Hn & Hr & ->). eauto.
  - intros d config H L. apply Schema_Ok in H.
    destruct H as (d' & c' & [= <-] & [= <-] & _ & Hv).
    destruct (validated_default CONFIG_SCHEMA d config
                (Entry CONF_MAX_FILES (Optional (Some (YInt 5)))
                   (int_range 1 26)) (YInt 5) CONFIG_SCHEMA_keys Hv
                ltac:(in_schema) eq_refl L) as (x & Hx & Lx).
    cbn [key validator] in Hx, Lx. vm_compute in Hx. now injection Hx as <-.
Qed.

(** C6, as the code has it. In an offline message and in the defaults
    block alike, the validator of [speed] accepts a value of [yaml]
    (floating-point scalars are not among them) if and only if the value
    stands for a whole number n with 1 <= n <= 5: an integer in that
    range, the boolean [true], or a text that is the numeral of such a
    number; nothing else is accepted. The validated block holds the
    number, or the boolean as it was written, and 3 when the key is
    omitted. *)
Theorem speed_range (es : list entry) :
  es = OFFLINE_MESSAGE_SCHEMA \/ es = DEFAULTS_SCHEMA ->
  exists f, field_validator es CONF_SPEED = Some f /\
    (forall v, accepted (f v) <->
               exists n, whole_number v n /\ 1 <= n <= 5) /\
    (forall n, accepted (f (YInt n)) <-> 1 <= n <= 5) /\
    (forall b, accepted (f (YBool b)) <-> b = true) /\
    (forall s, accepted (f (YStr s)) <->
               exists n, numeral s n /\ 1 <= n <= 5) /\
    (forall d block v,
       Schema es (YDict d) = Ok (Dict block) ->
       lookup CONF_SPEED d = Some v ->
       exists n, whole_number v n /\ 1 <= n <= 5 /\
                 lookup CONF_SPEED block = Some (kept v n)) /\
    (forall d block,
       Schema es (YDict d) = Ok (Dict block) ->
       lookup CONF_SPEED d = None ->
       lookup CONF_SPEED block = Some (Int 3)).
Proof.
  intros Hes.
  assert (ND : NoDup (map key es))
    by (destruct Hes as [-> | ->];
        [apply OFFLINE_MESSAGE_SCHEMA_keys | apply DEFAULTS_SCHEMA_keys]).
  assert (Hin : In (Entry CONF_SPEED (Optional (Some (YInt 3)))
                      (int_range 1 5)) es)
    by (destruct Hes as [-> | ->]; in_schema).
  exists (int_range 1 5).
  split; [destruct Hes as [-> | ->]; reflexivity|].
  split; [apply int_range_accepted|].
  split.
  { intros n. rewrite int_range_accepted. simpl. split.
    - intros (m & -> & H). exact H.
    - intros H. exists n. split; [reflexivity | exact H]. }
  split.
  { intros b. rewrite int_range_accepted. simpl. split.
    - intros (m & -> & H). destruct b; [reflexivity | simpl in H; lia].
    - intros ->. exists 1. simpl. split; [reflexivity | lia]. }
  split; [intros s; apply int_range_accepted|].
  split.
  - intros d block v H L. apply Schema_Ok in H.
    destruct H as (d' & c' & [= <-] & [= <-] & _ & Hv).
    destruct (validated_supplied es d block _ v ND Hv Hin L)
      as (x & Hx & Lx).
    cbn [key validator] in Hx, Lx. apply int_range_kept in Hx.
    destruct Hx as (n & Hn & Hr & ->). eauto.
  - intros d block H L. apply Schema_Ok in H.
    destruct H as (d' & c' & [= <-] & [= <-] & _ & Hv).
    destruct (validated_default es d block _ (YInt 3) ND Hv Hin eq_refl L)
      as (x & Hx & Lx).
    cbn [key validator] in Hx, Lx. vm_compute in Hx. now injection Hx as <-.
Qed.

End ComponentClaims.

(* ================================================================== *)
(** * Validation fails with validation errors only *)

Section ValidationErrors.
Import cv betabrite.

Lemma invalid_only_Ok {A} (a : A) : invalid_only (Ok a).
Proof. intros e H. discriminate. Qed.

Lemma invalid_only_Invalid {A} (msg : string) :
  invalid_only (@Raise A (Invalid msg)).
Proof. intros e [= <-]. eauto. Qed.

Lemma invalid_only_bind {A B} (m : result A) (k : A -> result B) :
  invalid_only m -> (forall a, invalid_only (k a)) ->
  invalid_only (Py.bind m k).
Proof.
  intros Hm Hk. destruct m as [a|e]; simpl; [apply Hk|].
  intros e' [= <-]. now apply Hm.
Qed.

Ltac invalid_cases :=
  repeat match goal with
         | |- invalid_only (Ok _) => apply invalid_only_Ok
         | |- invalid_only (Raise (Invalid _)) => apply invalid_only_Invalid
         | |- invalid_only (Py.bind _ _) => apply invalid_only_bind; [|intros ?]
         | |- invalid_only (if ?c then _ else _) => destruct c
         | |- invalid_only (match ?x with _ => _ end) => destruct x
         | |- invalid_only (let '(_, _) := ?x in _) => destruct x
         end.

Lemma invalid_only_check (v : yaml) : invalid_only (check_not_templatable v).
Proof. unfold check_not_templatable. invalid_cases. Qed.

Lemma invalid_only_string_strict (v : yaml) : invalid_only (string_strict v).
Proof. unfold string_strict, check_not_templatable. invalid_cases. Qed.

Lemma invalid_only_string_ (v : yaml) : invalid_only (string_ v).
Proof. unfold string_, check_not_templatable. invalid_cases. Qed.

Lemma invalid_only_string_value (v : yaml) : invalid_only (string_value v).
Proof.
  unfold string_value. apply invalid_only_bind;
    [apply invalid_only_string_ | intros; apply invalid_only_Ok].
Qed.

Lemma invalid_only_one_of (options : list string) (b : bool) (v : yaml) :
  invalid_only (one_of options b v).
Proof.
  unfold one_of. destruct b.
  - apply invalid_only_bind; [apply invalid_only_string_|].
    intros s. invalid_cases.
  - invalid_cases.
Qed.

Lemma invalid_only_int_ (v : yaml) : invalid_only (int_ v).
Proof.
  unfold int_. apply invalid_only_bind; [apply invalid_only_check|].
  intros a. destruct a; try apply invalid_only_Ok;
    (apply invalid_only_bind; [apply invalid_only_string_strict|]);
    intros t; invalid_cases.
Qed.

Lemma invalid_only_int_range (lo hi : Z) (v : yaml) :
  invalid_only (int_range lo hi v).
Proof.
  unfold int_range. apply invalid_only_bind; [apply invalid_only_int_|].
  intros n. unfold Range. invalid_cases.
Qed.

Lemma invalid_only_float_ (v : yaml) : invalid_only (float_ v).
Proof.
  unfold float_. invalid_cases.
Qed.

Lemma invalid_only_boolean (v : yaml) : invalid_only (boolean v).
Proof. unfold boolean. invalid_cases. Qed.

Lemma invalid_only_positive_time_period (v : yaml) :
  invalid_only (positive_time_period v).
Proof.
  unfold positive_time_period. apply invalid_only_bind; [|intros; invalid_cases].
  unfold time_period_str_unit.
  apply invalid_only_bind; [apply invalid_only_check|].
  intros a. destruct a; try apply invalid_only_Invalid.
  invalid_cases.
Qed.

Lemma invalid_only_milliseconds (v : yaml) :
  invalid_only (positive_time_period_milliseconds v).
Proof.
  unfold positive_time_period_milliseconds.
  apply invalid_only_bind; [apply invalid_only_positive_time_period|].
  intros; unfold time_period_in_milliseconds_; invalid_cases.
Qed.

Lemma invalid_only_validate_id (v : yaml) : invalid_only (validate_id v).
Proof. unfold validate_id. invalid_cases. Qed.

Lemma invalid_only_validate_address (v : yaml) :
  invalid_only (validate_address v).
Proof.
  unfold validate_address.
  apply invalid_only_bind; [apply invalid_only_string_strict|].
  intros; invalid_cases.
Qed.

Lemma invalid_only_mapM {A B} (f : A -> result B) (l : list A) :
  (forall x, invalid_only (f x)) -> invalid_only (mapM f l).
Proof.
  intros Hf. induction l as [|x l IH]; simpl; [apply invalid_only_Ok|].
  apply invalid_only_bind; [apply Hf|]. intros y.
  apply invalid_only_bind; [apply IH|]. intros; apply invalid_only_Ok.
Qed.

Lemma invalid_only_ensure_list (f : yaml -> result value) (v : yaml) :
  (forall x, invalid_only (f x)) -> invalid_only (ensure_list f v).
Proof.
  intros Hf. unfold ensure_list.
  apply invalid_only_bind; [apply invalid_only_check|].
  intros a.
  destruct a as [| | | |l|[|kv d]|]; try apply invalid_only_Ok;
    try (apply invalid_only_bind; [apply Hf | intros; apply invalid_only_Ok]).
  apply invalid_only_bind; [now apply invalid_only_mapM|].
  intros; apply invalid_only_Ok.
Qed.

Lemma invalid_only_Schema (es : list entry) (v : yaml) :
  Forall (fun e => forall x, invalid_only (validator e x)) es ->
  invalid_only (Schema es v).
Proof.
  intros Hes. unfold Schema. destruct v; try apply invalid_only_Invalid.
  destruct (forallb _ d); [|apply invalid_only_Invalid].
  apply invalid_only_bind; [|intros; apply invalid_only_Ok].
  induction Hes as [|e es He _ IH]; simpl; [apply invalid_only_Ok|].
  apply invalid_only_bind.
  - unfold validate_entry.
    destruct (lookup (key e) d); [|destruct (mark e) as [|[dv|]]];
      try apply invalid_only_Invalid; try apply invalid_only_Ok;
      (apply invalid_only_bind; [apply He | intros; apply invalid_only_Ok]).
  - intros ov. apply invalid_only_bind; [apply IH|].
    intros; apply invalid_only_Ok.
Qed.

Lemma invalid_only_CONFIG_SCHEMA (raw : yaml) :
  invalid_only (Schema CONFIG_SCHEMA raw).
Proof.
  apply invalid_only_Schema.
  repeat constructor; cbn [validator]; intros x;
    auto using invalid_only_validate_id, invalid_only_one_of,
      invalid_only_validate_address, invalid_only_int_range,
      invalid_only_float_;
    try (apply invalid_only_ensure_list; intros y);
    apply invalid_only_Schema;
    repeat constructor; cbn [validator]; intros z;
    auto using invalid_only_one_of, invalid_only_int_range,
      invalid_only_boolean, invalid_only_milliseconds,
      invalid_only_string_value.
Qed.

End ValidationErrors.

(* ================================================================== *)
(** * C1: the enumerations are closed *)

Section Enumerations.
Import cv cg betabrite.

Lemma field_validator_entry (es : list entry) (k : string)
  (f : yaml -> result value) :
  field_validator es k = Some f ->
  exists e, In e es /\ key e = k /\ validator e = f.
Proof.
  unfold field_validator.
  destruct (List.find _ es) as [e|] eqn:F; [|discriminate].
  intros [= <-]. apply find_some in F. destruct F as [Hin E].
  apply String.eqb_eq in E. eauto.
Qed.

Lemma enumerated_fields_closed :
  Forall (fun t =>
            closed_options (snd t) = true /\
            field_validator (fst (fst t)) (snd (fst t))
            = Some (one_of (snd t) true))
    enumerated_fields.
Proof.
  unfold enumerated_fields, message_fields, clock_fields. cbn [map app].
  repeat (apply Forall_cons; [split; reflexivity|]).
  apply Forall_nil.
Qed.

Lemma supplied_in_options (es : list entry)
  (fields : list (string * list string)) (v : yaml) :
  accepted (Schema es v) ->
  Forall (fun f => In (es, fst f, snd f) enumerated_fields) fields ->
  Forall option_of_list (supplied_in fields v).
Proof.
  intros A Hf. destruct v; try constructor. simpl.
  apply Forall_forall. intros p Hp. apply in_flat_map in Hp.
  destruct Hp as (f & Hin & Hp). unfold supplied in Hp.
  destruct (lookup (fst f) d) as [x|] eqn:L; [|contradiction].
  destruct Hp as [<-|[]].
  rewrite Forall_forall in Hf. specialize (Hf f Hin).
  pose proof enumerated_fields_closed as C. rewrite Forall_forall in C.
  destruct (C _ Hf) as (Hc & Hfv). cbn [fst snd] in *.
  apply field_validator_entry in Hfv. destruct Hfv as (e & He & Hk & Hval).
  unfold option_of_list. cbn [fst snd].
  apply (one_of_lower_iff _ _ Hc). rewrite <- Hval.
  apply (Schema_supplied es d e x A He). now rewrite Hk.
Qed.

Lemma message_fields_enumerated (es : list entry) :
  es = OFFLINE_MESSAGE_SCHEMA \/ es = DEFAULTS_SCHEMA ->
  Forall (fun f => In (es, fst f, snd f) enumerated_fields) message_fields.
Proof.
  intros [-> | ->]; unfold message_fields;
    repeat (apply Forall_cons;
            [cbn [fst snd]; simpl;
             repeat (first [left; reflexivity | right]) |]);
    apply Forall_nil.
Qed.

Lemma clock_fields_enumerated :
  Forall (fun f => In (CLOCK_SCHEMA, fst f, snd f) enumerated_fields)
    clock_fields.
Proof.
  unfold clock_fields;
    repeat (apply Forall_cons;
            [cbn [fst snd]; simpl;
             repeat (first [left; reflexivity | right]) |]);
    apply Forall_nil.
Qed.

Lemma accepted_supplied_options (raw : yaml) :
  accepted (Schema CONFIG_SCHEMA raw) ->
  Forall option_of_list (supplied_options raw).
Proof.
  intros A. destruct raw as [| | | | |d|]; try constructor.
  unfold supplied_options.
  apply Forall_app; split; [|apply Forall_app; split;
                              [|apply Forall_app; split]].
  - unfold supplied. cbn [fst snd].
    destruct (lookup CONF_SIGN_TYPE d) as [v|] eqn:L; constructor;
      [|constructor].
    unfold option_of_list. cbn [fst snd].
    apply (one_of_lower_iff SIGN_TYPE_KEYS v eq_refl).
    apply (Schema_supplied CONFIG_SCHEMA d
             (Entry CONF_SIGN_TYPE (Optional (Some (YStr "all")))
                (one_of SIGN_TYPE_KEYS true)) v A ltac:(in_schema) L).
  - unfold block. destruct (lookup CONF_DEFAULTS d) as [v|] eqn:L;
      [|constructor].
    simpl. rewrite app_nil_r.
    apply (supplied_in_options DEFAULTS_SCHEMA);
      [|apply message_fields_enumerated; now right].
    apply (Schema_supplied CONFIG_SCHEMA d
             (Entry CONF_DEFAULTS (Optional None) (Schema DEFAULTS_SCHEMA))
             v A ltac:(in_schema) L).
  - unfold configured_messages.
    destruct (lookup CONF_OFFLINE_MESSAGES d) as [v|] eqn:L; [|constructor].
    pose proof (Schema_supplied CONFIG_SCHEMA d
             (Entry CONF_OFFLINE_MESSAGES (Optional None)
                (ensure_list (Schema OFFLINE_MESSAGE_SCHEMA)))
             v A ltac:(in_schema) L) as (r & Hr).
    cbn [validator] in Hr. apply ensure_list_Ok in Hr.
    destruct Hr as (l & _ & F).
    induction F as [|x y xs ys Hx _ IH]; simpl; [constructor|].
    apply Forall_app. split; [|exact IH].
    apply (supplied_in_options OFFLINE_MESSAGE_SCHEMA);
      [now exists y | apply message_fields_enumerated; now left].
  - unfold block. destruct (lookup CONF_CLOCK d) as [v|] eqn:L;
      [|constructor].
    simpl. rewrite app_nil_r.
    apply (supplied_in_options CLOCK_SCHEMA);
      [|apply clock_fields_enumerated].
    apply (Schema_supplied CONFIG_SCHEMA d
             (Entry CONF_CLOCK (Optional None) (Schema CLOCK_SCHEMA))
             v A ltac:(in_schema) L).
Qed.

(** C1. At every place of the configuration that takes a color, mode,
    effect, charset, position, sign type or clock format, validation
    accepts a value if and only if it is one of the options of the
    corresponding closed list, letter case ignored; a configuration that
    supplies any other value is refused with a validation error, and no
    code is generated for it. *)
Theorem enumerations_closed :
  (forall es k options, In (es, k, options) enumerated_fields ->
     exists f, field_validator es k = Some f /\
       forall v, accepted (f v) <-> ci_member v options) /\
  (forall raw,
     ~ Forall option_of_list (supplied_options raw) ->
     exists msg, Schema CONFIG_SCHEMA raw = Raise (Invalid msg) /\
                 compile raw = Raise (Invalid msg)).
Proof.
  split.
  - intros es k options Hin.
    pose proof enumerated_fields_closed as C. rewrite Forall_forall in C.
    destruct (C _ Hin) as (Hc & Hf). cbn [fst snd] in *.
    exists (one_of options true). split; [exact Hf|].
    intros v. now apply one_of_lower_iff.
  - intros raw N.
    destruct (Schema CONFIG_SCHEMA raw) as [config|e] eqn:H.
    + exfalso. apply N. apply accepted_supplied_options. rewrite H.
      apply accepted_Ok.
    + destruct (invalid_only_CONFIG_SCHEMA raw e H) as (msg & ->).
      exists msg. split; [reflexivity|]. unfold compile. now rewrite H.
Qed.

End Enumerations.

(* ================================================================== *)
(** * C7, C2, C3: generated code *)

Section GeneratedCode.
Import cv cg betabrite.

Lemma offline_call_is_offline (msgs : list value) (calls : list statement) :
  Forall2 offline_call msgs calls ->
  filter is_offline_call calls = calls.
Proof.
  induction 1 as [|m s msgs calls Hs _ IH]; simpl; [reflexivity|].
  destruct Hs as (? & ? & ? & ? & ? & ? & ? & ? & ? & ? & _ & _ & _ & _ & _
                  & _ & _ & _ & _ & _ & ->).
  simpl. now rewrite IH.
Qed.

Lemma no_offline_call_filter (out : list statement) :
  no_offline_call out -> filter is_offline_call out = [].
Proof.
  induction 1 as [|s out Hs _ IH]; simpl; [reflexivity|].
  now rewrite Hs.
Qed.

Lemma priority_code_no_offline (ov : option value) (out : list statement) :
  priority_code ov out -> no_offline_call out.
Proof.
  intros [(_ & ->) | (p & w & dd & _ & _ & _ & ->)]; repeat constructor.
Qed.

(** C7. For every validated configuration, code generation succeeds and
    its calls of [add_offline_message] are exactly one for each configured
    offline message, in the configured order, each passing the text,
    color, mode, duration, effect, charset, position and speed of its
    validated message, with the empty string for an omitted effect. *)
Theorem offline_messages_code (d : list (string * yaml))
  (config : list (string * value)) :
  Schema CONFIG_SCHEMA (YDict d) = Ok (Dict config) ->
  exists msgs prefix calls,
    generated (to_code config) = Ok (prefix ++ calls)%list /\
    no_offline_call prefix /\
    filter is_offline_call (prefix ++ calls)%list = calls /\
    List.length calls = List.length (configured_messages d) /\
    Forall2 (fun r m => Schema OFFLINE_MESSAGE_SCHEMA r = Ok m)
      (configured_messages d) msgs /\
    Forall2 offline_call msgs calls.
Proof.
  intros H. apply Schema_Ok in H.
  destruct H as (d' & c' & [= <-] & [= <-] & _ & Hv).
  destruct (to_code_validated d config Hv) as (msgs & code & G & C & F).
  destruct C as (id & uart & sk & st & a & n & fe & dc & cc & pc & calls
                 & _ & _ & _ & _ & _ & _ & _ & _ & Hd & Hc & Hp & (_ & Ho)
                 & ->).
  assert (P : no_offline_call
                ([ NewPvariable id; RegisterComponent;
                   RegisterUartDevice uart;
                   Call "set_sign_type" [MemberOf "betabrite" st];
                   Call "set_address" [StringLiteral a];
                   Call "set_max_files" [fe] ]
                 ++ dc ++ cc ++ pc)%list).
  { unfold no_offline_call. repeat (apply Forall_app; split);
      try assumption; [repeat constructor|].
    now apply (priority_code_no_offline _ _ Hp). }
  match type of P with no_offline_call ?p => exists msgs, p, calls end.
  split; [rewrite G; f_equal; simpl; now rewrite !app_assoc|].
  split; [exact P|].
  split.
  { rewrite filter_app, (no_offline_call_filter _ P).
    simpl. now apply (offline_call_is_offline msgs). }
  split; [|split; assumption].
  apply Forall2_length in F, Ho. congruence.
Qed.

(** C2 fails. With [default_duration: 10s] configured, the component is
    given 10000 (milliseconds) by [set_priority_default_duration], while a
    [betabrite.priority] action without a duration gives 25 to
    [set_duration]: neither the same number nor the same time. *)
Lemma priority_action_ignores_default_duration :
  (exists code, compile priority_config = Ok code /\
     delivered "set_priority_default_duration" code = [IntLiteral 10000]) /\
  lookup CONF_DURATION priority_action = None /\
  (exists code,
     compile_priority_action (YDict priority_action) (ID (Some "alarm"))
     = Ok code /\
     delivered "set_duration" code = [IntLiteral 25]) /\
  IntLiteral 25 <> IntLiteral 10000 /\ 25 * 1000 <> 10000.
Proof.
  split; [eexists; split; [vm_compute; reflexivity | reflexivity]|].
  split; [reflexivity|].
  split; [eexists; split; [vm_compute; reflexivity | reflexivity]|].
  split; [discriminate | lia].
Qed.

(** C2, as the code has it. A [betabrite.priority] action without a
    duration gives [set_duration] the default of the action itself, 25 in
    whole seconds, whatever the component is configured with; the
    configured [default_duration] goes to
    [set_priority_default_duration], in milliseconds. *)
Theorem priority_action_default_duration :
  (forall d action_id code,
     lookup CONF_DURATION d = None ->
     compile_priority_action (YDict d) action_id = Ok code ->
     exists text,
       code = [ NewPvariable action_id; Call "set_message" [text];
                Call "set_duration" [IntLiteral 25] ]) /\
  (forall d p v code,
     lookup CONF_PRIORITY d = Some (YDict p) ->
     lookup CONF_DEFAULT_DURATION p = Some v ->
     compile (YDict d) = Ok code ->
     exists us,
       period_microseconds v = Ok us /\ us mod 1000 = 0 /\
       In (Call "set_priority_default_duration" [IntLiteral (us / 1000)])
         code).
Proof.
  split.
  - intros d action_id code L H. unfold compile_priority_action in H.
    apply bind_Ok in H. destruct H as (cfg & Hs & H).
    apply Schema_Ok in Hs. destruct Hs as (d' & config & [= <-] & -> & _ & Hv).
    pose proof PRIORITY_MESSAGE_ACTION_SCHEMA_keys as ND.
    destruct (validate_entries_lookup _ _ _ ND Hv
                (Entry CONF_ID GenerateID use_id) ltac:(in_schema))
      as (o1 & H1 & L1).
    apply validate_entry_Ok in H1. cbn [key mark validator] in H1, L1.
    destruct H1 as [(_ & _ & H1) | (v1 & x1 & -> & _ & _)];
      [discriminate H1|].
    destruct (validate_entries_lookup _ _ _ ND Hv
                (Entry CONF_TEXT Required (cv.templatable string_value))
                ltac:(in_schema)) as (o2 & H2 & L2).
    apply validate_entry_Ok in H2. cbn [key mark validator] in H2, L2.
    destruct H2 as [(_ & _ & H2) | (v2 & x2 & -> & X2 & _)];
      [discriminate H2|].
    destruct (validated_default PRIORITY_MESSAGE_ACTION_SCHEMA d config
                (Entry CONF_DURATION (Optional (Some (YStr "25s")))
                   (cv.templatable positive_time_period_seconds))
                (YStr "25s") ND Hv ltac:(in_schema) eq_refl L)
      as (x3 & X3 & L3).
    cbn [key validator] in X3, L3. vm_compute in X3. injection X3 as <-.
    assert (T : exists text, cg.templatable x2 "std::string" = Ok text).
    { unfold cv.templatable in X2. destruct v2;
        try (apply string_value_Str in X2; destruct X2 as (s2 & -> & _);
             simpl; eauto).
      injection X2 as <-. simpl. eauto. }
    destruct T as (text & T). exists text.
    unfold generated, betabrite_priority_action_to_code in H.
    unfold sbind, lift, add, getitem in H.
    rewrite L1, L2, L3 in H. cbv beta iota delta [Py.bind] in H.
    rewrite T in H. vm_compute in H. now injection H as <-.
  - intros d p v code Lp Ld H. unfold compile in H.
    apply bind_Ok in H. destruct H as (cfg & Hs & H).
    apply Schema_Ok in Hs. destruct Hs as (d' & config & [= <-] & -> & _ & Hv).
    destruct (validated_supplied CONFIG_SCHEMA d config
                (Entry CONF_PRIORITY (Optional None) (Schema PRIORITY_SCHEMA))
                (YDict p) CONFIG_SCHEMA_keys Hv ltac:(in_schema) Lp)
      as (x & Hx & Lx).
    cbn [key validator] in Hx, Lx.
    apply Schema_Ok in Hx.
    destruct Hx as (p' & pv & [= <-] & -> & _ & Hpv).
    destruct (validated_supplied PRIORITY_SCHEMA p pv
                (Entry CONF_DEFAULT_DURATION (Optional (Some (YStr "25s")))
                   positive_time_period_milliseconds)
                v PRIORITY_SCHEMA_keys Hpv ltac:(in_schema) Ld)
      as (y & Hy & Ly).
    cbn [key validator] in Hy, Ly.
    apply milliseconds_TimePeriod in Hy. destruct Hy as (us & -> & Hus & Hm).
    exists us. split; [assumption|]. split; [assumption|].
    destruct (to_code_validated d config Hv) as (msgs & code' & G & C & _).
    rewrite G in H. injection H as <-.
    destruct C as (id & uart & sk & st & a & n & fe & dc & cc & pc & calls
                   & _ & _ & _ & _ & _ & _ & NBf & NEf & _ & _ & Hp & _ & ->).
    rewrite Lx in Hp.
    destruct Hp as [(Hp & _) | (p2 & w & dd & [= <-] & _ & Ldd & ->)];
      [discriminate Hp|].
    rewrite Ly in Ldd. injection Ldd as <-.
    apply in_or_app. right. apply in_or_app. right. apply in_or_app. right.
    apply in_or_app. left. simpl. auto.
Qed.

(** C3 fails. A configuration with [max_files: 1] and an offline message
    is accepted, and code is generated for it. *)
Lemma max_files_below_three_accepted :
  lookup CONF_MAX_FILES
    [ (CONF_MAX_FILES, YInt 1);
      (CONF_OFFLINE_MESSAGES, YList [ YDict [ (CONF_TEXT, YStr "Hello") ] ]) ]
  = Some (YInt 1) /\
  configured_messages
    [ (CONF_MAX_FILES, YInt 1);
      (CONF_OFFLINE_MESSAGES, YList [ YDict [ (CONF_TEXT, YStr "Hello") ] ]) ]
  = [ YDict [ (CONF_TEXT, YStr "Hello") ] ] /\
  accepted (Schema CONFIG_SCHEMA small_config) /\
  compile small_config
  = Ok [ NewPvariable (ID None); RegisterComponent;
         RegisterUartDevice (ID None);
         Call "set_sign_type" [MemberOf "betabrite" "ST_ALL"];
         Call "set_address" [StringLiteral "00"];
         Call "set_max_files" [IntLiteral 1];
         Call "add_offline_message"
           [ StringLiteral "Hello"; StringLiteral "green";
             StringLiteral "rotate"; IntLiteral 10000;
             StringLiteral EmptyString; StringLiteral "7high";
             StringLiteral "topline"; IntLiteral 3 ] ].
Proof.
  split; [reflexivity|]. split; [reflexivity|].
  split; [eexists; vm_compute; reflexivity | vm_compute; reflexivity].
Qed.

Lemma Schema_accepted_iff (es : list entry) (d : list (string * yaml)) :
  accepted (Schema es (YDict d)) <->
  forallb (fun kv => known_key es (fst kv)) d = true /\
  forall e, In e es -> accepted (validate_entry e d).
Proof.
  unfold Schema. destruct (forallb _ d) eqn:K.
  - rewrite <- validate_entries_accepted. split.
    + intros (r & H). apply bind_Ok in H. destruct H as (out & Ho & _).
      split; [reflexivity | now exists out].
    + intros (_ & out & Ho). rewrite Ho. apply accepted_Ok.
  - split; [intros A; now apply not_accepted_Raise in A | intros [? _]].
    discriminate.
Qed.

Lemma validate_entry_cons (e : entry) (k : string) (v : yaml)
  (d : list (string * yaml)) :
  validate_entry e ((k, v) :: d)
  = if String.eqb (key e) k then x <- validator e v ;; Ok (Some x)
    else validate_entry e d.
Proof.
  unfold validate_entry. simpl. now destruct (String.eqb (key e) k).
Qed.

Lemma compile_accepted (raw : yaml) :
  accepted (compile raw) <-> accepted (Schema CONFIG_SCHEMA raw).
Proof.
  unfold compile. split.
  - intros (code & H). apply bind_Ok in H. destruct H as (c & Hc & _).
    now exists c.
  - intros (c & Hc). rewrite Hc. simpl.
    apply Schema_Ok in Hc. destruct Hc as (d & config & -> & -> & _ & Hv).
    destruct (to_code_validated d config Hv) as (msgs & code & G & _).
    rewrite G. apply accepted_Ok.
Qed.

Lemma max_files_in_range_accepted (d : list (string * yaml)) (n m : Z) :
  1 <= n <= 26 -> 1 <= m <= 26 ->
  accepted (Schema CONFIG_SCHEMA (YDict ((CONF_MAX_FILES, YInt n) :: d))) ->
  accepted (Schema CONFIG_SCHEMA (YDict ((CONF_MAX_FILES, YInt m) :: d))).
Proof.
  intros Hn Hm A. apply Schema_accepted_iff in A. destruct A as [K A].
  apply Schema_accepted_iff. split; [exact K|].
  intros e Hin. specialize (A e Hin).
  rewrite validate_entry_cons in A |- *.
  destruct (String.eqb (key e) CONF_MAX_FILES) eqn:E; [|exact A].
  simpl in Hin.
  repeat (destruct Hin as [<-|Hin]; [try (vm_compute in E; discriminate E)|]);
    [|contradiction].
  cbn [validator].
  assert (R : int_range 1 26 (YInt m) = Ok (Int m))
    by (apply int_range_kept; exists m; simpl; auto).
  rewrite R. apply accepted_Ok.
Qed.

(** C3, as the code has it. Validation refuses [max_files] only outside
    1..26; inside that range the verdict never depends on [max_files], so
    1 or 2 files are accepted with any offline messages that 3 or more
    files are accepted with; and every accepted configuration goes through
    code generation, which never fails on it. *)
Theorem max_files_only_range :
  (forall d v n,
     lookup CONF_MAX_FILES d = Some v -> whole_number v n ->
     n < 1 \/ 26 < n ->
     exists msg, compile (YDict d) = Raise (Invalid msg)) /\
  (forall d n m,
     1 <= n <= 26 -> 1 <= m <= 26 ->
     accepted (compile (YDict ((CONF_MAX_FILES, YInt n) :: d))) <->
     accepted (compile (YDict ((CONF_MAX_FILES, YInt m) :: d)))) /\
  (forall raw,
     accepted (Schema CONFIG_SCHEMA raw) -> accepted (compile raw)).
Proof.
  split; [|split].
  - intros d v n L Hn Hr.
    destruct (Schema CONFIG_SCHEMA (YDict d)) as [c|e] eqn:H.
    + exfalso.
      assert (A : accepted (Schema CONFIG_SCHEMA (YDict d)))
        by (rewrite H; apply accepted_Ok).
      pose proof (Schema_supplied CONFIG_SCHEMA d
                    (Entry CONF_MAX_FILES (Optional (Some (YInt 5)))
                       (int_range 1 26)) v A ltac:(in_schema) L) as B.
      cbn [validator] in B. apply int_range_accepted in B.
      destruct B as (n' & Hn' & Hr').
      rewrite (whole_number_unique v n n' Hn Hn') in Hr. lia.
    + destruct (invalid_only_CONFIG_SCHEMA _ e H) as (msg & ->).
      exists msg. unfold compile. now rewrite H.
  - intros d n m Hn Hm. rewrite !compile_accepted.
    split; now apply max_files_in_range_accepted.
  - intros raw. apply compile_accepted.
Qed.

End GeneratedCode.

(* ================================================================== *)
(** * The feed utility *)

Section FeedUtility.
Import updateFeed.

Lemma getNews_loop_mapM (found : list element) (c : nat)
  (acc : list (option string)) :
  (c < NUM_STORIES)%nat ->
  getNews_loop found c acc
  = (ts <- mapM title_text (firstn (NUM_STORIES - c) found) ;;
     Ok (acc ++ ts)%list).
Proof.
  revert c acc. induction found as [|item rest IH]; intros c acc Hc.
  - rewrite firstn_nil. simpl. now rewrite app_nil_r.
  - replace (NUM_STORIES - c)%nat with (S (NUM_STORIES - (c + 1)))%nat by lia.
    cbn [getNews_loop firstn mapM]. unfold title_text at 1.
    destruct (find "title" item) as [t|]; [|reflexivity].
    cbn [Py.bind].
    destruct (NUM_STORIES <=? c + 1)%nat eqn:E.
    + apply Nat.leb_le in E.
      replace (NUM_STORIES - (c + 1))%nat with 0%nat by lia. reflexivity.
    + apply Nat.leb_gt in E. rewrite (IH (c + 1)%nat _ E).
      destruct (mapM title_text _) as [ts|e]; simpl; [|reflexivity].
      now rewrite <- app_assoc.
Qed.

Lemma mapM_title_text (l : list element) :
  (forall item, In item l -> find "title" item <> None) ->
  mapM title_text l = Ok (map title_of l).
Proof.
  induction l as [|item l IH]; intros H; simpl; [reflexivity|].
  unfold title_text at 1, title_of at 1.
  destruct (find "title" item) as [t|] eqn:F.
  - simpl. rewrite IH; [reflexivity|]. intros i Hi. apply H. now right.
  - exfalso. apply (H item); [now left | exact F].
Qed.

(** C8 fails. On a feed with an item that has no [title] child, [getNews]
    raises and returns no list of titles. *)
Lemma getNews_untitled_item :
  List.length (items untitled_feed) = 1%nat /\
  getNews untitled_world = Raise AttributeError /\
  ~ (forall w r rs root,
       responses w = r :: rs -> content r = XmlBody root ->
       exists titles w', getNews w = Ok (titles, w')).
Proof.
  split; [reflexivity|]. split; [reflexivity|].
  intros H.
  destruct (H untitled_world _ _ untitled_feed eq_refl eq_refl)
    as (titles & w' & E).
  discriminate E.
Qed.

(** C8, as the code has it. For every RSS document in which each of the
    first min(5, total) [item] elements has a [title] child, [getNews]
    returns at most [NUM_STORIES] (5) titles, and those are exactly the
    titles of the first min(5, total) item elements in document order. *)
Theorem getNews_titles (w : world) (r : response) (rs : list response)
  (root : element) :
  responses w = r :: rs -> content r = XmlBody root ->
  (forall item, In item (first_stories root) -> find "title" item <> None) ->
  exists w',
    getNews w = Ok (map title_of (first_stories root), w') /\
    first_stories root
    = firstn (Nat.min 5 (List.length (items root))) (items root) /\
    (List.length (map title_of (first_stories root)) <= 5)%nat.
Proof.
  intros Hr Hc Ht. unfold getNews, sbind, requests_get. rewrite Hr.
  unfold lift, fromstring. rewrite Hc.
  rewrite getNews_loop_mapM by (unfold NUM_STORIES; lia).
  rewrite Nat.sub_0_r. fold (items root). fold (first_stories root).
  rewrite (mapM_title_text _ Ht). cbn [Py.bind app].
  eexists. split; [reflexivity|]. split.
  - unfold first_stories, NUM_STORIES.
    destruct (Nat.le_ge_cases 5 (List.length (items root))) as [L|L].
    + now rewrite Nat.min_l.
    + rewrite Nat.min_r by assumption.
      now rewrite !firstn_all2 by lia.
  - rewrite length_map. unfold first_stories, NUM_STORIES.
    rewrite length_firstn. lia.
Qed.

Lemma feed_topic_base (title : string) :
  MQTT_BASE_TOPIC ++ "/" ++ title = feed_topic title.
Proof. reflexivity. Qed.

(** C9. Every call of [sendToMqtt] that publishes makes one [publish]
    call, to the topic "ledSign/feed/<title>" with the retain flag set;
    when the client is not connected, a [connect] to the broker comes
    first, and when that fails nothing is published. *)
Theorem sendToMqtt_publishes (title : string) (msg : message) (w : world) :
  (connected w = true ->
     exists w', sendToMqtt title msg w = Ok (tt, w') /\
       calls w' = (calls w ++ [Publish (feed_topic title) msg true])%list) /\
  (connected w = false -> broker w <> Unreachable ->
     exists w', sendToMqtt title msg w = Ok (tt, w') /\
       calls w' = (calls w ++ [ Connect MQTT_BROKER MQTT_PORT 60;
                                Publish (feed_topic title) msg true ])%list) /\
  (connected w = false -> broker w = Unreachable ->
     sendToMqtt title msg w = Raise ConnectionRefusedError) /\
  feed_topic title = MQTT_BASE_TOPIC ++ "/" ++ title.
Proof.
  unfold sendToMqtt, sbind, is_connected, connect, publish, print_published,
    ret. rewrite feed_topic_base.
  split; [|split; [|split; [|reflexivity]]].
  - intros C. rewrite C. cbn [negb calls]. eexists. split; reflexivity.
  - intros C B. rewrite C. cbn [negb].
    destruct (broker w) eqn:E; [contradiction| |];
      cbn [calls]; (eexists; split; [reflexivity|]);
      now rewrite <- app_assoc.
  - intros C B. rewrite C. cbn [negb]. rewrite B. reflexivity.
Qed.

(** What [sendToMqtt] does when the broker can be reached. *)
Lemma sendToMqtt_reachable (title : string) (msg : message) (w : world) :
  broker w <> Unreachable ->
  exists w' before,
    sendToMqtt title msg w = Ok (tt, w') /\ broker w' = broker w /\
    calls w' = (before ++ [Publish (feed_topic title) msg true])%list.
Proof.
  intros B. unfold sendToMqtt, sbind, is_connected, connect, publish,
    print_published, ret. rewrite feed_topic_base.
  destruct (connected w); cbn [negb].
  - eexists. eexists. split; [reflexivity|]. split; reflexivity.
  - destruct (broker w) eqn:E; [contradiction| |];
      (eexists; eexists; split; [reflexivity|]; split; reflexivity).
Qed.

(** C10 fails in its aside. On a response with status OK that carries an
    empty list, [getTrivia] raises and returns neither [None] nor an
    encoded object. *)
Lemma getTrivia_empty_answer :
  status_code (Response 200 (JsonBody (JArr []))) = codes_ok /\
  getTrivia empty_trivia_world = Raise IndexError /\
  ~ (forall w r rs,
       responses w = r :: rs -> status_code r = codes_ok ->
       exists trivia w', getTrivia w = Ok (json_dumps trivia, w')).
Proof.
  split; [reflexivity|]. split; [reflexivity|].
  intros H.
  destruct (H empty_trivia_world _ _ eq_refl eq_refl) as (t & w' & E).
  discriminate E.
Qed.

(** C10, as the code has it. [getTrivia] returns [None] whenever the
    status of the response is not OK, and the JSON encoding of the first
    object when the status is OK and the response is a list that is not
    empty; once its four fetches have returned and the broker can be
    reached, [main] publishes whatever [getTrivia] returned, [None]
    included, to "ledSign/feed/trivia/question", last of its four
    messages. *)
Theorem trivia_published_unconditionally :
  (forall w r rs,
     responses w = r :: rs -> status_code r <> codes_ok ->
     exists w', getTrivia w = Ok (MNone, w')) /\
  (forall w r rs trivia more,
     responses w = r :: rs -> status_code r = codes_ok ->
     content r = JsonBody (JArr (trivia :: more)) ->
     exists w', getTrivia w = Ok (json_dumps trivia, w')) /\
  (forall w facts w1 trivia w2 jokes w3 news w4,
     getFacts w = Ok (facts, w1) -> getTrivia w1 = Ok (trivia, w2) ->
     getJokes w2 = Ok (jokes, w3) -> getNews w3 = Ok (news, w4) ->
     broker w4 <> Unreachable ->
     exists w' before,
       main w = Ok (tt, w') /\
       calls w' = (before ++ [ Publish "ledSign/feed/trivia/question"
                                 trivia true ])%list).
Proof.
  split; [|split].
  - intros w r rs Hr Hs.
    unfold getTrivia, sbind, random_choice, requests_get.
    cbn [triviaCategories responses]. rewrite Hr.
    apply Z.eqb_neq in Hs. rewrite Hs. unfold ret. eauto.
  - intros w r rs trivia more Hr Hs Hc.
    unfold getTrivia, sbind, random_choice, requests_get.
    cbn [triviaCategories responses]. rewrite Hr.
    apply Z.eqb_eq in Hs. rewrite Hs.
    unfold lift, json_of. rewrite Hc. cbn [Py.bind first]. eauto.
  - intros w facts w1 trivia w2 jokes w3 news w4 Hf Ht Hj Hn B.
    unfold main, sbind. rewrite Hf, Ht, Hj, Hn.
    unfold connect at 1.
    destruct (broker w4) eqn:E; [contradiction| |].
    + match goal with
      | |- context [sendToMqtt "news/list" ?m ?w0] =>
          destruct (sendToMqtt_reachable "news/list" m w0)
            as (wa & ba & Ha & Ba & _); [cbn [broker]; discriminate|];
          rewrite Ha
      end.
      match goal with
      | |- context [sendToMqtt "jokes/list" ?m ?w0] =>
          destruct (sendToMqtt_reachable "jokes/list" m w0)
            as (wb & bb & Hb & Bb & _); [rewrite Ba; cbn [broker]; discriminate|];
          rewrite Hb
      end.
      destruct (sendToMqtt_reachable "facts/list" facts wb)
        as (wc & bc & Hc & Bc & _);
        [rewrite Bb, Ba; cbn [broker]; discriminate|].
      rewrite Hc.
      destruct (sendToMqtt_reachable "trivia/question" trivia wc)
        as (wd & bd & Hd & _ & Cd);
        [rewrite Bc, Bb, Ba; cbn [broker]; discriminate|].
      exists wd, bd. split; assumption.
    + match goal with
      | |- context [sendToMqtt "news/list" ?m ?w0] =>
          destruct (sendToMqtt_reachable "news/list" m w0)
            as (wa & ba & Ha & Ba & _); [cbn [broker]; discriminate|];
          rewrite Ha
      end.
      match goal with
      | |- context [sendToMqtt "jokes/list" ?m ?w0] =>
          destruct (sendToMqtt_reachable "jokes/list" m w0)
            as (wb & bb & Hb & Bb & _); [rewrite Ba; cbn [broker]; discriminate|];
          rewrite Hb
      end.
      destruct (sendToMqtt_reachable "facts/list" facts wb)
        as (wc & bc & Hc & Bc & _);
        [rewrite Bb, Ba; cbn [broker]; discriminate|].
      rewrite Hc.
      destruct (sendToMqtt_reachable "trivia/question" trivia wc)
        as (wd & bd & Hd & _ & Cd);
        [rewrite Bc, Bb, Ba; cbn [broker]; discriminate|].
      exists wd, bd. split; assumption.
Qed.

End FeedUtility.

(* ================================================================== *)
(** * Concrete runs *)

Section Runs.
Import cv cg betabrite updateFeed.

(** C4 fails for a value that is not a string: the address 0, as YAML
    reads an unquoted [00], is refused by [cv.string_strict] with its own
    message, not with "Address must be exactly 2 characters". *)
Lemma validate_address_integer :
  ~ two_character_string (YInt 0) /\
  validate_address (YInt 0)
  = Raise (Invalid
      "Must be string, got <class 'int'>. did you forget putting quotes around the value?") /\
  validate_address (YInt 0)
  <> Raise (Invalid "Address must be exactly 2 characters").
Proof.
  split; [intros (s & E & _); discriminate E|].
  split; [reflexivity | discriminate].
Qed.

Lemma validate_address_spec_witness :
  two_character_string (YStr "0A") /\
  accepted (validate_address (YStr "0A")).
Proof.
  assert (T : two_character_string (YStr "0A"))
    by (exists "0A"; split; reflexivity).
  split; [exact T|].
  exact (proj2 (proj1 (validate_address_spec (YStr "0A"))) T).
Defined.

(** C5 fails. The text "0x1A" and the boolean [true] are not integers,
    yet validation accepts each of them as [max_files], and the generated
    code gives 26 and [true] to [set_max_files]. *)
Lemma max_files_not_an_integer :
  (forall n, YStr "0x1A" <> YInt n) /\ (forall n, YBool true <> YInt n) /\
  (exists code, compile hexadecimal_files_config = Ok code /\
     delivered "set_max_files" code = [IntLiteral 26]) /\
  (exists code, compile true_files_config = Ok code /\
     delivered "set_max_files" code = [BoolLiteral true]) /\
  ~ (forall v,
       accepted (Schema CONFIG_SCHEMA (YDict [ (CONF_MAX_FILES, v) ])) <->
       exists n, v = YInt n /\ 1 <= n <= 26).
Proof.
  split; [discriminate|]. split; [discriminate|].
  split; [eexists; split; [vm_compute; reflexivity | reflexivity]|].
  split; [eexists; split; [vm_compute; reflexivity | reflexivity]|].
  intros H.
  destruct (proj1 (H (YStr "0x1A"))) as (n & E & _);
    [eexists; vm_compute; reflexivity | discriminate E].
Qed.

(** C6 fails. The text "3" and the boolean [true] are not integers, yet
    validation accepts them as [speed], in an offline message and in the
    defaults, and the generated code passes 3 and [true]. *)
Lemma speed_not_an_integer :
  (forall n, YStr "3" <> YInt n) /\ (forall n, YBool true <> YInt n) /\
  (exists code, compile text_speed_config = Ok code /\
     filter is_offline_call code
     = [ Call "add_offline_message"
           [ StringLiteral "Hello"; StringLiteral "green";
             StringLiteral "rotate"; IntLiteral 10000;
             StringLiteral EmptyString; StringLiteral "7high";
             StringLiteral "topline"; IntLiteral 3 ] ]) /\
  (exists code, compile true_speed_config = Ok code /\
     delivered "set_default_speed" code = [BoolLiteral true]) /\
  ~ (forall v,
       accepted (Schema DEFAULTS_SCHEMA (YDict [ (CONF_SPEED, v) ])) <->
       exists n, v = YInt n /\ 1 <= n <= 5).
Proof.
  split; [discriminate|]. split; [discriminate|].
  split; [eexists; split; [vm_compute; reflexivity | reflexivity]|].
  split; [eexists; split; [vm_compute; reflexivity | reflexivity]|].
  intros H.
  destruct (proj1 (H (YBool true))) as (n & E & _);
    [eexists; vm_compute; reflexivity | discriminate E].
Qed.

Lemma max_files_range_witness :
  numeral "0x1A" 26 /\ 1 <= 26 <= 26 /\
  exists f, field_validator CONFIG_SCHEMA CONF_MAX_FILES = Some f /\
            accepted (f (YStr "0x1A")) /\ accepted (f (YBool true)) /\
            accepted (f (YInt 26)).
Proof.
  assert (D1 : digit_value 16 "1" 1) by (split; [lia | reflexivity]).
  assert (D2 : digit_value 16 "a" 10) by (split; [lia | reflexivity]).
  assert (N : numeral "0x1A" 26).
  { right. exists ["0"; "x"]%char, ["1"; "a"]%char, [].
    split; [left; reflexivity|].
    split; [exact (digits_more 16 ["1"%char] 1 "a" 10
                     (digits_one 16 "1" 1 D1) D2)|].
    split; [constructor | reflexivity]. }
  assert (R : 1 <= 26 <= 26) by lia.
  split; [exact N|]. split; [exact R|].
  destruct max_files_range as (f & Hf & _ & Hn & Hb & Hs & _).
  exists f. split; [exact Hf|].
  split; [exact (proj2 (Hs "0x1A") (ex_intro _ 26 (conj N R)))|].
  split; [exact (proj2 (Hb true) eq_refl) | exact (proj2 (Hn 26) R)].
Defined.

Lemma speed_range_witness :
  (DEFAULTS_SCHEMA = OFFLINE_MESSAGE_SCHEMA \/ DEFAULTS_SCHEMA = DEFAULTS_SCHEMA) /\
  numeral " +3" 3 /\ 1 <= 3 <= 5 /\
  exists f, field_validator DEFAULTS_SCHEMA CONF_SPEED = Some f /\
            accepted (f (YStr " +3")) /\ accepted (f (YBool true)) /\
            accepted (f (YInt 3)).
Proof.
  assert (E : DEFAULTS_SCHEMA = OFFLINE_MESSAGE_SCHEMA
              \/ DEFAULTS_SCHEMA = DEFAULTS_SCHEMA) by (right; reflexivity).
  assert (D : digit_value 10 "3" 3) by (split; [lia | reflexivity]).
  assert (N : numeral " +3" 3).
  { left. exists [" "%char], (["+"%char], 1), ["3"%char], [], 3.
    split; [constructor; [do 5 right; left; reflexivity | constructor]|].
    split; [right; left; reflexivity|].
    split; [exact (digits_one 10 "3" 3 D)|].
    split; [constructor|]. split; reflexivity. }
  assert (R : 1 <= 3 <= 5) by lia.
  split; [exact E|]. split; [exact N|]. split; [exact R|].
  destruct (speed_range DEFAULTS_SCHEMA E) as (f & Hf & _ & Hn & Hb & Hs & _).
  exists f. split; [exact Hf|].
  split; [exact (proj2 (Hs " +3") (ex_intro _ 3 (conj N R)))|].
  split; [exact (proj2 (Hb true) eq_refl) | exact (proj2 (Hn 3) R)].
Defined.

Lemma enumerations_closed_witness :
  ~ Forall option_of_list (supplied_options purple_config) /\
  exists msg, Schema CONFIG_SCHEMA purple_config = Raise (Invalid msg) /\
              compile purple_config = Raise (Invalid msg).
Proof.
  assert (N : ~ Forall option_of_list (supplied_options purple_config)).
  { intros F. inversion F as [|p l Hp _]; subst.
    destruct Hp as (s & e & Hs & Hin & Hci).
    cbn [fst snd] in Hs, Hin, Hci. injection Hs as <-.
    unfold ci_eq in Hci. simpl in Hin.
    repeat (destruct Hin as [<-|Hin]; [discriminate Hci|]).
    exact Hin. }
  split; [exact N|].
  exact (proj2 enumerations_closed purple_config N).
Defined.

Lemma offline_messages_code_witness :
  Schema CONFIG_SCHEMA small_config = Ok (Dict small_validated) /\
  exists msgs prefix calls,
    generated (to_code small_validated) = Ok (prefix ++ calls)%list /\
    no_offline_call prefix /\
    filter is_offline_call (prefix ++ calls)%list = calls /\
    List.length calls = 1%nat /\
    Forall2 (fun r m => Schema OFFLINE_MESSAGE_SCHEMA r = Ok m)
      [ YDict [ (CONF_TEXT, YStr "Hello") ] ] msgs /\
    Forall2 offline_call msgs calls.
Proof.
  assert (S : Schema CONFIG_SCHEMA small_config = Ok (Dict small_validated))
    by (vm_compute; reflexivity).
  split; [exact S|].
  exact (offline_messages_code _ small_validated S).
Defined.

Lemma priority_action_default_duration_witness :
  lookup CONF_DURATION priority_action = None /\
  compile_priority_action (YDict priority_action) (ID (Some "alarm"))
  = Ok [ NewPvariable (ID (Some "alarm"));
         Call "set_message" [StringLiteral "Fire"];
         Call "set_duration" [IntLiteral 25] ] /\
  exists text,
    [ NewPvariable (ID (Some "alarm"));
      Call "set_message" [StringLiteral "Fire"];
      Call "set_duration" [IntLiteral 25] ]
    = [ NewPvariable (ID (Some "alarm")); Call "set_message" [text];
        Call "set_duration" [IntLiteral 25] ].
Proof.
  assert (L : lookup CONF_DURATION priority_action = None) by reflexivity.
  assert (C : compile_priority_action (YDict priority_action)
                (ID (Some "alarm"))
              = Ok [ NewPvariable (ID (Some "alarm"));
                     Call "set_message" [StringLiteral "Fire"];
                     Call "set_duration" [IntLiteral 25] ])
    by (vm_compute; reflexivity).
  split; [exact L|]. split; [exact C|].
  exact (proj1 priority_action_default_duration priority_action _ _ L C).
Defined.

Lemma max_files_only_range_witness :
  lookup CONF_MAX_FILES [ (CONF_MAX_FILES, YInt 0) ] = Some (YInt 0) /\
  whole_number (YInt 0) 0 /\ (0 < 1 \/ 26 < 0) /\
  exists msg, compile (YDict [ (CONF_MAX_FILES, YInt 0) ])
              = Raise (Invalid msg).
Proof.
  assert (R : 0 < 1 \/ 26 < 0) by (left; lia).
  split; [reflexivity|]. split; [reflexivity|]. split; [exact R|].
  exact (proj1 max_files_only_range [ (CONF_MAX_FILES, YInt 0) ] (YInt 0) 0
           eq_refl eq_refl R).
Defined.

Lemma getNews_titles_witness :
  (forall item, In item (first_stories two_stories) ->
                find "title" item <> None) /\
  exists w',
    getNews two_stories_world = Ok ([ Some "First"; Some "Second" ], w').
Proof.
  assert (T : forall item, In item (first_stories two_stories) ->
                           find "title" item <> None).
  { intros item Hin. simpl in Hin.
    destruct Hin as [<-|[<-|[]]]; discriminate. }
  split; [exact T|].
  destruct (getNews_titles two_stories_world _ _ two_stories
              eq_refl eq_refl T) as (w' & G & _).
  exists w'. exact G.
Defined.

Lemma sendToMqtt_publishes_witness :
  connected fresh_world = false /\ broker fresh_world <> Unreachable /\
  exists w',
    sendToMqtt "news/list" MNone fresh_world = Ok (tt, w') /\
    calls w' = [ Connect MQTT_BROKER MQTT_PORT 60;
                 Publish "ledSign/feed/news/list" MNone true ].
Proof.
  assert (B : broker fresh_world <> Unreachable) by discriminate.
  split; [reflexivity|]. split; [exact B|].
  exact (proj1 (proj2 (sendToMqtt_publishes "news/list" MNone fresh_world))
           eq_refl B).
Defined.

Lemma trivia_published_unconditionally_witness :
  (exists facts w1 w2,
     getFacts failing_trivia_world = Ok (facts, w1) /\
     getTrivia w1 = Ok (MNone, w2)) /\
  exists w' before,
    main failing_trivia_world = Ok (tt, w') /\
    calls w' = (before ++ [ Publish "ledSign/feed/trivia/question"
                              MNone true ])%list.
Proof.
  split.
  - eexists. eexists. eexists. split; vm_compute; reflexivity.
  - eapply (proj2 (proj2 trivia_published_unconditionally)
              failing_trivia_world);
      [ vm_compute; reflexivity | vm_compute; reflexivity
      | vm_compute; reflexivity | vm_compute; reflexivity
      | discriminate ].
Defined.

End Runs.

(* ================================================================== *)
(** * The settings blocks of [to_code], statement by statement *)

Section SettingsBlocks.
Import cv cg betabrite.

Ltac entry_fact ND Hv e ov Hov L :=
  destruct (validate_entries_lookup _ _ _ ND Hv e ltac:(in_schema))
    as (ov & Hov & L);
  apply validate_entry_Ok in Hov; cbn [key mark validator] in Hov, L.

Ltac entry_value Hov v x Hx :=
  destruct Hov as [(_ & _ & Hov) | (v & x & -> & Hx & _)];
  [discriminate Hov|].

Ltac lookups L := unfold item, getitem; rewrite L.

Lemma period_microseconds_nonneg (v : yaml) (us : Z) :
  period_microseconds v = Ok us -> 0 <= us.
Proof.
  unfold period_microseconds, positive_time_period. intros H.
  apply bind_Ok in H. destruct H as (p & H & [= <-]).
  apply bind_Ok in H. destruct H as (q & _ & H).
  destruct (total_microseconds q <? 0) eqn:E; [discriminate|].
  apply Z.ltb_ge in E. now injection H as <-.
Qed.

(** What validation leaves under an optional key without default. *)
Lemma optional_entry (k : string) (f : yaml -> result value)
  (d : list (string * yaml)) (ov : option value) :
  validate_entry (Entry k (Optional None) f) d = Ok ov ->
  (lookup k d = None /\ ov = None) \/
  (exists v x, lookup k d = Some v /\ ov = Some x /\ f v = Ok x).
Proof.
  unfold validate_entry. cbn [key mark validator].
  destruct (lookup k d) as [v|].
  - intros H. apply bind_Ok in H. destruct H as (x & Hx & [= <-]).
    right. eauto.
  - intros [= <-]. now left.
Qed.

Lemma default_settings_exact (config : list (string * value))
  (ov : option value) :
  block_of DEFAULTS_SCHEMA ov -> lookup CONF_DEFAULTS config = ov ->
  exists out, emits (default_settings config) out /\ defaults_code ov out.
Proof.
  intros [-> | (v & x & -> & H)] L; unfold default_settings, contains;
    rewrite L.
  { exists []. split; [apply emits_ret | left; auto]. }
  apply Schema_Ok in H. destruct H as (d & m & -> & -> & _ & Hv).
  pose proof DEFAULTS_SCHEMA_keys as ND.
  entry_fact ND Hv
    (Entry CONF_COLOR (Optional (Some (YStr "green"))) (one_of COLORS true))
    o1 H1 L1.
  entry_value H1 v1 x1 X1. apply one_of_lower_Str in X1.
  destruct X1 as (color & -> & I1).
  entry_fact ND Hv
    (Entry CONF_MODE (Optional (Some (YStr "rotate"))) (one_of MODES true))
    o2 H2 L2.
  entry_value H2 v2 x2 X2. apply one_of_lower_Str in X2.
  destruct X2 as (mode & -> & I2).
  entry_fact ND Hv
    (Entry CONF_CHARSET (Optional (Some (YStr "7high")))
       (one_of CHARSETS true)) o3 H3 L3.
  entry_value H3 v3 x3 X3. apply one_of_lower_Str in X3.
  destruct X3 as (charset & -> & I3).
  entry_fact ND Hv
    (Entry CONF_POSITION (Optional (Some (YStr "topline")))
       (one_of POSITIONS true)) o4 H4 L4.
  entry_value H4 v4 x4 X4. apply one_of_lower_Str in X4.
  destruct X4 as (position & -> & I4).
  entry_fact ND Hv (Entry CONF_SPEED (Optional (Some (YInt 3))) (int_range 1 5))
    o5 H5 L5.
  entry_value H5 v5 x5 X5. kept_number X5 speed_exp S5 NE NB.
  entry_fact ND Hv
    (Entry CONF_EFFECT (Optional (Some (YStr "twinkle")))
       (one_of EFFECTS true)) o6 H6 L6.
  entry_value H6 v6 x6 X6. apply one_of_lower_Str in X6.
  destruct X6 as (effect & -> & I6).
  eexists. split.
  - eapply emits_lift; [unfold getitem; rewrite L; reflexivity|].
    eapply emits_seq; [lookups L1; apply emits_add_raw|].
    eapply emits_seq; [lookups L2; apply emits_add_raw|].
    eapply emits_seq; [lookups L3; apply emits_add_raw|].
    eapply emits_seq; [lookups L4; apply emits_add_raw|].
    eapply emits_seq; [lookups L5; apply emits_add_call1; exact S5|].
    lookups L6; apply emits_add_raw.
  - right. exists m, color, mode, charset, position, x5, speed_exp, effect.
    split; [reflexivity|]. split; [exact L1|]. split; [exact I1|].
    split; [exact L2|]. split; [exact I2|]. split; [exact L3|].
    split; [exact I3|]. split; [exact L4|]. split; [exact I4|].
    split; [exact L5|]. split; [exact NB|]. split; [exact NE|].
    split; [exact L6|]. split; [exact I6 | reflexivity].
Qed.

Lemma clock_settings_exact (config : list (string * value))
  (ov : option value) :
  block_of CLOCK_SCHEMA ov -> lookup CONF_CLOCK config = ov ->
  exists out, emits (clock_settings config) out /\ clock_code ov out.
Proof.
  intros [-> | (v & x & -> & H)] L; unfold clock_settings, contains;
    rewrite L.
  { exists []. split; [apply emits_ret | left; auto]. }
  apply Schema_Ok in H. destruct H as (d & m & -> & -> & _ & Hv).
  pose proof CLOCK_SCHEMA_keys as ND.
  entry_fact ND Hv (Entry CONF_ENABLED (Optional (Some (YBool true))) boolean)
    o1 H1 L1.
  entry_value H1 v1 x1 X1. apply boolean_Bool in X1.
  destruct X1 as (enabled & ->).
  entry_fact ND Hv
    (Entry CONF_INTERVAL (Optional (Some (YStr "60s")))
       positive_time_period_milliseconds) o2 H2 L2.
  entry_value H2 v2 x2 X2. apply milliseconds_TimePeriod in X2.
  destruct X2 as (interval & -> & P2 & M2).
  apply period_microseconds_nonneg in P2.
  entry_fact ND Hv
    (Entry CONF_DURATION (Optional (Some (YStr "4s")))
       positive_time_period_milliseconds) o3 H3 L3.
  entry_value H3 v3 x3 X3. apply milliseconds_TimePeriod in X3.
  destruct X3 as (duration & -> & P3 & M3).
  apply period_microseconds_nonneg in P3.
  entry_fact ND Hv
    (Entry CONF_FORMAT (Optional (Some (YStr "12h")))
       (one_of CLOCK_FORMATS true)) o4 H4 L4.
  entry_value H4 v4 x4 X4. apply one_of_lower_Str in X4.
  destruct X4 as (format & -> & I4).
  entry_fact ND Hv
    (Entry CONF_COLOR (Optional (Some (YStr "amber"))) (one_of COLORS true))
    o5 H5 L5.
  entry_value H5 v5 x5 X5. apply one_of_lower_Str in X5.
  destruct X5 as (color & -> & I5).
  eexists. split.
  - eapply emits_lift; [unfold getitem; rewrite L; reflexivity|].
    eapply emits_seq; [lookups L1; apply emits_add_call1; reflexivity|].
    eapply emits_seq; [lookups L2; apply emits_add_call1; reflexivity|].
    eapply emits_seq; [lookups L3; apply emits_add_call1; reflexivity|].
    eapply emits_seq; [lookups L4; apply emits_add_call1; reflexivity|].
    lookups L5; apply emits_add_raw.
  - right. exists m, enabled, interval, duration, format, color.
    repeat split; assumption.
Qed.

Lemma optional_block (k : string) (es : list entry)
  (d : list (string * yaml)) (ov : option value) :
  validate_entry (Entry k (Optional None) (Schema es)) d = Ok ov ->
  block_of es ov /\ (ov = None <-> lookup k d = None).
Proof.
  intros H. apply optional_entry in H.
  destruct H as [(L & ->) | (v & x & L & -> & H)].
  - split; [now left | tauto].
  - split; [right; eauto|]. rewrite L. split; discriminate.
Qed.

(** Code generation on a validated configuration, block by block. *)
Lemma to_code_settings (d : list (string * yaml))
  (config : list (string * value)) :
  validate_entries CONFIG_SCHEMA d = Ok config ->
  exists code, generated (to_code config) = Ok code
               /\ settings_code d config code.
Proof.
  intros Hv. pose proof CONFIG_SCHEMA_keys as ND.
  entry_fact ND Hv (Entry CONF_ID GenerateID declare_id) o1 H1 L1.
  entry_value H1 v1 x1 X1. clear X1.
  entry_fact ND Hv (Entry CONF_UART_ID GenerateID use_id) o2 H2 L2.
  entry_value H2 v2 x2 X2. clear X2.
  entry_fact ND Hv
    (Entry CONF_SIGN_TYPE (Optional (Some (YStr "all")))
       (one_of SIGN_TYPE_KEYS true)) o3 H3 L3.
  entry_value H3 v3 x3 X3. apply one_of_lower_Str in X3.
  destruct X3 as (sign_key & -> & Hk).
  apply SIGN_TYPES_lookup in Hk. destruct Hk as (sign_type & Hk).
  entry_fact ND Hv
    (Entry CONF_ADDRESS (Optional (Some (YStr "00"))) validate_address)
    o4 H4 L4.
  entry_value H4 v4 x4 X4. apply validate_address_Ok in X4.
  destruct X4 as (address & _ & _ & ->).
  entry_fact ND Hv
    (Entry CONF_MAX_FILES (Optional (Some (YInt 5))) (int_range 1 26))
    o5 H5 L5.
  entry_value H5 v5 x5 X5. kept_number X5 files_exp S5 NE NB.
  destruct (validate_entries_lookup _ _ _ ND Hv
              (Entry CONF_DEFAULTS (Optional None) (Schema DEFAULTS_SCHEMA))
              ltac:(in_schema)) as (o6 & H6 & L6).
  cbn [key] in L6. apply optional_block in H6. destruct H6 as [B6 P6].
  destruct (default_settings_exact config o6 B6 L6) as (dcode & D1 & D2).
  destruct (validate_entries_lookup _ _ _ ND Hv
              (Entry CONF_CLOCK (Optional None) (Schema CLOCK_SCHEMA))
              ltac:(in_schema)) as (o7 & H7 & L7).
  cbn [key] in L7. apply optional_block in H7. destruct H7 as [B7 P7].
  destruct (clock_settings_exact config o7 B7 L7) as (ccode & C1 & C2).
  destruct (validate_entries_lookup _ _ _ ND Hv
              (Entry CONF_PRIORITY (Optional None) (Schema PRIORITY_SCHEMA))
              ltac:(in_schema)) as (o8 & H8 & L8).
  cbn [key] in L8. apply optional_block in H8. destruct H8 as [B8 P8].
  destruct (priority_settings_emits config o8 B8 L8) as (pcode & Q1 & Q2).
  entry_fact ND Hv
    (Entry CONF_OFFLINE_MESSAGES (Optional None)
       (ensure_list (Schema OFFLINE_MESSAGE_SCHEMA))) o9 H9 L9.
  destruct (offline_messages_emits d config o9 H9 L9)
    as (msgs & calls & O1 & O2 & O3).
  eexists. split.
  - apply generated_emits. unfold to_code.
    eapply emits_lift; [unfold getitem; rewrite L1; reflexivity|].
    eapply emits_seq; [apply emits_add|].
    eapply emits_seq; [apply emits_add|].
    eapply emits_lift; [unfold getitem; rewrite L2; reflexivity|].
    eapply emits_seq; [apply emits_add|].
    eapply emits_lift;
      [unfold getitem; rewrite L3; cbv beta iota delta [Py.bind];
       rewrite Hk; reflexivity|].
    eapply emits_seq; [apply emits_add|].
    eapply emits_seq;
      [unfold getitem; rewrite L4; apply emits_add_call1; reflexivity|].
    eapply emits_seq;
      [unfold getitem; rewrite L5; apply emits_add_call1; exact S5|].
    eapply emits_seq; [exact D1|].
    eapply emits_seq; [exact C1|].
    eapply emits_seq; [exact Q1|].
    exact O1.
  - exists x1, x2, sign_key, sign_type, address, x5, files_exp, msgs,
      dcode, ccode, pcode, calls.
    rewrite L6, L7, L8, L9.
    split; [exact L1|]. split; [exact L2|]. split; [exact L3|].
    split; [exact Hk|]. split; [exact L4|]. split; [exact L5|].
    split; [exact NB|]. split; [exact NE|].
    split; [exact D2|]. split; [exact C2|]. split; [exact Q2|].
    split; [exact O2|]. split; [exact O3|].
    split; [exact P6|]. split; [exact P7|]. split; [exact P8 | reflexivity].
Qed.

End SettingsBlocks.

(* ================================================================== *)
(** * What the component is given *)

Section Delivered.
Import cv cg betabrite.

Lemma lookup_In {A} (k : string) (d : list (string * A)) (v : A) :
  lookup k d = Some v -> In (k, v) d.
Proof.
  induction d as [|[k' v'] d IH]; simpl; [discriminate|].
  destruct (String.eqb k k') eqn:E.
  - apply String.eqb_eq in E. intros [= ->]. subst. now left.
  - intros H. right. now apply IH.
Qed.

Lemma delivered_app (m : string) (a b : list statement) :
  delivered m (a ++ b)%list = (delivered m a ++ delivered m b)%list.
Proof. unfold delivered. apply flat_map_app. Qed.

Lemma delivered_offline (m : string) (msgs : list value)
  (calls : list statement) :
  Forall2 offline_call msgs calls -> delivered m calls = [].
Proof.
  induction 1 as [|x s msgs calls Hs _ IH]; [reflexivity|].
  destruct Hs as (? & ? & ? & ? & ? & ? & ? & ? & ? & ? & _ & _ & _ & _ & _
                  & _ & _ & _ & _ & _ & ->).
  simpl. exact IH.
Qed.

(** Validation and code generation of an accepted configuration. *)
Lemma compile_settings (d : list (string * yaml)) (code : list statement) :
  compile (YDict d) = Ok code ->
  exists config,
    validate_entries CONFIG_SCHEMA d = Ok config /\
    settings_code d config code.
Proof.
  intros H. unfold compile in H.
  apply bind_Ok in H. destruct H as (cfg & Hs & H).
  apply Schema_Ok in Hs. destruct Hs as (d' & config & [= <-] & -> & _ & Hv).
  destruct (to_code_settings d config Hv) as (code' & G & S).
  rewrite G in H. injection H as <-. eauto.
Qed.

(** The cases of a settings block: left out, or written out. *)
Ltac block_cases D :=
  destruct D as [(_ & ->) | D];
  [| repeat match type of D with
            | exists _, _ => destruct D as (? & D)
            | _ /\ _ => let H := fresh in destruct D as (H & D)
            end; subst ].

Lemma header_delivered (d : list (string * yaml))
  (config : list (string * value)) (code : list statement) (m : string) :
  settings_code d config code ->
  In m ["set_sign_type"; "set_address"; "set_max_files"] ->
  delivered m code = delivered m (firstn 6 code).
Proof.
  intros (id & uart & sk & st & a & n & fe & msgs & dc & cc & pc & calls
          & _ & _ & _ & _ & _ & _ & _ & _ & D & C & P & (_ & O) & _ & _ & _
          & _ & ->)
         Hm.
  rewrite !delivered_app, (delivered_offline _ _ _ O). cbn [firstn app].
  block_cases D; block_cases C; block_cases P;
    simpl in Hm; destruct Hm as [<-|[<-|[<-|[]]]]; reflexivity.
Qed.

(** The sign type, the address and the number of files always reach the
    component, once each: an enumerator of [SIGN_TYPES], an address of two
    characters and the number of files, from 1 to 26, that the configured
    value stands for ([true] is passed as it is written); [ST_ALL], "00"
    and 5 when the keys are left out. *)
Theorem header_settings_delivered (d : list (string * yaml))
  (code : list statement) :
  compile (YDict d) = Ok code ->
  exists sign_type address max_files,
    delivered "set_sign_type" code = [MemberOf "betabrite" sign_type] /\
    In sign_type (map snd SIGN_TYPES) /\
    delivered "set_address" code = [StringLiteral address] /\
    String.length address = 2%nat /\
    delivered "set_max_files" code = [max_files] /\
    literal_between 1 26 max_files /\
    (lookup CONF_SIGN_TYPE d = None -> sign_type = "ST_ALL") /\
    (forall s, lookup CONF_SIGN_TYPE d = Some (YStr s) ->
               lookup (lower s) SIGN_TYPES = Some sign_type) /\
    (lookup CONF_ADDRESS d = None -> address = "00") /\
    (lookup CONF_MAX_FILES d = None -> max_files = IntLiteral 5) /\
    (forall v, lookup CONF_MAX_FILES d = Some v ->
               exists n, whole_number v n /\ 1 <= n <= 26 /\
                         number_expression (kept v n) max_files).
Proof.
  intros H. destruct (compile_settings d code H) as (config & Hv & S).
  pose proof (header_delivered d config code "set_sign_type" S
                ltac:(simpl; auto)) as E1.
  pose proof (header_delivered d config code "set_address" S
                ltac:(simpl; auto)) as E2.
  pose proof (header_delivered d config code "set_max_files" S
                ltac:(simpl; auto)) as E3.
  destruct S as (id & uart & sk & st & a & n & fe & msgs & dc & cc & pc
                 & calls & _ & _ & Lsk & Hst & La & Ln & NBf & NEf & _ & _
                 & _ & _ & _ & _ & _ & _ & ->).
  cbn [firstn app] in E1, E2, E3.
  pose proof CONFIG_SCHEMA_keys as ND.
  exists st, a, fe.
  split; [exact E1|].
  split; [apply lookup_In in Hst; now apply (in_map snd) in Hst|].
  split; [exact E2|].
  assert (Ha : String.length a = 2%nat
               /\ (lookup CONF_ADDRESS d = None -> a = "00")).
  { destruct (validate_entries_lookup _ _ _ ND Hv
                (Entry CONF_ADDRESS (Optional (Some (YStr "00")))
                   validate_address) ltac:(in_schema)) as (ov & Hov & L).
    cbn [key] in L. rewrite La in L. subst ov.
    unfold validate_entry in Hov. cbn [key mark validator] in Hov.
    destruct (lookup CONF_ADDRESS d) as [v|];
      apply bind_Ok in Hov; destruct Hov as (x & Hx & [= ->]);
      apply validate_address_Ok in Hx;
      destruct Hx as (s & Es & Len & [= ->]).
    - split; [exact Len | discriminate].
    - injection Es as <-. split; [reflexivity | reflexivity]. }
  assert (Hn : (lookup CONF_MAX_FILES d = None -> fe = IntLiteral 5) /\
               (forall v, lookup CONF_MAX_FILES d = Some v ->
                          exists k, whole_number v k /\ 1 <= k <= 26 /\
                                    number_expression (kept v k) fe)).
  { destruct (validate_entries_lookup _ _ _ ND Hv
                (Entry CONF_MAX_FILES (Optional (Some (YInt 5)))
                   (int_range 1 26)) ltac:(in_schema)) as (ov & Hov & L).
    cbn [key] in L. rewrite Ln in L. subst ov.
    unfold validate_entry in Hov. cbn [key mark validator] in Hov.
    destruct (lookup CONF_MAX_FILES d) as [v|];
      apply bind_Ok in Hov; destruct Hov as (x & Hx & [= ->]).
    - split; [discriminate|]. intros v' [= <-].
      apply int_range_kept in Hx. destruct Hx as (k & Hk & R & ->). eauto.
    - vm_compute in Hx. injection Hx as <-. simpl in NEf.
      split; [now intros _ | discriminate]. }
  assert (Hs : (lookup CONF_SIGN_TYPE d = None -> st = "ST_ALL") /\
               (forall s, lookup CONF_SIGN_TYPE d = Some (YStr s) ->
                          lookup (lower s) SIGN_TYPES = Some st)).
  { destruct (validate_entries_lookup _ _ _ ND Hv
                (Entry CONF_SIGN_TYPE (Optional (Some (YStr "all")))
                   (one_of SIGN_TYPE_KEYS true)) ltac:(in_schema))
      as (ov & Hov & L).
    cbn [key] in L. rewrite Lsk in L. subst ov.
    unfold validate_entry in Hov. cbn [key mark validator] in Hov.
    destruct (lookup CONF_SIGN_TYPE d) as [v|];
      apply bind_Ok in Hov; destruct Hov as (x & Hx & [= ->]);
      apply one_of_lower_result in Hx;
      destruct Hx as (s & Es & _ & [= ->]).
    - split; [discriminate|].
      intros s' [= ->]. simpl in Es. injection Es as <-. exact Hst.
    - simpl in Es. injection Es as <-. split; [|discriminate].
      intros _. vm_compute in Hst. now injection Hst as <-. }
  destruct Ha as [Ha1 Ha2]. destruct Hn as [Hn1 Hn2].
  destruct Hs as [Hs1 Hs2].
  split; [exact Ha1|]. split; [exact E3|].
  split; [exact (number_literal_between _ _ _ _ NBf NEf)|].
  split; [exact Hs1|]. split; [exact Hs2|]. split; [exact Ha2|].
  split; [exact Hn1 | exact Hn2].
Qed.

(** When the [defaults] block is left out no default setter is called;
    when it is written, each of the six setters is called once, with an
    option of its closed list, and with a speed from 1 to 5 ([true] when
    that was written for 1). *)
Theorem default_settings_delivered (d : list (string * yaml))
  (code : list statement) :
  compile (YDict d) = Ok code ->
  (lookup CONF_DEFAULTS d = None ->
     forall m, In m default_setters -> delivered m code = []) /\
  (lookup CONF_DEFAULTS d <> None ->
     exists color mode charset position speed effect,
       In color COLORS /\ In mode MODES /\ In charset CHARSETS /\
       In position POSITIONS /\ literal_between 1 5 speed /\
       In effect EFFECTS /\
       map (fun m => delivered m code) default_setters
       = [ [raw_call "color_from_string" color];
           [raw_call "mode_from_string" mode];
           [raw_call "charset_from_string" charset];
           [raw_call "position_from_string" position];
           [speed];
           [raw_call "effect_from_string" effect] ]).
Proof.
  intros H. destruct (compile_settings d code H) as (config & Hv & S).
  destruct S as (id & uart & sk & st & a & n & fe & msgs & dc & cc & pc & calls
                 & _ & _ & _ & _ & _ & _ & NBf & NEf & D & C & P & (_ & O) & _ & PD & _
                 & _ & ->).
  split.
  - intros L m Hm. apply PD in L.
    destruct D as [(_ & ->) | (dd & ? & ? & ? & ? & ? & ? & ? & E & _)];
      [|rewrite L in E; discriminate E].
    rewrite !delivered_app, (delivered_offline _ _ _ O).
    block_cases C; block_cases P;
      simpl in Hm;
      repeat (destruct Hm as [<-|Hm]; [reflexivity|]); contradiction.
  - intros L.
    destruct D as [(E & _) | (dd & color & mode & charset & position & speed
                               & speed_exp & effect & _ & _ & I1 & _ & I2
                               & _ & I3 & _ & I4 & _ & R & NE & _ & I6
                               & ->)];
      [exfalso; apply L; now apply PD|].
    exists color, mode, charset, position, speed_exp, effect.
    split; [exact I1|]. split; [exact I2|]. split; [exact I3|].
    split; [exact I4|].
    split; [exact (number_literal_between _ _ _ _ R NE)|].
    split; [exact I6|].
    unfold default_setters. cbn [map].
    rewrite !delivered_app, !(delivered_offline _ _ _ O).
    block_cases C; block_cases P; reflexivity.
Qed.

(** When the [clock] block is left out no clock setter is called; when
    it is written, [set_clock_24h] is given true exactly when the format,
    letter case ignored, is "24h" (false when no format is written), and
    the interval and the duration are given in whole milliseconds. *)
Theorem clock_settings_delivered (d : list (string * yaml))
  (code : list statement) :
  compile (YDict d) = Ok code ->
  (lookup CONF_CLOCK d = None ->
     forall m, In m clock_setters -> delivered m code = []) /\
  (lookup CONF_CLOCK d <> None ->
     exists enabled interval duration color,
       0 <= interval /\ 0 <= duration /\ In color COLORS /\
       map (fun m => delivered m code) clock_setters
       = [ [BoolLiteral enabled]; [IntLiteral interval];
           [IntLiteral duration]; [BoolLiteral (is_24h d)];
           [raw_call "color_from_string" color] ]).
Proof.
  intros H. destruct (compile_settings d code H) as (config & Hv & S).
  destruct S as (id & uart & sk & st & a & n & fe & msgs & dc & cc & pc & calls
                 & _ & _ & _ & _ & _ & _ & NBf & NEf & D & C & P & (_ & O) & _ & _ & PC
                 & _ & ->).
  split.
  - intros L m Hm. apply PC in L.
    destruct C as [(_ & ->) | (c & ? & ? & ? & ? & ? & E & _)];
      [|rewrite L in E; discriminate E].
    rewrite !delivered_app, (delivered_offline _ _ _ O).
    block_cases D; block_cases P;
      simpl in Hm;
      repeat (destruct Hm as [<-|Hm]; [reflexivity|]); contradiction.
  - intros L.
    destruct C as [(E & _) | (c & enabled & interval & duration & format
                               & color & Ec & _ & _ & N2 & _ & _ & N3 & _
                               & Lf & _ & _ & I5 & ->)];
      [exfalso; apply L; now apply PC|].
    assert (F : String.eqb format "24h" = is_24h d).
    { destruct (lookup CONF_CLOCK d) as [v|] eqn:Lv; [|now destruct L].
      destruct (validated_supplied CONFIG_SCHEMA d config
                  (Entry CONF_CLOCK (Optional None) (Schema CLOCK_SCHEMA))
                  v CONFIG_SCHEMA_keys Hv ltac:(in_schema) Lv)
        as (x & Hx & Lx).
      cbn [key validator] in Hx, Lx. rewrite Ec in Lx. injection Lx as <-.
      apply Schema_Ok in Hx.
      destruct Hx as (rc & c' & -> & [= <-] & _ & Hc).
      unfold is_24h. rewrite Lv.
      destruct (validate_entries_lookup _ _ _ CLOCK_SCHEMA_keys Hc
                  (Entry CONF_FORMAT (Optional (Some (YStr "12h")))
                     (one_of CLOCK_FORMATS true)) ltac:(in_schema))
        as (ov & Hov & Lo).
      cbn [key] in Lo. rewrite Lf in Lo. subst ov.
      unfold validate_entry in Hov. cbn [key mark validator] in Hov.
      destruct (lookup CONF_FORMAT rc) as [fv|].
      - apply bind_Ok in Hov. destruct Hov as (x & Hx & [= ->]).
        assert (A : accepted (one_of CLOCK_FORMATS true fv))
          by (rewrite Hx; apply accepted_Ok).
        apply (one_of_lower_iff CLOCK_FORMATS fv eq_refl) in A.
        destruct A as (s & e & -> & _ & _).
        apply one_of_lower_result in Hx.
        destruct Hx as (s' & Es & _ & [= ->]).
        simpl in Es. injection Es as <-. reflexivity.
      - apply bind_Ok in Hov. destruct Hov as (x & Hx & [= ->]).
        vm_compute in Hx. injection Hx as <-. reflexivity. }
    exists enabled, (interval / 1000), (duration / 1000), color.
    split; [apply Z.div_pos; lia|]. split; [apply Z.div_pos; lia|].
    split; [assumption|].
    unfold clock_setters. cbn [map]. rewrite <- F.
    rewrite !delivered_app, !(delivered_offline _ _ _ O).
    block_cases D; block_cases P; reflexivity.
Qed.


Lemma offline_call_passes_duration (raw : yaml) (msg : value)
  (s : statement) :
  Schema OFFLINE_MESSAGE_SCHEMA raw = Ok msg -> offline_call msg s ->
  passes_duration raw s.
Proof.
  intros H C. apply Schema_Ok in H.
  destruct H as (m & out & -> & -> & _ & Hv).
  destruct (validate_entries_lookup _ _ _ OFFLINE_MESSAGE_SCHEMA_keys Hv
              (Entry CONF_DURATION (Optional (Some (YStr "10s")))
                 positive_time_period_milliseconds) ltac:(in_schema))
    as (ov & Hov & L).
  cbn [key] in L.
  destruct C as (m' & text & color & mode & us & effect & charset & position
                 & speed & speed_exp & [= <-] & _ & _ & _ & Ld & _ & _ & _
                 & _ & _ & ->).
  rewrite Ld in L. subst ov.
  unfold validate_entry in Hov. cbn [key mark validator] in Hov.
  assert (D : message_duration (YDict m) = Ok us /\ us mod 1000 = 0).
  { unfold message_duration.
    destruct (lookup CONF_DURATION m) as [v|];
      apply bind_Ok in Hov; destruct Hov as (x & Hx & [= ->]);
      apply milliseconds_TimePeriod in Hx;
      destruct Hx as (us' & [= ->] & Hp & Hm).
    - auto.
    - vm_compute in Hp. injection Hp as <-. auto. }
  destruct D as [D M].
  assert (N : 0 <= us).
  { unfold message_duration in D.
    destruct (lookup CONF_DURATION m) as [v|].
    - now apply period_microseconds_nonneg in D.
    - injection D as <-. lia. }
  exists us. eexists. repeat split; try eassumption; reflexivity.
Qed.

(** The calls of [add_offline_message] pass, message by message and in
    the configured order, the configured duration as a whole number of
    milliseconds that is not negative: 10000 for a message without
    duration. *)
Theorem offline_durations_delivered (d : list (string * yaml))
  (code : list statement) :
  compile (YDict d) = Ok code ->
  Forall2 passes_duration (configured_messages d)
    (filter is_offline_call code).
Proof.
  intros H. destruct (compile_settings d code H) as (config & Hv & S).
  destruct S as (id & uart & sk & st & a & n & fe & msgs & dc & cc & pc & calls
                 & _ & _ & _ & _ & _ & _ & NBf & NEf & D & C & P & (_ & O) & F & _ & _
                 & _ & ->).
  assert (E : filter is_offline_call
                ([ NewPvariable id; RegisterComponent;
                   RegisterUartDevice uart;
                   Call "set_sign_type" [MemberOf "betabrite" st];
                   Call "set_address" [StringLiteral a];
                   Call "set_max_files" [fe] ]
                 ++ dc ++ cc ++ pc ++ calls)%list = calls).
  { rewrite !filter_app, (offline_call_is_offline _ _ O).
    block_cases D; block_cases C; block_cases P; reflexivity. }
  rewrite E. clear - F O.
  revert calls O. induction F as [|r m rs ms Hr _ IH]; intros calls O;
    inversion O as [|? s ? ss Hs Hss]; subst; constructor.
  - now apply (offline_call_passes_duration r m).
  - now apply IH.
Qed.

Lemma offline_call_passes_speed (raw : yaml) (msg : value)
  (s : statement) :
  Schema OFFLINE_MESSAGE_SCHEMA raw = Ok msg -> offline_call msg s ->
  passes_speed raw s.
Proof.
  intros H C. apply Schema_Ok in H.
  destruct H as (m & out & -> & -> & _ & Hv).
  destruct (validate_entries_lookup _ _ _ OFFLINE_MESSAGE_SCHEMA_keys Hv
              (Entry CONF_SPEED (Optional (Some (YInt 3))) (int_range 1 5))
              ltac:(in_schema))
    as (ov & Hov & L).
  cbn [key] in L.
  destruct C as (m' & text & color & mode & us & effect & charset & position
                 & speed & speed_exp & [= <-] & _ & _ & _ & _ & _ & _ & _
                 & Ls & NE & ->).
  rewrite Ls in L. subst ov.
  unfold validate_entry in Hov. cbn [key mark validator] in Hov.
  exists m. eexists. exists speed_exp.
  split; [reflexivity|]. split; [reflexivity|]. split; [reflexivity|].
  destruct (lookup CONF_SPEED m) as [v|];
    apply bind_Ok in Hov; destruct Hov as (x & Hx & [= ->]).
  - apply int_range_kept in Hx. destruct Hx as (n & Hn & R & ->). eauto.
  - vm_compute in Hx. injection Hx as <-. exact NE.
Qed.

(** The calls of [add_offline_message] pass, message by message and in
    the configured order, the speed of the message as their last
    argument: the number from 1 to 5 that the written value stands for
    ([true] is passed as it is written), and 3 for a message without
    speed. *)
Theorem offline_speeds_delivered (d : list (string * yaml))
  (code : list statement) :
  compile (YDict d) = Ok code ->
  Forall2 passes_speed (configured_messages d)
    (filter is_offline_call code).
Proof.
  intros H. destruct (compile_settings d code H) as (config & Hv & S).
  destruct S as (id & uart & sk & st & a & n & fe & msgs & dc & cc & pc
                 & calls & _ & _ & _ & _ & _ & _ & _ & _ & D & C & P
                 & (_ & O) & F & _ & _ & _ & ->).
  assert (E : filter is_offline_call
                ([ NewPvariable id; RegisterComponent;
                   RegisterUartDevice uart;
                   Call "set_sign_type" [MemberOf "betabrite" st];
                   Call "set_address" [StringLiteral a];
                   Call "set_max_files" [fe] ]
                 ++ dc ++ cc ++ pc ++ calls)%list = calls).
  { rewrite !filter_app, (offline_call_is_offline _ _ O).
    block_cases D; block_cases C; block_cases P; reflexivity. }
  rewrite E. clear - F O.
  revert calls O. induction F as [|r m rs ms Hr _ IH]; intros calls O;
    inversion O as [|? s ? ss Hs Hss]; subst; constructor.
  - now apply (offline_call_passes_speed r m).
  - now apply IH.
Qed.

(** A configuration with a key that the component does not know is
    refused with a validation error. *)
Theorem unknown_key_rejected (d : list (string * yaml)) (k : string)
  (v : yaml) :
  lookup k d = Some v ->
  ~ In k [ CONF_ID; CONF_SIGN_TYPE; CONF_ADDRESS; CONF_MAX_FILES;
           CONF_DEFAULTS; CONF_OFFLINE_MESSAGES; CONF_CLOCK; CONF_PRIORITY;
           "setup_priority"; CONF_UART_ID ] ->
  compile (YDict d) = Raise (Invalid "extra keys not allowed").
Proof.
  intros L N. unfold compile, Schema.
  assert (K : forallb (fun kv => known_key CONFIG_SCHEMA (fst kv)) d = false).
  { apply not_true_is_false. intros T. rewrite forallb_forall in T.
    specialize (T (k, v) (lookup_In _ _ _ L)). cbn [fst] in T.
    unfold known_key in T. apply existsb_exists in T.
    destruct T as (e & He & E). apply String.eqb_eq in E. subst k.
    apply N. simpl in He.
    repeat (destruct He as [<-|He]; [in_schema|]). contradiction. }
  now rewrite K.
Qed.

Lemma priority_entry (rp : list (string * yaml))
  (p : list (string * value)) (k : string) (dv : yaml) (us : Z) :
  validate_entries PRIORITY_SCHEMA rp = Ok p ->
  In (Entry k (Optional (Some dv)) positive_time_period_milliseconds)
    PRIORITY_SCHEMA ->
  lookup k p = Some (TimePeriod TimePeriodMilliseconds us) ->
  period_microseconds
    (match lookup k rp with Some v => v | None => dv end) = Ok us /\
  us mod 1000 = 0.
Proof.
  intros Hp Hin L.
  destruct (validate_entries_lookup _ _ _ PRIORITY_SCHEMA_keys Hp _ Hin)
    as (ov & Hov & Lo).
  cbn [key] in Lo. rewrite L in Lo. subst ov.
  unfold validate_entry in Hov. cbn [key mark validator] in Hov.
  destruct (lookup k rp) as [fv|];
    apply bind_Ok in Hov; destruct Hov as (x & Hx & [= ->]);
    apply milliseconds_TimePeriod in Hx;
    destruct Hx as (us' & [= <-] & Hx & Hm); auto.
Qed.

(** When the [priority] block is left out no priority setter is called;
    when it is written, the warning duration and the default duration
    reach the component in whole milliseconds, 2500 and 25000 for a key
    that is not written. *)
Theorem priority_settings_delivered (d : list (string * yaml))
  (code : list statement) :
  compile (YDict d) = Ok code ->
  (lookup CONF_PRIORITY d = None ->
     forall m, In m priority_setters -> delivered m code = []) /\
  (lookup CONF_PRIORITY d <> None ->
     exists warning default,
       priority_period d CONF_WARNING_DURATION (YStr "2500ms") = Ok warning /\
       priority_period d CONF_DEFAULT_DURATION (YStr "25s") = Ok default /\
       warning mod 1000 = 0 /\ default mod 1000 = 0 /\
       map (fun m => delivered m code) priority_setters
       = [ [IntLiteral (warning / 1000)]; [IntLiteral (default / 1000)] ]) /\
  (lookup CONF_PRIORITY d = Some (YDict []) ->
     map (fun m => delivered m code) priority_setters
     = [ [IntLiteral 2500]; [IntLiteral 25000] ]).
Proof.
  intros H. destruct (compile_settings d code H) as (config & Hv & S).
  destruct S as (id & uart & sk & st & a & n & fe & msgs & dc & cc & pc & calls
                 & _ & _ & _ & _ & _ & _ & NBf & NEf & D & C & P & (_ & O) & _ & _ & _
                 & PP & ->).
  assert (W : lookup CONF_PRIORITY d <> None ->
     exists warning default,
       priority_period d CONF_WARNING_DURATION (YStr "2500ms") = Ok warning /\
       priority_period d CONF_DEFAULT_DURATION (YStr "25s") = Ok default /\
       warning mod 1000 = 0 /\ default mod 1000 = 0 /\
       map (fun m => delivered m
                       ([ NewPvariable id; RegisterComponent;
                          RegisterUartDevice uart;
                          Call "set_sign_type" [MemberOf "betabrite" st];
                          Call "set_address" [StringLiteral a];
                          Call "set_max_files" [fe] ]
                        ++ dc ++ cc ++ pc ++ calls)%list) priority_setters
       = [ [IntLiteral (warning / 1000)]; [IntLiteral (default / 1000)] ]).
  { intros L.
    destruct P as [(E & _) | (p & warning & default & Ep & Lw & Ld & ->)];
      [exfalso; apply L; now apply PP|].
    destruct (lookup CONF_PRIORITY d) as [v|] eqn:Lv; [|now destruct L].
    destruct (validated_supplied CONFIG_SCHEMA d config
                (Entry CONF_PRIORITY (Optional None) (Schema PRIORITY_SCHEMA))
                v CONFIG_SCHEMA_keys Hv ltac:(in_schema) Lv)
      as (x & Hx & Lx).
    cbn [key validator] in Hx, Lx. rewrite Ep in Lx. injection Lx as <-.
    apply Schema_Ok in Hx.
    destruct Hx as (rp & p' & -> & [= <-] & _ & Hp).
    destruct (priority_entry rp p CONF_WARNING_DURATION (YStr "2500ms")
                warning Hp ltac:(in_schema) Lw) as (Pw & Mw).
    destruct (priority_entry rp p CONF_DEFAULT_DURATION (YStr "25s")
                default Hp ltac:(in_schema) Ld) as (Pd & Md).
    exists warning, default. unfold priority_period. rewrite Lv.
    split; [exact Pw|]. split; [exact Pd|].
    split; [exact Mw|]. split; [exact Md|].
    unfold priority_setters. cbn [map].
    rewrite !delivered_app, !(delivered_offline _ _ _ O).
    block_cases D; block_cases C; reflexivity. }
  split; [|split].
  - intros L m Hm. apply PP in L.
    destruct P as [(_ & ->) | (p & ? & ? & E & _)];
      [|rewrite L in E; discriminate E].
    rewrite !delivered_app, (delivered_offline _ _ _ O).
    block_cases D; block_cases C;
      simpl in Hm;
      repeat (destruct Hm as [<-|Hm]; [reflexivity|]); contradiction.
  - exact W.
  - intros L.
    destruct W as (warning & default & Pw & Pd & _ & _ & E);
      [rewrite L; discriminate|].
    unfold priority_period in Pw, Pd. rewrite L in Pw, Pd.
    vm_compute in Pw, Pd. injection Pw as <-. injection Pd as <-.
    exact E.
Qed.

End Delivered.

(* ================================================================== *)
(** * The actions *)

Section Actions.
Import cv cg betabrite.

Ltac nodup_keys := repeat constructor; simpl; intuition discriminate.

Lemma DISPLAY_MESSAGE_ACTION_SCHEMA_keys :
  NoDup (map key DISPLAY_MESSAGE_ACTION_SCHEMA).
Proof. nodup_keys. Qed.

Lemma templatable_text (v : yaml) (x : value) :
  cv.templatable string_value v = Ok x ->
  exists e, cg.templatable x "std::string" = Ok e /\ text_template v e.
Proof.
  unfold cv.templatable. intros H.
  assert (O : (exists src, v = YLambda src /\ x = Lambda src) \/
              string_value v = Ok x).
  { destruct v; auto. injection H as <-. left. eauto. }
  destruct O as [(src & -> & ->) | O].
  - eexists. split; [reflexivity | left; eauto].
  - apply string_value_Str in O. destruct O as (s & -> & Hs).
    exists (StringLiteral s). split; [reflexivity|].
    right. exists s. split; [exact Hs | reflexivity].
Qed.

Lemma templatable_option (options : list string) (v : yaml) (x : value) :
  closed_options options = true ->
  cv.templatable (one_of options true) v = Ok x ->
  exists e, cg.templatable x "std::string" = Ok e /\ template_of options v e.
Proof.
  intros Hc H. unfold cv.templatable in H.
  assert (O : (exists src, v = YLambda src /\ x = Lambda src) \/
              one_of options true v = Ok x).
  { destruct v; auto. injection H as <-. left. eauto. }
  destruct O as [(src & -> & ->) | O].
  - eexists. split; [reflexivity | left; eauto].
  - assert (A : accepted (one_of options true v))
      by (rewrite O; apply accepted_Ok).
    apply (one_of_lower_iff _ _ Hc) in A. destruct A as (s & e & -> & _ & _).
    apply one_of_lower_result in O. destruct O as (s' & Es & Hin & ->).
    simpl in Es. injection Es as <-.
    eexists. split; [reflexivity | right; eauto].
Qed.

(** The block [if key in config: cg.add(var.method(template))]. *)
Lemma optional_template_emits (config : list (string * value))
  (d : list (string * yaml)) (k method : string) (options : list string)
  (ov : option value) :
  closed_options options = true ->
  validate_entry
    (Entry k (Optional None) (cv.templatable (one_of options true))) d
  = Ok ov ->
  lookup k config = ov ->
  exists out,
    emits (if contains k config then
             t <~ lift (x <- getitem config k ;;
                        cg.templatable x "std::string") ;;
             add (Call method [t])
           else ret tt) out /\
    optional_call method options (lookup k d) out.
Proof.
  intros Hc H L. apply optional_entry in H. unfold contains. rewrite L.
  destruct H as [(Ld & ->) | (v & x & Ld & -> & H)]; rewrite Ld.
  - exists []. split; [apply emits_ret | reflexivity].
  - destruct (templatable_option options v x Hc H) as (e & He & T).
    exists [Call method [e]]. split.
    + eapply emits_lift; [|apply emits_add].
      unfold getitem. rewrite L. exact He.
    + exists e. auto.
Qed.

(** The [betabrite.display] action always sets the message, and sets the
    color, the mode and the effect exactly when they are configured, in
    that order; each is a lambda or an option of its closed list in lower
    case. *)
Theorem display_action_code (d : list (string * yaml)) (action_id : value)
  (code : list statement) :
  compile_action DISPLAY_MESSAGE_ACTION_SCHEMA
    betabrite_display_action_to_code (YDict d) action_id = Ok code ->
  exists tv text colors modes effects,
    lookup CONF_TEXT d = Some tv /\ text_template tv text /\
    optional_call "set_color" COLORS (lookup CONF_COLOR d) colors /\
    optional_call "set_mode" MODES (lookup CONF_MODE d) modes /\
    optional_call "set_effect" EFFECTS (lookup CONF_EFFECT d) effects /\
    code = ([ NewPvariable action_id; Call "set_message" [text] ]
            ++ colors ++ modes ++ effects)%list.
Proof.
  intros H. unfold compile_action in H.
  apply bind_Ok in H. destruct H as (cfg & Hs & H).
  apply Schema_Ok in Hs. destruct Hs as (d' & config & [= <-] & -> & _ & Hv).
  pose proof DISPLAY_MESSAGE_ACTION_SCHEMA_keys as ND.
  destruct (validate_entries_lookup _ _ _ ND Hv
              (Entry CONF_ID GenerateID use_id) ltac:(in_schema))
    as (o1 & H1 & L1).
  apply validate_entry_Ok in H1. cbn [key mark validator] in H1, L1.
  destruct H1 as [(_ & _ & H1) | (v1 & x1 & -> & _ & _)]; [discriminate H1|].
  destruct (validate_entries_lookup _ _ _ ND Hv
              (Entry CONF_TEXT Required (cv.templatable string_value))
              ltac:(in_schema)) as (o2 & H2 & L2).
  cbn [key] in L2. unfold validate_entry in H2. cbn [key mark validator] in H2.
  destruct (lookup CONF_TEXT d) as [tv|] eqn:Lt; [|discriminate H2].
  apply bind_Ok in H2. destruct H2 as (x2 & X2 & [= <-]).
  destruct (templatable_text tv x2 X2) as (text & T & Tt).
  destruct (validate_entries_lookup _ _ _ ND Hv
              (Entry CONF_COLOR (Optional None)
                 (cv.templatable (one_of COLORS true))) ltac:(in_schema))
    as (o3 & H3 & L3).
  destruct (optional_template_emits config d CONF_COLOR "set_color" COLORS
              o3 eq_refl H3 L3) as (colors & E3 & C3).
  destruct (validate_entries_lookup _ _ _ ND Hv
              (Entry CONF_MODE (Optional None)
                 (cv.templatable (one_of MODES true))) ltac:(in_schema))
    as (o4 & H4 & L4).
  destruct (optional_template_emits config d CONF_MODE "set_mode" MODES
              o4 eq_refl H4 L4) as (modes & E4 & C4).
  destruct (validate_entries_lookup _ _ _ ND Hv
              (Entry CONF_EFFECT (Optional None)
                 (cv.templatable (one_of EFFECTS true))) ltac:(in_schema))
    as (o5 & H5 & L5).
  destruct (optional_template_emits config d CONF_EFFECT "set_effect" EFFECTS
              o5 eq_refl H5 L5) as (effects & E5 & C5).
  assert (G : generated (betabrite_display_action_to_code config action_id)
              = Ok ([ NewPvariable action_id ] ++ [ Call "set_message" [text] ]
                    ++ colors ++ modes ++ effects)%list).
  { apply generated_emits. unfold betabrite_display_action_to_code.
    eapply emits_lift; [unfold getitem; rewrite L1; reflexivity|].
    eapply emits_seq; [apply emits_add|].
    eapply emits_lift; [unfold getitem; rewrite L2; exact T|].
    eapply emits_seq; [apply emits_add|].
    eapply emits_seq; [exact E3|].
    eapply emits_seq; [exact E4|]. exact E5. }
  rewrite G in H. injection H as <-.
  exists tv, text, colors, modes, effects. repeat split; assumption.
Qed.



Lemma seconds_TimePeriod (v : yaml) (r : value) :
  positive_time_period_seconds v = Ok r ->
  exists us, r = TimePeriod TimePeriodSeconds us /\
             period_microseconds v = Ok us /\ us mod 1000000 = 0.
Proof.
  unfold positive_time_period_seconds, period_microseconds.
  intros H. apply bind_Ok in H. destruct H as (p & Hp & H).
  unfold time_period_in_seconds_ in H.
  destruct (given_and_not_zero (microseconds_of p)) eqn:E1; [discriminate|].
  destruct (given_and_not_zero (milliseconds_of p)) eqn:E2; [discriminate|].
  injection H as <-. exists (total_microseconds p). rewrite Hp.
  split; [reflexivity|]. split; [reflexivity|]. now apply whole_seconds.
Qed.

Lemma period_microseconds_string (v : yaml) (us : Z) :
  period_microseconds v = Ok us -> exists s, v = YStr s.
Proof.
  unfold period_microseconds, positive_time_period, time_period_str_unit.
  intros H.
  apply bind_Ok in H. destruct H as (p & H & _).
  apply bind_Ok in H. destruct H as (q & H & _).
  destruct v; try discriminate H. eauto.
Qed.

(** The duration that validation leaves for the priority action. *)
Lemma templatable_seconds (v : yaml) (x : value) :
  cv.templatable positive_time_period_seconds v = Ok x ->
  (exists src, v = YLambda src /\ x = Lambda src) \/
  (exists us, (forall src, v <> YLambda src) /\
              period_microseconds v = Ok us /\ us mod 1000000 = 0 /\
              x = TimePeriod TimePeriodSeconds us).
Proof.
  unfold cv.templatable. intros H.
  destruct v as [| | |s| | |src];
    try (apply seconds_TimePeriod in H; destruct H as (us & -> & P & M);
         apply period_microseconds_string in P as S;
         destruct S as (s' & S); discriminate S).
  - apply seconds_TimePeriod in H. destruct H as (us & -> & P & M).
    right. exists us. repeat split; try assumption. discriminate.
  - injection H as <-. left. eauto.
Qed.

(** The code of an accepted [betabrite.priority] action. *)
Lemma priority_action_shape (d : list (string * yaml)) (action_id : value)
  (code : list statement) :
  compile_priority_action (YDict d) action_id = Ok code ->
  exists config text x duration,
    validate_entries PRIORITY_MESSAGE_ACTION_SCHEMA d = Ok config /\
    lookup CONF_DURATION config = Some x /\
    cg.templatable x "uint32_t" = Ok duration /\
    code = [ NewPvariable action_id; Call "set_message" [text];
             Call "set_duration" [duration] ].
Proof.
  intros H. unfold compile_priority_action in H.
  apply bind_Ok in H. destruct H as (cfg & Hs & H).
  apply Schema_Ok in Hs. destruct Hs as (d' & config & [= <-] & -> & _ & Hv).
  pose proof PRIORITY_MESSAGE_ACTION_SCHEMA_keys as ND.
  destruct (validate_entries_lookup _ _ _ ND Hv
              (Entry CONF_ID GenerateID use_id) ltac:(in_schema))
    as (o1 & H1 & L1).
  apply validate_entry_Ok in H1. cbn [key mark validator] in H1, L1.
  destruct H1 as [(_ & _ & H1) | (v1 & x1 & -> & _ & _)]; [discriminate H1|].
  destruct (validate_entries_lookup _ _ _ ND Hv
              (Entry CONF_TEXT Required (cv.templatable string_value))
              ltac:(in_schema)) as (o2 & H2 & L2).
  apply validate_entry_Ok in H2. cbn [key mark validator] in H2, L2.
  destruct H2 as [(_ & _ & H2) | (v2 & x2 & -> & X2 & _)]; [discriminate H2|].
  destruct (templatable_text v2 x2 X2) as (text & T & _).
  destruct (validate_entries_lookup _ _ _ ND Hv
              (Entry CONF_DURATION (Optional (Some (YStr "25s")))
                 (cv.templatable positive_time_period_seconds))
              ltac:(in_schema)) as (o3 & H3 & L3).
  apply validate_entry_Ok in H3. cbn [key mark validator] in H3, L3.
  destruct H3 as [(_ & _ & H3) | (v3 & x3 & -> & X3 & _)]; [discriminate H3|].
  assert (D : exists duration, cg.templatable x3 "uint32_t" = Ok duration).
  { apply templatable_seconds in X3.
    destruct X3 as [(src & _ & ->) | (us & _ & _ & _ & ->)];
      eexists; reflexivity. }
  destruct D as (duration & D).
  exists config, text, x3, duration.
  split; [exact Hv|]. split; [exact L3|]. split; [exact D|].
  assert (G : generated (betabrite_priority_action_to_code config action_id)
              = Ok ([ NewPvariable action_id ] ++ [ Call "set_message" [text] ]
                    ++ [ Call "set_duration" [duration] ])%list).
  { apply generated_emits. unfold betabrite_priority_action_to_code.
    eapply emits_lift; [unfold getitem; rewrite L1; reflexivity|].
    eapply emits_seq; [apply emits_add|].
    eapply emits_lift; [unfold getitem; rewrite L2; exact T|].
    eapply emits_seq; [apply emits_add|].
    eapply emits_lift; [unfold getitem; rewrite L3; exact D|].
    apply emits_add. }
  rewrite G in H. now injection H as <-.
Qed.

(** A duration written for the [betabrite.priority] action reaches
    [set_duration] in whole seconds; a lambda is handed over as it is; a
    period that is not a whole number of seconds is refused. *)
Theorem priority_action_duration_seconds (d : list (string * yaml))
  (v : yaml) (action_id : value) :
  lookup CONF_DURATION d = Some v ->
  (forall src code,
     v = YLambda src ->
     compile_priority_action (YDict d) action_id = Ok code ->
     delivered "set_duration" code = [LambdaExpression src "uint32_t"]) /\
  (forall code,
     (forall src, v <> YLambda src) ->
     compile_priority_action (YDict d) action_id = Ok code ->
     exists us, period_microseconds v = Ok us /\ us mod 1000000 = 0 /\
       delivered "set_duration" code = [IntLiteral (us / 1000000)]) /\
  (forall us,
     period_microseconds v = Ok us -> us mod 1000000 <> 0 ->
     ~ accepted (compile_priority_action (YDict d) action_id)).
Proof.
  intros L.
  assert (V : forall code,
             compile_priority_action (YDict d) action_id = Ok code ->
             exists x duration,
               cv.templatable positive_time_period_seconds v = Ok x /\
               cg.templatable x "uint32_t" = Ok duration /\
               delivered "set_duration" code = [duration]).
  { intros code H.
    destruct (priority_action_shape d action_id code H)
      as (config & text & x & duration & Hv & Lx & D & ->).
    destruct (validated_supplied PRIORITY_MESSAGE_ACTION_SCHEMA d config
                (Entry CONF_DURATION (Optional (Some (YStr "25s")))
                   (cv.templatable positive_time_period_seconds))
                v PRIORITY_MESSAGE_ACTION_SCHEMA_keys Hv ltac:(in_schema) L)
      as (x' & Hx & Lx').
    cbn [key validator] in Hx, Lx'. rewrite Lx in Lx'. injection Lx' as <-.
    exists x, duration. repeat split; try assumption. }
  split; [|split].
  - intros src code -> H. destruct (V code H) as (x & duration & Hx & D & E).
    simpl in Hx. injection Hx as <-. simpl in D. injection D as <-.
    exact E.
  - intros code N H. destruct (V code H) as (x & duration & Hx & D & E).
    apply templatable_seconds in Hx.
    destruct Hx as [(src & -> & _) | (us & _ & P & M & ->)];
      [now destruct (N src)|].
    simpl in D. injection D as <-. exists us. auto.
  - intros us P M (code & H). destruct (V code H) as (x & duration & Hx & _).
    apply templatable_seconds in Hx.
    destruct Hx as [(src & -> & _) | (us' & _ & P' & M' & _)].
    + apply period_microseconds_string in P. destruct P as (s & E).
      discriminate E.
    + rewrite P in P'. injection P' as <-. contradiction.
Qed.

Lemma Forall2_In_l {A B} (P : A -> B -> Prop) (l : list A) (l' : list B)
  (x : A) :
  Forall2 P l l' -> In x l -> exists y, P x y.
Proof.
  induction 1 as [|a b l l' Hab _ IH]; intros Hin; [contradiction|].
  destruct Hin as [<-|Hin]; eauto.
Qed.

(** A text is required: an offline message, a [betabrite.display] action
    or a [betabrite.priority] action without text is refused, and so is
    a configuration with an offline message that has no text. *)
Theorem text_required :
  (forall es d,
     In es text_schemas -> lookup CONF_TEXT d = None ->
     ~ accepted (Schema es (YDict d))) /\
  (forall d m,
     In (YDict m) (configured_messages d) -> lookup CONF_TEXT m = None ->
     ~ accepted (compile (YDict d))).
Proof.
  assert (T : forall es d,
             In es text_schemas -> lookup CONF_TEXT d = None ->
             ~ accepted (Schema es (YDict d))).
  { intros es d Hes L A. apply Schema_accepted_iff in A. destruct A as [_ A].
    assert (E : exists f, In (Entry CONF_TEXT Required f) es).
    { simpl in Hes. destruct Hes as [<-|[<-|[<-|[]]]];
        eexists; in_schema. }
    destruct E as (f & E). specialize (A _ E).
    unfold validate_entry in A. cbn [key mark] in A. rewrite L in A.
    now apply not_accepted_Raise in A. }
  split; [exact T|].
  intros d m Hin L A. apply compile_accepted in A.
  unfold configured_messages in Hin.
  destruct (lookup CONF_OFFLINE_MESSAGES d) as [v|] eqn:Lo; [|contradiction].
  pose proof (Schema_supplied CONFIG_SCHEMA d
                (Entry CONF_OFFLINE_MESSAGES (Optional None)
                   (ensure_list (Schema OFFLINE_MESSAGE_SCHEMA)))
                v A ltac:(in_schema) Lo) as (r & Hr).
  cbn [validator] in Hr. apply ensure_list_Ok in Hr.
  destruct Hr as (l & _ & F).
  destruct (Forall2_In_l _ _ _ _ F Hin) as (y & Hy).
  apply (T OFFLINE_MESSAGE_SCHEMA m); [simpl; auto | exact L|].
  now exists y.
Qed.

(** The actions [betabrite.clear], [betabrite.demo],
    [betabrite.cancel_priority] and [betabrite.clock] take no parameter:
    they are accepted with no key but [id], and generate nothing but
    their own variable. *)
Theorem parameterless_action_code
  (schema : list entry)
  (action_to_code : list (string * value) -> value -> gen unit)
  (d : list (string * yaml)) (action_id : value) :
  In (schema, action_to_code) parameterless_actions ->
  (forall code,
     compile_action schema action_to_code (YDict d) action_id = Ok code ->
     code = [NewPvariable action_id] /\
     forall k v, lookup k d = Some v -> k = CONF_ID) /\
  (forall k v,
     lookup k d = Some v -> k <> CONF_ID ->
     compile_action schema action_to_code (YDict d) action_id
     = Raise (Invalid "extra keys not allowed")) /\
  compile_action schema action_to_code (YDict []) action_id
  = Ok [NewPvariable action_id].
Proof.
  intros Hin.
  assert (E : schema = [ Entry CONF_ID GenerateID use_id ] /\
              action_to_code
              = (fun config id =>
                   parent <~ lift (getitem config CONF_ID) ;;
                   add (NewPvariable id))).
  { simpl in Hin.
    destruct Hin as [E|[E|[E|[E|[]]]]]; injection E as <- <-;
      split; reflexivity. }
  destruct E as [-> ->].
  assert (K : forall k v,
             lookup k d = Some v -> k <> CONF_ID ->
             forallb (fun kv => known_key [Entry CONF_ID GenerateID use_id]
                                  (fst kv)) d = false).
  { intros k v L N. apply not_true_is_false. intros T.
    rewrite forallb_forall in T.
    specialize (T (k, v) (lookup_In _ _ _ L)). cbn [fst] in T.
    unfold known_key in T. simpl in T. rewrite orb_false_r in T.
    apply String.eqb_eq in T. contradiction. }
  split; [|split].
  - intros code H. unfold compile_action in H.
    apply bind_Ok in H. destruct H as (cfg & Hs & H).
    apply Schema_Ok in Hs.
    destruct Hs as (d' & config & [= <-] & -> & Hk & Hv).
    split.
    + simpl in Hv. apply bind_Ok in Hv. destruct Hv as (ov & Hov & Hv).
      injection Hv as <-.
      apply validate_entry_Ok in Hov. cbn [key mark validator] in Hov.
      destruct Hov as [(_ & _ & Hov) | (v1 & x1 & -> & _ & _)];
        [discriminate Hov|].
      vm_compute in H. now injection H as <-.
    + intros k v L.
      destruct (String.eqb k CONF_ID) eqn:Ek;
        [now apply String.eqb_eq in Ek|].
      apply String.eqb_neq in Ek. rewrite (K k v L Ek) in Hk. discriminate.
  - intros k v L N. unfold compile_action, Schema.
    now rewrite (K k v L N).
  - reflexivity.
Qed.

End Actions.

(* ================================================================== *)
(** * The fetches of the feed utility *)

Section Fetches.
Import updateFeed.

Lemma sbind_Ok {S A B} (m : stateful S A) (k : A -> stateful S B) (s : S)
  (r : B * S) :
  sbind m k s = Ok r -> exists a s', m s = Ok (a, s') /\ k a s' = Ok r.
Proof.
  unfold sbind. destruct (m s) as [[a s']|e]; [eauto | discriminate].
Qed.

Lemma lift_Ok {S A} (r : result A) (s : S) (a : A) (s' : S) :
  lift r s = Ok (a, s') -> r = Ok a /\ s' = s.
Proof.
  unfold lift. destruct r; [|discriminate]. intros [= -> ->]. auto.
Qed.

Lemma requests_get_Ok (url : string) (w : world) (r : response) (w' : world) :
  requests_get url w = Ok (r, w') ->
  responses w = r :: responses w' /\
  requested w' = (requested w ++ [url])%list /\
  entropy w' = entropy w /\ same_client w w'.
Proof.
  unfold requests_get. destruct (responses w) as [|r0 rs] eqn:E;
    [discriminate|].
  intros [= -> <-]. cbn. unfold same_client. cbn. auto 10.
Qed.

Lemma getFacts_loop_Ok (pending : list response) :
  forall c facts asked facts' rest asked',
    (c <= NUM_STORIES)%nat ->
    getFacts_loop pending c facts asked = Ok (facts', rest, asked') ->
    exists used new,
      pending = (used ++ rest)%list /\
      facts' = (facts ++ new)%list /\
      mapM fact_of (filter response_ok used) = Ok new /\
      (c + List.length new = NUM_STORIES)%nat /\
      asked' = (asked ++ repeat facts_url (List.length used))%list.
Proof.
  induction pending as [|r pending IH];
    intros c facts asked facts' rest asked' Hc H; cbn [getFacts_loop] in H.
  - destruct (c <? NUM_STORIES)%nat eqn:E; [discriminate|].
    apply Nat.ltb_ge in E. injection H as <- <- <-.
    exists [], []. cbn. rewrite !app_nil_r.
    repeat split; try reflexivity. lia.
  - destruct (c <? NUM_STORIES)%nat eqn:E.
    + apply Nat.ltb_lt in E.
      fold facts_url in H. fold (response_ok r) in H.
      destruct (response_ok r) eqn:Hok.
      * fold (fact_of r) in H. apply bind_Ok in H.
        destruct H as (fact & Hf & H).
        apply IH in H; [|lia].
        destruct H as (used & new & -> & -> & Hm & Hn & ->).
        exists (r :: used), (fact :: new). cbn [filter app List.length repeat].
        rewrite Hok. cbn [mapM]. rewrite Hf, Hm. cbn [Py.bind].
        rewrite <- !app_assoc. cbn [app List.length].
        repeat split; try reflexivity. lia.
      * apply IH in H; [|lia].
        destruct H as (used & new & -> & -> & Hm & Hn & ->).
        exists (r :: used), new. cbn [filter app List.length repeat].
        rewrite Hok. rewrite <- !app_assoc. cbn [app].
        repeat split; try reflexivity; assumption.
    + apply Nat.ltb_ge in E. injection H as <- <- <-.
      exists [], []. cbn. rewrite !app_nil_r.
      repeat split; try reflexivity. lia.
Qed.

(** Whenever [getFacts] returns, its result is the JSON list of exactly
    [NUM_STORIES] facts: those of the first five OK responses, in order. A
    response that is not OK is skipped and costs one more request; the
    client is left as it was. *)
Theorem getFacts_five (w : world) (m : message) (w' : world) :
  getFacts w = Ok (m, w') ->
  exists used facts,
    responses w = (used ++ responses w')%list /\
    mapM fact_of (filter response_ok used) = Ok facts /\
    List.length facts = NUM_STORIES /\
    m = json_dumps (JArr facts) /\
    requested w'
    = (requested w ++ repeat facts_url (List.length used))%list /\
    same_client w w'.
Proof.
  unfold getFacts. intros H.
  destruct (getFacts_loop (responses w) 0 [] (requested w))
    as [[[facts rest] asked]|e] eqn:L; [|discriminate].
  injection H as <- <-.
  apply getFacts_loop_Ok in L; [|unfold NUM_STORIES; lia].
  destruct L as (used & new & Hr & -> & Hm & Hn & ->).
  exists used, new. cbn. unfold same_client. cbn.
  repeat split; try assumption; reflexivity.
Qed.

(** An OK response without a fact is not skipped: [getFacts] raises what
    reading the fact raises, whatever responses that are not OK came
    before it. *)
Theorem getFacts_malformed (w : world) (skipped : list response)
  (r : response) (rest : list response) (e : exn) :
  responses w = (skipped ++ r :: rest)%list ->
  Forall (fun x => response_ok x = false) skipped ->
  response_ok r = true -> fact_of r = Raise e ->
  getFacts w = Raise e.
Proof.
  intros Hr Hs Hok Hf. unfold getFacts. rewrite Hr. clear Hr.
  assert (L : forall asked,
             getFacts_loop (skipped ++ r :: rest) 0 [] asked = Raise e).
  { induction Hs as [|x skipped Hx _ IH]; intros asked;
      cbn [app getFacts_loop];
      change (0 <? NUM_STORIES)%nat with true; cbv iota.
    - fold (response_ok r). rewrite Hok. fold (fact_of r). now rewrite Hf.
    - fold (response_ok x). rewrite Hx. apply IH. }
  now rewrite L.
Qed.

Lemma mapM_length {A B} (f : A -> result B) (l : list A) (l' : list B) :
  mapM f l = Ok l' -> List.length l' = List.length l.
Proof.
  intros H. apply mapM_Forall2 in H.
  symmetry. exact (Forall2_length H).
Qed.

Lemma getFacts_loop_returns (front : list response) :
  forall c facts asked r rest new,
    response_ok r = true ->
    mapM fact_of (filter response_ok (front ++ [r])) = Ok new ->
    (c + List.length new = NUM_STORIES)%nat ->
    getFacts_loop ((front ++ [r]) ++ rest) c facts asked
    = Ok ((facts ++ new)%list, rest,
          (asked ++ repeat facts_url (S (List.length front)))%list).
Proof.
  induction front as [|x front IH]; intros c facts asked r rest new Hok Hm Hn.
  - cbn [app filter] in Hm. rewrite Hok in Hm. cbn [mapM] in Hm.
    apply bind_Ok in Hm. destruct Hm as (fact & Hf & Hm).
    injection Hm as <-. cbn [List.length] in Hn.
    cbn [app getFacts_loop List.length repeat].
    replace (c <? NUM_STORIES)%nat with true
      by (symmetry; apply Nat.ltb_lt; lia).
    fold (response_ok r). rewrite Hok. fold (fact_of r). rewrite Hf.
    cbn [Py.bind]. fold facts_url.
    destruct rest as [|y rest]; cbn [getFacts_loop];
      replace (c + 1 <? NUM_STORIES)%nat with false
        by (symmetry; apply Nat.ltb_ge; lia);
      reflexivity.
  - assert (Hlt : (c < NUM_STORIES)%nat).
    { pose proof (mapM_length _ _ _ Hm) as L.
      cbn [app filter] in L. rewrite filter_app in L. cbn [filter] in L.
      rewrite Hok in L.
      destruct (response_ok x); cbn [List.length] in L;
        rewrite length_app in L; cbn [List.length] in L; lia. }
    cbn [app getFacts_loop List.length].
    replace (c <? NUM_STORIES)%nat with true
      by (symmetry; apply Nat.ltb_lt; lia).
    fold (response_ok x). fold facts_url.
    cbn [app filter] in Hm.
    destruct (response_ok x) eqn:Hx.
    + cbn [mapM] in Hm. apply bind_Ok in Hm. destruct Hm as (fact & Hf & Hm).
      apply bind_Ok in Hm. destruct Hm as (new' & Hm & E).
      injection E as <-. cbn [List.length] in Hn.
      fold (fact_of x). rewrite Hf. cbn [Py.bind].
      rewrite (IH (c + 1)%nat _ _ r rest new' Hok Hm) by lia.
      rewrite <- !app_assoc. reflexivity.
    + rewrite (IH c _ _ r rest new Hok Hm Hn).
      rewrite <- !app_assoc. reflexivity.
Qed.

(** [getFacts] returns as soon as the fifth OK response is there: when the
    responses up to it carry five facts in all, the result is the JSON list
    of those facts, one request was made per response consumed, and the
    responses after the fifth OK one are left unread. *)
Theorem getFacts_returns (w : world) (front : list response) (r : response)
  (rest : list response) (facts : list json) :
  responses w = (front ++ r :: rest)%list ->
  response_ok r = true ->
  mapM fact_of (filter response_ok (front ++ [r])) = Ok facts ->
  List.length facts = NUM_STORIES ->
  getFacts w
  = Ok (json_dumps (JArr facts),
        World rest
          (requested w ++ repeat facts_url (S (List.length front)))%list
          (entropy w) (broker w) (connected w) (calls w) (printed w)).
Proof.
  intros Hr Hok Hm Hn. unfold getFacts. rewrite Hr.
  replace (front ++ r :: rest)%list with ((front ++ [r]) ++ rest)%list
    by (rewrite <- app_assoc; reflexivity).
  rewrite (getFacts_loop_returns front 0 [] (requested w) r rest facts Hok Hm)
    by exact Hn.
  reflexivity.
Qed.

Lemma replace_newlines_length (s : string) :
  String.length (replace_newlines s) = String.length s.
Proof. induction s as [|c s IH]; simpl; congruence. Qed.

Lemma replace_newlines_clean (s : string) :
  has_newline (replace_newlines s) = false.
Proof.
  induction s as [|c s IH]; simpl; [reflexivity|].
  rewrite IH, orb_false_r.
  destruct (Ascii.eqb c (ascii_of_nat 10)) eqn:E; [reflexivity | exact E].
Qed.

Lemma replace_newlines_id (s : string) :
  has_newline s = false -> replace_newlines s = s.
Proof.
  induction s as [|c s IH]; simpl; [reflexivity|].
  intros H. apply orb_false_iff in H. destruct H as [Hc Hs].
  rewrite Hc. now rewrite IH.
Qed.

(** [getJokes] makes one request, to [JOKE_API], and returns one text per
    element of the [jokes] list of the answer, in the order of the answer:
    the [joke] of the element with each line break replaced by one space,
    so of the same length, without a line break, and unchanged when it had
    none. *)
Theorem getJokes_jokes (w : world) (jokes : list string) (w' : world) :
  getJokes w = Ok (jokes, w') ->
  exists r answer,
    responses w = r :: responses w' /\
    requested w' = (requested w ++ [JOKE_API])%list /\
    same_client w w' /\
    json_of r = Ok answer /\
    Forall (fun text => has_newline text = false) jokes /\
    forall l, field answer "jokes" = Ok (JArr l) ->
      Forall2 (fun joke text =>
                 exists s, field joke "joke" = Ok (JStr s) /\
                           text = replace_newlines s /\
                           String.length text = String.length s /\
                           (has_newline s = false -> text = s))
        l jokes.
Proof.
  unfold getJokes. intros H.
  apply sbind_Ok in H. destruct H as (r & w1 & Hg & H).
  apply requests_get_Ok in Hg. destruct Hg as (Hr & Hq & _ & Hc).
  apply lift_Ok in H. destruct H as [H ->].
  apply bind_Ok in H. destruct H as (answer & Ha & H).
  apply bind_Ok in H. destruct H as (l & Hl & H).
  exists r, answer.
  split; [exact Hr|]. split; [exact Hq|]. split; [exact Hc|].
  split; [exact Ha|]. split.
  - destruct l as [| | | [|c s] | l | [|p d]]; try discriminate;
      try (injection H as <-; constructor).
    apply mapM_Forall2 in H. clear Hl.
    induction H as [|joke text l jokes Hj _ IH]; [constructor|].
    constructor; [|exact IH].
    apply bind_Ok in Hj. destruct Hj as (j & _ & Hj).
    destruct j; try discriminate. injection Hj as <-.
    apply replace_newlines_clean.
  - intros l0 Hl0. rewrite Hl in Hl0. injection Hl0 as ->.
    apply mapM_Forall2 in H. clear Hl.
    induction H as [|joke text l jokes Hj _ IH]; [constructor|].
    constructor; [|exact IH].
    apply bind_Ok in Hj. destruct Hj as (j & Hf & Hj).
    destruct j as [| | | s | |]; try discriminate. injection Hj as <-.
    exists s. repeat split.
    + exact Hf.
    + apply replace_newlines_length.
    + apply replace_newlines_id.
Qed.

(** The error answer of the joke service is a JSON object without [jokes]:
    on it [getJokes] raises [KeyError]. The status code of the answer is
    never looked at: the result is the same under any other code. *)
Theorem getJokes_error_answer (w : world) (r : response)
  (rs : list response) (d : list (string * json)) :
  responses w = r :: rs -> json_of r = Ok (JObj d) ->
  lookup "jokes" d = None ->
  getJokes w = Raise (KeyError "jokes") /\
  forall code,
    getJokes (World (Response code (content r) :: rs) (requested w)
                (entropy w) (broker w) (connected w) (calls w) (printed w))
    = getJokes w.
Proof.
  intros Hr Hj Hl. split.
  - unfold getJokes, sbind, requests_get. rewrite Hr. unfold lift.
    rewrite Hj. cbn [Py.bind field]. unfold getitem. now rewrite Hl.
  - intros code. unfold getJokes, sbind, requests_get. rewrite Hr.
    reflexivity.
Qed.

Lemma same_client_refl (w : world) : same_client w w.
Proof. unfold same_client. auto. Qed.

Lemma same_client_trans (w1 w2 w3 : world) :
  same_client w1 w2 -> same_client w2 w3 -> same_client w1 w3.
Proof.
  unfold same_client. intros (A & B & C & D) (A' & B' & C' & D').
  repeat split; congruence.
Qed.

Lemma random_choice_Ok (l : list string) (w : world) (x : string)
  (w' : world) :
  random_choice l w = Ok (x, w') ->
  In x l /\ responses w' = responses w /\ requested w' = requested w /\
  same_client w w'.
Proof.
  unfold random_choice. destruct l as [|y l]; [discriminate|].
  remember (y :: l) as l0 eqn:E0. intros H. injection H as Hx Hw.
  subst x w'. split.
  - apply nth_In. apply Nat.mod_upper_bound. subst l0. discriminate.
  - unfold same_client. cbn [responses requested broker connected calls printed].
    auto 10.
Qed.

(** [getTrivia] makes exactly one request, for a category of
    [triviaCategories], and leaves the client as it was. It returns [None]
    when the answer is not OK, and the first element of the answer, as
    JSON text, when it is. *)
Theorem getTrivia_request (w : world) (m : message) (w' : world) :
  getTrivia w = Ok (m, w') ->
  exists category r,
    In category triviaCategories /\
    responses w = r :: responses w' /\
    requested w' = (requested w ++ [trivia_url category])%list /\
    same_client w w' /\
    (response_ok r = false -> m = MNone) /\
    (response_ok r = true ->
     exists answer x,
       json_of r = Ok answer /\ first answer = Ok x /\ m = json_dumps x).
Proof.
  unfold getTrivia. intros H.
  apply sbind_Ok in H. destruct H as (category & w1 & Hc & H).
  apply random_choice_Ok in Hc. destruct Hc as (Hin & Hr1 & Hq1 & Hs1).
  apply sbind_Ok in H. destruct H as (r & w2 & Hg & H).
  apply requests_get_Ok in Hg. destruct Hg as (Hr2 & Hq2 & _ & Hs2).
  fold (response_ok r) in H.
  exists category, r. split; [exact Hin|].
  destruct (response_ok r) eqn:Hok.
  - apply lift_Ok in H. destruct H as [H ->].
    apply bind_Ok in H. destruct H as (answer & Ha & H).
    apply bind_Ok in H. destruct H as (x & Hx & H). injection H as <-.
    split; [congruence|]. split; [unfold trivia_url; congruence|].
    split; [exact (same_client_trans _ _ _ Hs1 Hs2)|].
    split; [discriminate|]. intros _. now exists answer, x.
  - injection H as <- <-.
    split; [congruence|]. split; [unfold trivia_url; congruence|].
    split; [exact (same_client_trans _ _ _ Hs1 Hs2)|].
    split; [reflexivity | discriminate].
Qed.

Lemma mapM_title_text_cases (l : list element) :
  mapM title_text l = Ok (map title_of l) \/
  (mapM title_text l = Raise AttributeError /\
   exists item, In item l /\ find "title" item = None).
Proof.
  induction l as [|item l IH]; [now left|].
  cbn [mapM map].
  destruct (find "title" item) as [t|] eqn:F.
  - assert (T : title_text item = Ok (title_of item))
      by (unfold title_text, title_of; now rewrite F).
    rewrite T. cbn [Py.bind].
    destruct IH as [-> | (-> & i & Hi & Hn)]; [now left|].
    right. split; [reflexivity|]. exists i. split; [now right | exact Hn].
  - assert (T : title_text item = Raise AttributeError)
      by (unfold title_text; now rewrite F).
    rewrite T.
    right. split; [reflexivity|]. exists item. split; [now left | exact F].
Qed.

(** On an RSS document, [getNews] raises [AttributeError] exactly when one
    of the stories it looks at, the first [NUM_STORIES] items, has no
    [title] child; an item after those is never looked at. *)
Theorem getNews_missing_title (w : world) (r : response)
  (rs : list response) (root : element) :
  responses w = r :: rs -> content r = XmlBody root ->
  (getNews w = Raise AttributeError <->
   exists item, In item (first_stories root) /\ find "title" item = None).
Proof.
  intros Hr Hc. unfold getNews, sbind, requests_get. rewrite Hr.
  unfold lift, fromstring. rewrite Hc.
  rewrite getNews_loop_mapM by (unfold NUM_STORIES; lia).
  rewrite Nat.sub_0_r. fold (items root). fold (first_stories root).
  destruct (mapM_title_text_cases (first_stories root))
    as [E | (E & item & Hi & Hn)]; rewrite E; cbn [Py.bind].
  - split; [discriminate|].
    intros (item & Hi & Hn). exfalso.
    assert (M : mapM title_text (first_stories root) = Raise AttributeError).
    { clear E. induction (first_stories root) as [|x l IH]; [contradiction|].
      cbn [mapM]. unfold title_text at 1.
      destruct Hi as [-> | Hi]; [now rewrite Hn|].
      destruct (find "title" x); [|reflexivity].
      cbn [Py.bind]. now rewrite (IH Hi). }
    congruence.
  - split; [|reflexivity]. intros _. now exists item.
Qed.

Lemma getFacts_client (w : world) (m : message) (w' : world) :
  getFacts w = Ok (m, w') ->
  same_client w w' /\
  exists k, (NUM_STORIES <= k)%nat /\
            requested w' = (requested w ++ repeat facts_url k)%list.
Proof.
  unfold getFacts. intros H.
  destruct (getFacts_loop (responses w) 0 [] (requested w))
    as [[[facts rest] asked]|e] eqn:L; [|discriminate].
  injection H as <- <-.
  apply getFacts_loop_Ok in L; [|unfold NUM_STORIES; lia].
  destruct L as (used & new & Hr & -> & Hm & Hn & ->).
  split; [unfold same_client; cbn; auto|].
  exists (List.length used). split; [|reflexivity].
  apply mapM_length in Hm. cbn [Nat.add] in Hn. rewrite <- Hn, Hm.
  apply filter_length_le.
Qed.

Lemma getTrivia_client (w : world) (m : message) (w' : world) :
  getTrivia w = Ok (m, w') ->
  same_client w w' /\
  exists category, In category triviaCategories /\
                   requested w' = (requested w ++ [trivia_url category])%list.
Proof.
  unfold getTrivia. intros H.
  apply sbind_Ok in H. destruct H as (category & w1 & Hc & H).
  apply random_choice_Ok in Hc. destruct Hc as (Hin & Hr1 & Hq1 & Hs1).
  apply sbind_Ok in H. destruct H as (r & w2 & Hg & H).
  apply requests_get_Ok in Hg. destruct Hg as (Hr2 & Hq2 & _ & Hs2).
  assert (E : w' = w2).
  { destruct (status_code r =? codes_ok).
    - apply lift_Ok in H. tauto.
    - now injection H as _ <-. }
  subst w'. split; [exact (same_client_trans _ _ _ Hs1 Hs2)|].
  exists category. split; [exact Hin|]. unfold trivia_url. congruence.
Qed.

Lemma fetch_client {A} (url : string) (f : response -> result A)
  (w : world) (a : A) (w' : world) :
  (response <~ requests_get url ;; lift (f response)) w = Ok (a, w') ->
  same_client w w' /\ requested w' = (requested w ++ [url])%list.
Proof.
  intros H. apply sbind_Ok in H. destruct H as (r & w1 & Hg & H).
  apply requests_get_Ok in Hg. destruct Hg as (_ & Hq & _ & Hs).
  apply lift_Ok in H. destruct H as [_ ->]. auto.
Qed.

Lemma getNews_client (w : world) (news : list (option string)) (w' : world) :
  getNews w = Ok (news, w') ->
  same_client w w' /\ requested w' = (requested w ++ [RSS_FEED])%list.
Proof.
  intros H.
  apply (fetch_client RSS_FEED
           (fun response =>
              root <- fromstring response ;;
              getNews_loop (findall_descendants "item" root) 0 []) w news w').
  unfold getNews, sbind in *.
  destruct (requests_get RSS_FEED w) as [[r w1]|e]; [|discriminate].
  unfold lift in *. destruct (fromstring r); [exact H | discriminate].
Qed.

Lemma connect_Ok (host : string) (port keepalive : Z) (w : world) (u : unit)
  (w' : world) :
  connect host port keepalive w = Ok (u, w') ->
  calls w' = (calls w ++ [Connect host port keepalive])%list /\
  requested w' = requested w.
Proof.
  unfold connect. destruct (broker w); [discriminate| |];
    intros [= _ <-]; auto.
Qed.

Lemma sendToMqtt_Ok (title : string) (msg : message) (w : world) (u : unit)
  (w' : world) :
  sendToMqtt title msg w = Ok (u, w') ->
  exists before,
    calls w'
    = (calls w ++ before
       ++ [Publish (MQTT_BASE_TOPIC ++ "/" ++ title) msg true])%list /\
    filter is_publish before = [] /\
    requested w' = requested w.
Proof.
  unfold sendToMqtt, sbind, is_connected. destruct (connected w); cbn [negb].
  - intros [= _ <-]. exists []. auto.
  - destruct (connect MQTT_BROKER MQTT_PORT 60 w) as [[u1 w1]|e] eqn:C;
      [|discriminate].
    apply connect_Ok in C. destruct C as [C Q].
    intros [= _ <-]. exists [Connect MQTT_BROKER MQTT_PORT 60]. cbn.
    rewrite C, Q, <- app_assoc. auto.
Qed.

(** A run of [main] that returns fetched the facts, the trivia, the jokes
    and the news in that order, connected to the broker, and then
    published exactly four messages, all retained: the news, the jokes, the
    facts and the trivia, in that order, under [ledSign/feed]. *)
Theorem main_publishes (w w' : world) (u : unit) :
  main w = Ok (u, w') ->
  exists facts trivia jokes news w1 w2 w3 w4 k category sent,
    getFacts w = Ok (facts, w1) /\ getTrivia w1 = Ok (trivia, w2) /\
    getJokes w2 = Ok (jokes, w3) /\ getNews w3 = Ok (news, w4) /\
    (NUM_STORIES <= k)%nat /\ In category triviaCategories /\
    requested w'
    = (requested w ++ repeat facts_url k
       ++ [trivia_url category; JOKE_API; RSS_FEED])%list /\
    calls w' = (calls w ++ Connect MQTT_BROKER MQTT_PORT 60 :: sent)%list /\
    filter is_publish sent
    = [ Publish (feed_topic "news/list")
          (json_dumps (json_of_titles news)) true;
        Publish (feed_topic "jokes/list")
          (json_dumps (json_of_strings jokes)) true;
        Publish (feed_topic "facts/list") facts true;
        Publish (feed_topic "trivia/question") trivia true ].
Proof.
  unfold main. intros H.
  apply sbind_Ok in H. destruct H as (facts & w1 & Hf & H).
  apply sbind_Ok in H. destruct H as (trivia & w2 & Ht & H).
  apply sbind_Ok in H. destruct H as (jokes & w3 & Hj & H).
  apply sbind_Ok in H. destruct H as (news & w4 & Hn & H).
  apply sbind_Ok in H. destruct H as (u0 & w5 & Hc & H).
  apply sbind_Ok in H. destruct H as (u1 & w6 & S1 & H).
  apply sbind_Ok in H. destruct H as (u2 & w7 & S2 & H).
  apply sbind_Ok in H. destruct H as (u3 & w8 & S3 & S4).
  destruct (getFacts_client _ _ _ Hf) as (Cf & k & Hk & Qf).
  destruct (getTrivia_client _ _ _ Ht) as (Ct & category & Hin & Qt).
  destruct (fetch_client _ _ _ _ _ Hj) as (Cj & Qj).
  destruct (getNews_client _ _ _ Hn) as (Cn & Qn).
  apply connect_Ok in Hc. destruct Hc as (Cc & Qc).
  apply sendToMqtt_Ok in S1. destruct S1 as (b1 & C1 & F1 & Q1).
  apply sendToMqtt_Ok in S2. destruct S2 as (b2 & C2 & F2 & Q2).
  apply sendToMqtt_Ok in S3. destruct S3 as (b3 & C3 & F3 & Q3).
  apply sendToMqtt_Ok in S4. destruct S4 as (b4 & C4 & F4 & Q4).
  pose proof (same_client_trans _ _ _
                (same_client_trans _ _ _
                   (same_client_trans _ _ _ Cf Ct) Cj) Cn) as (_ & _ & C0 & _).
  exists facts, trivia, jokes, news, w1, w2, w3, w4, k, category.
  exists (b1 ++ Publish (feed_topic "news/list")
                  (json_dumps (json_of_titles news)) true
          :: b2 ++ Publish (feed_topic "jokes/list")
                     (json_dumps (json_of_strings jokes)) true
          :: b3 ++ Publish (feed_topic "facts/list") facts true
          :: b4 ++ [Publish (feed_topic "trivia/question") trivia true])%list.
  split; [exact Hf|]. split; [exact Ht|]. split; [exact Hj|].
  split; [exact Hn|]. split; [exact Hk|]. split; [exact Hin|].
  split; [|split].
  - rewrite Q4, Q3, Q2, Q1, Qc, Qn, Qj, Qt, Qf.
    rewrite <- !app_assoc. reflexivity.
  - rewrite C4, C3, C2, C1, Cc, C0.
    change (MQTT_BASE_TOPIC ++ "/" ++ "news/list")
      with (feed_topic "news/list").
    change (MQTT_BASE_TOPIC ++ "/" ++ "jokes/list")
      with (feed_topic "jokes/list").
    change (MQTT_BASE_TOPIC ++ "/" ++ "facts/list")
      with (feed_topic "facts/list").
    change (MQTT_BASE_TOPIC ++ "/" ++ "trivia/question")
      with (feed_topic "trivia/question").
    rewrite <- !app_assoc. reflexivity.
  - rewrite filter_app, F1. cbn [app filter is_publish].
    rewrite filter_app, F2. cbn [app filter is_publish].
    rewrite filter_app, F3. cbn [app filter is_publish].
    rewrite filter_app, F4. reflexivity.
Qed.

End Fetches.

(* ================================================================== *)
(** * Runs of the settings, of the actions and of the fetches *)

Section SettingsRuns.
Import cv cg betabrite.

Lemma sample_compiles : compile (YDict sample_config) = Ok sample_code.
Proof. vm_compute. reflexivity. Defined.

Lemma header_settings_delivered_witness :
  compile (YDict sample_config) = Ok sample_code /\
  exists sign_type address max_files,
    delivered "set_sign_type" sample_code
    = [MemberOf "betabrite" sign_type] /\
    In sign_type (map snd SIGN_TYPES) /\
    delivered "set_address" sample_code = [StringLiteral address] /\
    String.length address = 2%nat /\
    delivered "set_max_files" sample_code = [max_files] /\
    literal_between 1 26 max_files /\
    (lookup CONF_SIGN_TYPE sample_config = None -> sign_type = "ST_ALL") /\
    (forall s, lookup CONF_SIGN_TYPE sample_config = Some (YStr s) ->
               lookup (lower s) SIGN_TYPES = Some sign_type) /\
    (lookup CONF_ADDRESS sample_config = None -> address = "00") /\
    (lookup CONF_MAX_FILES sample_config = None ->
       max_files = IntLiteral 5) /\
    (forall v, lookup CONF_MAX_FILES sample_config = Some v ->
               exists n, whole_number v n /\ 1 <= n <= 26 /\
                         number_expression (kept v n) max_files).
Proof.
  split; [exact sample_compiles|].
  exact (header_settings_delivered sample_config sample_code sample_compiles).
Defined.

Lemma default_settings_delivered_witness :
  compile (YDict sample_config) = Ok sample_code /\
  lookup CONF_DEFAULTS sample_config <> None /\
  exists color mode charset position speed effect,
    In color COLORS /\ In mode MODES /\ In charset CHARSETS /\
    In position POSITIONS /\ literal_between 1 5 speed /\
    In effect EFFECTS /\
    map (fun m => delivered m sample_code) default_setters
    = [ [raw_call "color_from_string" color];
        [raw_call "mode_from_string" mode];
        [raw_call "charset_from_string" charset];
        [raw_call "position_from_string" position];
        [speed];
        [raw_call "effect_from_string" effect] ].
Proof.
  assert (P : lookup CONF_DEFAULTS sample_config <> None)
    by (vm_compute; discriminate).
  split; [exact sample_compiles|]. split; [exact P|].
  exact (proj2 (default_settings_delivered sample_config sample_code
                  sample_compiles) P).
Defined.

Lemma clock_settings_delivered_witness :
  compile (YDict sample_config) = Ok sample_code /\
  lookup CONF_CLOCK sample_config <> None /\
  is_24h sample_config = true /\
  exists enabled interval duration color,
    0 <= interval /\ 0 <= duration /\ In color COLORS /\
    map (fun m => delivered m sample_code) clock_setters
    = [ [BoolLiteral enabled]; [IntLiteral interval];
        [IntLiteral duration]; [BoolLiteral (is_24h sample_config)];
        [raw_call "color_from_string" color] ].
Proof.
  assert (P : lookup CONF_CLOCK sample_config <> None)
    by (vm_compute; discriminate).
  split; [exact sample_compiles|]. split; [exact P|].
  split; [reflexivity|].
  exact (proj2 (clock_settings_delivered sample_config sample_code
                  sample_compiles) P).
Defined.


Lemma offline_durations_delivered_witness :
  compile (YDict sample_config) = Ok sample_code /\
  Forall2 passes_duration (configured_messages sample_config)
    (filter is_offline_call sample_code).
Proof.
  split; [exact sample_compiles|].
  exact (offline_durations_delivered sample_config sample_code
           sample_compiles).
Defined.

Lemma priority_settings_delivered_witness :
  compile (YDict sample_config) = Ok sample_code /\
  lookup CONF_PRIORITY sample_config = Some (YDict []) /\
  map (fun m => delivered m sample_code) priority_setters
  = [ [IntLiteral 2500]; [IntLiteral 25000] ].
Proof.
  split; [exact sample_compiles|]. split; [reflexivity|].
  exact (proj2 (proj2 (priority_settings_delivered sample_config sample_code
                         sample_compiles)) eq_refl).
Defined.

Lemma offline_speeds_delivered_witness :
  compile (YDict spoken_speeds_config) = Ok spoken_speeds_code /\
  map (fun s => match s with
                | Call _ args => nth_error args 7
                | _ => None
                end) (filter is_offline_call spoken_speeds_code)
  = [ Some (BoolLiteral true); Some (IntLiteral 2); Some (IntLiteral 3) ] /\
  Forall2 passes_speed (configured_messages spoken_speeds_config)
    (filter is_offline_call spoken_speeds_code).
Proof.
  assert (H : compile (YDict spoken_speeds_config) = Ok spoken_speeds_code)
    by (vm_compute; reflexivity).
  split; [exact H|]. split; [reflexivity|].
  exact (offline_speeds_delivered spoken_speeds_config spoken_speeds_code H).
Defined.


Lemma unknown_key_rejected_witness :
  lookup "brightness" unknown_key_config = Some (YInt 3) /\
  compile (YDict unknown_key_config)
  = Raise (Invalid "extra keys not allowed").
Proof.
  split; [reflexivity|].
  apply (unknown_key_rejected unknown_key_config "brightness" (YInt 3));
    [reflexivity|].
  cbv. intros H.
  repeat (destruct H as [H|H]; [discriminate H|]). exact H.
Defined.

Lemma display_action_code_witness :
  compile_action DISPLAY_MESSAGE_ACTION_SCHEMA
    betabrite_display_action_to_code (YDict display_action)
    (ID (Some "show"))
  = Ok display_action_statements /\
  exists tv text colors modes effects,
    lookup CONF_TEXT display_action = Some tv /\ text_template tv text /\
    optional_call "set_color" COLORS (lookup CONF_COLOR display_action)
      colors /\
    optional_call "set_mode" MODES (lookup CONF_MODE display_action) modes /\
    optional_call "set_effect" EFFECTS (lookup CONF_EFFECT display_action)
      effects /\
    display_action_statements
    = ([ NewPvariable (ID (Some "show")); Call "set_message" [text] ]
       ++ colors ++ modes ++ effects)%list.
Proof.
  assert (H : compile_action DISPLAY_MESSAGE_ACTION_SCHEMA
                betabrite_display_action_to_code (YDict display_action)
                (ID (Some "show"))
              = Ok display_action_statements)
    by (vm_compute; reflexivity).
  split; [exact H|].
  exact (display_action_code display_action (ID (Some "show"))
           display_action_statements H).
Defined.


Lemma priority_action_duration_seconds_witness :
  lookup CONF_DURATION timed_priority_action = Some (YStr "90s") /\
  compile_priority_action (YDict timed_priority_action) (ID (Some "alarm"))
  = Ok timed_priority_statements /\
  exists us, period_microseconds (YStr "90s") = Ok us /\
    us mod 1000000 = 0 /\
    delivered "set_duration" timed_priority_statements
    = [IntLiteral (us / 1000000)].
Proof.
  assert (H : compile_priority_action (YDict timed_priority_action)
                (ID (Some "alarm")) = Ok timed_priority_statements)
    by (vm_compute; reflexivity).
  split; [reflexivity|]. split; [exact H|].
  apply (proj1 (proj2 (priority_action_duration_seconds
                         timed_priority_action (YStr "90s")
                         (ID (Some "alarm")) eq_refl))
           timed_priority_statements);
    [discriminate | exact H].
Defined.

Lemma text_required_witness :
  In (YDict [ (CONF_COLOR, YStr "red") ])
    (configured_messages textless_config) /\
  ~ accepted (compile (YDict textless_config)) /\
  ~ accepted (Schema DISPLAY_MESSAGE_ACTION_SCHEMA
                (YDict [ (CONF_COLOR, YStr "red") ])).
Proof.
  split; [left; reflexivity|]. split.
  - apply (proj2 text_required textless_config [ (CONF_COLOR, YStr "red") ]);
      [left; reflexivity | reflexivity].
  - apply (proj1 text_required DISPLAY_MESSAGE_ACTION_SCHEMA
             [ (CONF_COLOR, YStr "red") ]);
      [right; left; reflexivity | reflexivity].
Defined.

Lemma parameterless_action_code_witness :
  In (CLEAR_ACTION_SCHEMA, betabrite_clear_action_to_code)
    parameterless_actions /\
  compile_action CLEAR_ACTION_SCHEMA betabrite_clear_action_to_code
    (YDict clear_with_text) (ID (Some "wipe"))
  = Raise (Invalid "extra keys not allowed") /\
  compile_action CLEAR_ACTION_SCHEMA betabrite_clear_action_to_code
    (YDict []) (ID (Some "wipe"))
  = Ok [NewPvariable (ID (Some "wipe"))].
Proof.
  assert (H : In (CLEAR_ACTION_SCHEMA, betabrite_clear_action_to_code)
                parameterless_actions) by (left; reflexivity).
  split; [exact H|].
  destruct (parameterless_action_code CLEAR_ACTION_SCHEMA
              betabrite_clear_action_to_code clear_with_text
              (ID (Some "wipe")) H) as (_ & R & E).
  split; [|exact E].
  apply (R CONF_TEXT (YStr "Hello")); [reflexivity | discriminate].
Defined.

End SettingsRuns.

Section FetchRuns.
Import updateFeed.

Lemma getFacts_five_witness :
  exists m w',
    getFacts facts_world = Ok (m, w') /\
    exists used facts,
      responses facts_world = (used ++ responses w')%list /\
      mapM fact_of (filter response_ok used) = Ok facts /\
      List.length facts = NUM_STORIES /\
      m = json_dumps (JArr facts) /\
      requested w'
      = (requested facts_world
         ++ repeat facts_url (List.length used))%list /\
      same_client facts_world w'.
Proof.
  assert (H : { run | getFacts facts_world = Ok run })
    by (eexists; vm_compute; reflexivity).
  destruct H as [[m w'] H]. exists m, w'. split; [exact H|].
  exact (getFacts_five facts_world m w' H).
Defined.

Lemma getFacts_malformed_witness :
  responses broken_facts_world
  = ([ Response 503 (OtherBody "Service Unavailable") ]
     ++ Response 200 (JsonBody (JArr [])) :: [])%list /\
  fact_of (Response 200 (JsonBody (JArr []))) = Raise IndexError /\
  getFacts broken_facts_world = Raise IndexError.
Proof.
  split; [reflexivity|]. split; [reflexivity|].
  apply (getFacts_malformed broken_facts_world
           [ Response 503 (OtherBody "Service Unavailable") ]
           (Response 200 (JsonBody (JArr []))) [] IndexError);
    [reflexivity | repeat constructor | reflexivity | reflexivity].
Defined.

Lemma getFacts_returns_witness :
  getFacts facts_world
  = Ok (json_dumps (JArr (repeat (JStr "Honey never spoils") 5)),
        World [ Response 200 (OtherBody "left over") ]
          (requested facts_world ++ repeat facts_url 6)%list
          (entropy facts_world) (broker facts_world) (connected facts_world)
          (calls facts_world) (printed facts_world)).
Proof.
  apply (getFacts_returns facts_world
           [ Response 429 (OtherBody "Too Many Requests");
             fact_response; fact_response; fact_response; fact_response ]
           fact_response [ Response 200 (OtherBody "left over") ]
           (repeat (JStr "Honey never spoils") 5));
    reflexivity.
Defined.

Lemma getJokes_jokes_witness :
  getJokes jokes_world
  = Ok ([ "A B"; "One line" ],
        World [] [JOKE_API] [] Silent false [] []) /\
  exists r answer,
    responses jokes_world = [r] /\
    same_client jokes_world (World [] [JOKE_API] [] Silent false [] []) /\
    json_of r = Ok answer /\
    forall l, field answer "jokes" = Ok (JArr l) ->
      Forall2 (fun joke text =>
                 exists s, field joke "joke" = Ok (JStr s) /\
                           text = replace_newlines s /\
                           String.length text = String.length s /\
                           (has_newline s = false -> text = s))
        l [ "A B"; "One line" ].
Proof.
  assert (H : getJokes jokes_world
              = Ok ([ "A B"; "One line" ],
                    World [] [JOKE_API] [] Silent false [] []))
    by (vm_compute; reflexivity).
  split; [exact H|].
  destruct (getJokes_jokes jokes_world _ _ H)
    as (r & answer & Hr & _ & Hc & Ha & _ & Hl).
  exists r, answer. auto.
Defined.

Lemma getJokes_error_answer_witness :
  lookup "jokes" [ ("error", JBool true);
                   ("message", JStr "No matching joke found") ] = None /\
  getJokes joke_error_world = Raise (KeyError "jokes").
Proof.
  split; [reflexivity|].
  apply (getJokes_error_answer joke_error_world
           (Response 200
              (JsonBody (JObj [ ("error", JBool true);
                                ("message",
                                 JStr "No matching joke found") ])))
           [] [ ("error", JBool true);
                ("message", JStr "No matching joke found") ]);
    reflexivity.
Defined.

Lemma getTrivia_request_witness :
  exists m w',
    getTrivia trivia_world = Ok (m, w') /\
    exists category r,
      In category triviaCategories /\
      responses trivia_world = r :: responses w' /\
      requested w'
      = (requested trivia_world ++ [trivia_url category])%list /\
      same_client trivia_world w' /\
      (response_ok r = false -> m = MNone) /\
      (response_ok r = true ->
       exists answer x,
         json_of r = Ok answer /\ first answer = Ok x /\ m = json_dumps x).
Proof.
  assert (H : { run | getTrivia trivia_world = Ok run })
    by (eexists; vm_compute; reflexivity).
  destruct H as [[m w'] H]. exists m, w'. split; [exact H|].
  exact (getTrivia_request trivia_world m w' H).
Defined.

Lemma getNews_missing_title_witness :
  In (Element "item" None
        [ Element "description" (Some "No headline today") [] ])
    (first_stories untitled_feed) /\
  getNews untitled_world = Raise AttributeError.
Proof.
  split; [left; reflexivity|].
  apply (getNews_missing_title untitled_world
           (Response 200 (XmlBody untitled_feed)) [] untitled_feed
           eq_refl eq_refl).
  exists (Element "item" None
            [ Element "description" (Some "No headline today") [] ]).
  split; [left; reflexivity | reflexivity].
Defined.

Lemma main_publishes_witness :
  exists w',
    main failing_trivia_world = Ok (tt, w') /\
    exists facts trivia jokes news w1 w2 w3 w4 k category sent,
      getFacts failing_trivia_world = Ok (facts, w1) /\
      getTrivia w1 = Ok (trivia, w2) /\
      getJokes w2 = Ok (jokes, w3) /\ getNews w3 = Ok (news, w4) /\
      (NUM_STORIES <= k)%nat /\ In category triviaCategories /\
      requested w'
      = (requested failing_trivia_world ++ repeat facts_url k
         ++ [trivia_url category; JOKE_API; RSS_FEED])%list /\
      calls w'
      = (calls failing_trivia_world
         ++ Connect MQTT_BROKER MQTT_PORT 60 :: sent)%list /\
      filter is_publish sent
      = [ Publish (feed_topic "news/list")
            (json_dumps (json_of_titles news)) true;
          Publish (feed_topic "jokes/list")
            (json_dumps (json_of_strings jokes)) true;
          Publish (feed_topic "facts/list") facts true;
          Publish (feed_topic "trivia/question") trivia true ].
Proof.
  assert (H : { w' | main failing_trivia_world = Ok (tt, w') })
    by (eexists; vm_compute; reflexivity).
  destruct H as [w' H]. exists w'. split; [exact H|].
  exact (main_publishes failing_trivia_world w' tt H).
Defined.

End FetchRuns.
